(** * Room allocation system: the allocation engine

    A shallow embedding of [logic/allocation.py] together with the parts of
    [data/models.py] and [utils/helpers.py] it calls, of the validators of
    the submission form ([utils/security.py], [data/models.py]) and of the
    two preference files of [data/storage.py], and the properties of the two
    allocators, of the validator and of the way of a preference into the
    files.

    Conventions of the embedding.
    - Python dictionaries holding records (preferences, allocations) are
      Rocq records, one module per record so that the field names of the
      source are kept.
    - Dictionaries used as maps are [gmap]s; the two dictionaries whose
      iteration order reaches the output ([room_usage] and [oasis_usage] of
      the validator, [priority_groups] of the shuffle) are association lists
      in insertion order.
    - [random] is a finite tape of draws: every call of [randbelow] consumes
      one draw, and every statement is proved for all tapes.
    - [datetime.now()] is read from a [Clock] value.
    - A [KeyError] is the [None] of an [option].
    - Python's [str.strip] and [str.lower] are parameters of the definitions
      that call them. *)

From Stdlib Require Import ZArith QArith Qcanon Lia Lqa.
From stdpp Require Import base numbers gmap strings list fin_maps pretty sorting.

Local Open Scope Z_scope.

(** ** data/models.py *)

Module TeamPreference.
(** [submission_time] holds what
    [datetime.fromisoformat(submission_time).timestamp()] makes of the
    stored string: the POSIX timestamp in seconds, or [None] when the
    string is not in ISO format. *)
Record t : Type := mk {
  team_name : string;
  contact_person : string;
  team_size : Z;
  preferred_days : string;
  submission_time : option Qc
}.
End TeamPreference.

Module OasisPreference.
(** The dictionary produced by [OasisPreference.to_dict]: the preferred
    days are stored in five separate fields, [None] when unused. *)
Record t : Type := mk {
  person_name : string;
  submission_time : string;
  preferred_day_1 : option string;
  preferred_day_2 : option string;
  preferred_day_3 : option string;
  preferred_day_4 : option string;
  preferred_day_5 : option string
}.
End OasisPreference.

Module WeeklyAllocation.
Record t : Type := mk {
  team_name : string;
  room_name : string;
  date : string;
  day_of_week : string;
  confirmed : bool;
  confirmed_at : option string;
  created_at : option string
}.
End WeeklyAllocation.

Module OasisAllocation.
Record t : Type := mk {
  person_name : string;
  date : string;
  day_of_week : string;
  confirmed : bool;
  confirmed_at : option string;
  created_at : option string
}.
End OasisAllocation.

Module ValidationHelper.
Definition get_available_rooms : list string :=
  ["Room A"; "Room B"; "Room C"; "Room D"; "Room E"; "Room F";
   "Room G"; "Room H"; "Room I"].

Definition get_weekdays : list string :=
  ["Monday"; "Tuesday"; "Wednesday"; "Thursday"; "Friday"].
End ValidationHelper.

(** ** The environment: clock and random source *)

(** [monday_plus i] is the [%Y-%m-%d] rendering of the Monday of the current
    week plus [i] days; [now_isoformat] is [datetime.now().isoformat()],
    read as one value for a whole run (no property below depends on the
    [created_at] of a record). *)
Record Clock : Type := {
  monday_plus : nat → string;
  now_isoformat : string
}.

Module Random.
(** The tape of draws still to be consumed. *)
Definition Rng : Type := list nat.

(** [randbelow n]: a number below [n], taken from the tape. *)
Definition randbelow (n : nat) (g : Rng) : nat * Rng :=
  match g with
  | [] => (0%nat, [])
  | x :: g' => ((x mod n)%nat, g')
  end.

(** [x[i], x[j] = x[j], x[i]] *)
Definition swap {A} (i j : nat) (x : list A) : list A :=
  match x !! i, x !! j with
  | Some a, Some b => <[i:=b]> (<[j:=a]> x)
  | _, _ => x
  end.

(** The loop of [random.shuffle], for the indices [i, i-1, ..., 1]. *)
Fixpoint shuffle_from {A} (i : nat) (x : list A) (g : Rng) : list A * Rng :=
  match i with
  | O => (x, g)
  | S i' =>
      let '(j, g') := randbelow (S i) g in
      shuffle_from i' (swap i j x) g'
  end.

(** [random.shuffle(x)]:
    [for i in reversed(range(1, len(x))): j = randbelow(i + 1); swap]. *)
Definition shuffle {A} (x : list A) (g : Rng) : list A * Rng :=
  shuffle_from (length x - 1) x g.
End Random.

(** ** utils/helpers.py *)

Module Helpers.
Import ValidationHelper.

(** [get_current_week_dates]: the five weekdays paired with their dates. *)
Definition get_current_week_dates (clk : Clock) : list (string * string) :=
  imap (λ i day_name, (day_name, monday_plus clk i)) get_weekdays.

(** [{day: date for day, date in week_dates}]: a later pair overrides an
    earlier one with the same key. *)
Definition date_map_of (week_dates : list (string * string)) : gmap string string :=
  foldl (λ m p, <[p.1 := p.2]> m) ∅ week_dates.

(** [calculate_team_priority_score], in exact rational arithmetic (the
    source computes in binary floating point; rounding is not modelled).
    A submission time that does not parse contributes a time score of 0. *)
Definition calculate_team_priority_score (team_size : Z) (submission_time : option Qc) : Qc :=
  let size_score := Q2Qc (inject_Z (team_size * 10)) in
  let time_score :=
    match submission_time with
    | Some timestamp => (- (timestamp / Q2Qc 3600))%Qc
    | None => Q2Qc 0
    end in
  (size_score + time_score * Q2Qc (1 # 1000))%Qc.

(** Python truthiness of [pref.get('preferred_day_i')]. *)
Definition truthy_day (day : option string) : list string :=
  match day with
  | Some d => if decide (d = "") then [] else [d]
  | None => []
  end.

Definition parse_preferred_days_from_oasis_pref (pref : OasisPreference.t) : list string :=
  truthy_day (OasisPreference.preferred_day_1 pref) ++
  truthy_day (OasisPreference.preferred_day_2 pref) ++
  truthy_day (OasisPreference.preferred_day_3 pref) ++
  truthy_day (OasisPreference.preferred_day_4 pref) ++
  truthy_day (OasisPreference.preferred_day_5 pref).
End Helpers.

(** ** logic/allocation.py: ProjectRoomAllocator *)

Module ProjectRoomAllocator.
Import ValidationHelper Helpers Random.

Definition rooms : list string := get_available_rooms.

Definition room_capacities : gmap string Z :=
  list_to_map
    [("Room A", 6); ("Room B", 6);
     ("Room C", 4); ("Room D", 4); ("Room E", 4); ("Room F", 4);
     ("Room G", 4); ("Room H", 4); ("Room I", 4)].

(** [self.room_capacities[room]]; every room of the catalog is a key, and
    [0] stands for the [KeyError] that cannot occur. *)
Definition room_capacity (room : string) : Z :=
  default 0 (room_capacities !! room).

Definition mon_wed : string := "Monday & Wednesday".
Definition tue_thu : string := "Tuesday & Thursday".

(** The sort key of [allocate_rooms]. *)
Definition priority (p : TeamPreference.t) : Qc :=
  calculate_team_priority_score
    (TeamPreference.team_size p) (TeamPreference.submission_time p).

(** [teams.sort(key=..., reverse=True)]: a stable sort, highest key first.
    The insertion places [x] in front of the first element whose key is
    not greater, so that equal keys stay in their order. *)
Fixpoint insert_desc {A} (key : A → Qc) (x : A) (l : list A) : list A :=
  match l with
  | [] => [x]
  | y :: l' =>
      if decide (key x < key y)%Qc then y :: insert_desc key x l'
      else x :: y :: l'
  end.

Definition sort_desc {A} (key : A → Qc) (l : list A) : list A :=
  foldr (insert_desc key) [] l.

(** [priority_groups]: score to the teams of that score, in the order in
    which the scores were first met. *)
Fixpoint group_append (score : Qc) (team : TeamPreference.t)
    (groups : list (Qc * list TeamPreference.t)) : list (Qc * list TeamPreference.t) :=
  match groups with
  | [] => [(score, [team])]
  | (s, group) :: rest =>
      if decide (s = score) then (s, group ++ [team]) :: rest
      else (s, group) :: group_append score team rest
  end.

Definition group_by_priority (teams : list TeamPreference.t)
    : list (Qc * list TeamPreference.t) :=
  foldl (λ groups team, group_append (priority team) team groups) [] teams.

(** [for group in priority_groups.values(): random.shuffle(group)] *)
Fixpoint shuffle_groups (groups : list (Qc * list TeamPreference.t)) (g : Rng)
    : list (Qc * list TeamPreference.t) * Rng :=
  match groups with
  | [] => ([], g)
  | (s, group) :: rest =>
      let '(group', g1) := shuffle group g in
      let '(rest', g2) := shuffle_groups rest g1 in
      ((s, group') :: rest', g2)
  end.

(** [priority_groups[score]] *)
Fixpoint group_lookup (score : Qc) (groups : list (Qc * list TeamPreference.t))
    : list TeamPreference.t :=
  match groups with
  | [] => []
  | (s, group) :: rest =>
      if decide (s = score) then group else group_lookup score rest
  end.

Definition _shuffle_same_priority_teams (teams : list TeamPreference.t) (g : Rng)
    : list TeamPreference.t * Rng :=
  if decide (length teams ≤ 1)%nat then (teams, g)
  else
    let priority_groups := group_by_priority teams in
    let '(priority_groups, g') := shuffle_groups priority_groups g in
    (sort_desc id priority_groups.*1 ≫= λ score, group_lookup score priority_groups, g').

(** [room_usage[day][room]]; the days and rooms looked up are keys by
    construction, and [0] stands for the [KeyError] that cannot occur. *)
Definition usage_of (room_usage : gmap string (gmap string Z)) (day room : string) : Z :=
  default 0 (room_usage !! day ≫= λ per_room, per_room !! room).

(** [room_usage[day][room] = v] *)
Definition set_usage (room_usage : gmap string (gmap string Z)) (day room : string) (v : Z)
    : gmap string (gmap string Z) :=
  <[day := <[room := v]> (default ∅ (room_usage !! day))]> room_usage.

(** [{day: {room: 0 for room in self.rooms} for day in days}] *)
Definition init_usage (days : list string) : gmap string (gmap string Z) :=
  list_to_map ((λ day, (day, list_to_map ((λ room, (room, 0)) <$> rooms))) <$> days).

(** One step of the loop over [existing_allocations]: a room that already
    holds an allocation on one of the days is marked as full. *)
Definition mark_existing (room_usage : gmap string (gmap string Z))
    (allocation : WeeklyAllocation.t) : gmap string (gmap string Z) :=
  let day := WeeklyAllocation.day_of_week allocation in
  let room := WeeklyAllocation.room_name allocation in
  match room_usage !! day with
  | Some per_room =>
      match per_room !! room with
      | Some _ => set_usage room_usage day room (room_capacity room)
      | None => room_usage
      end
  | None => room_usage
  end.

(** The test made for one room: large enough, and free on both days. *)
Definition room_suits (room_usage : gmap string (gmap string Z)) (days : list string)
    (team_size : Z) (room : string) : bool :=
  let capacity := room_capacity room in
  bool_decide (capacity >= team_size) &&
  forallb (λ day, negb (bool_decide (usage_of room_usage day room + team_size > capacity))) days.

(** The first room of the catalog that suits, if any. *)
Definition find_suitable_room (room_usage : gmap string (gmap string Z))
    (days : list string) (team_size : Z) : option string :=
  snd <$> list_find (λ room, room_suits room_usage days team_size room = true) rooms.

(** One day of [for day in days: ...] for a placed team. *)
Definition allocate_day (clk : Clock) (date_map : gmap string string)
    (team : TeamPreference.t) (suitable_room : string)
    (st : list WeeklyAllocation.t * gmap string (gmap string Z)) (day : string)
    : list WeeklyAllocation.t * gmap string (gmap string Z) :=
  let allocation :=
    WeeklyAllocation.mk (TeamPreference.team_name team) suitable_room
      (date_map !!! day) day false None (Some (now_isoformat clk)) in
  (st.1 ++ [allocation],
   set_usage st.2 day suitable_room
     (usage_of st.2 day suitable_room + TeamPreference.team_size team)).

(** The loop state of [_allocate_teams_for_days]. *)
Record loop_state : Type := {
  allocations : list WeeklyAllocation.t;
  unplaced_teams : list TeamPreference.t;
  room_usage : gmap string (gmap string Z)
}.

(** The body of [for team in teams]. *)
Definition place_team (clk : Clock) (date_map : gmap string string) (days : list string)
    (st : loop_state) (team : TeamPreference.t) : loop_state :=
  match find_suitable_room (room_usage st) days (TeamPreference.team_size team) with
  | Some suitable_room =>
      let r := foldl (allocate_day clk date_map team suitable_room)
                 (allocations st, room_usage st) days in
      {| allocations := r.1; unplaced_teams := unplaced_teams st; room_usage := r.2 |}
  | None =>
      {| allocations := allocations st;
         unplaced_teams := unplaced_teams st ++ [team];
         room_usage := room_usage st |}
  end.

Definition _allocate_teams_for_days (clk : Clock) (teams : list TeamPreference.t)
    (days : list string) (date_map : gmap string string)
    (existing_allocations : list WeeklyAllocation.t)
    : list WeeklyAllocation.t * list TeamPreference.t :=
  let room_usage := foldl mark_existing (init_usage days) existing_allocations in
  let st := foldl (place_team clk date_map days)
              {| allocations := []; unplaced_teams := []; room_usage := room_usage |} teams in
  (allocations st, unplaced_teams st).

Definition alternative_days (team : TeamPreference.t) : list string :=
  if decide (TeamPreference.preferred_days team = mon_wed)
  then ["Tuesday"; "Thursday"] else ["Monday"; "Wednesday"].

(** The body of [for team in all_unplaced]: the team is tried on the other
    pair of days, against the allocations made so far. *)
Definition place_overflow (clk : Clock) (date_map : gmap string string)
    (st : list WeeklyAllocation.t * list string) (team : TeamPreference.t)
    : list WeeklyAllocation.t * list string :=
  let '(alt_allocations, _) :=
    _allocate_teams_for_days clk [team] (alternative_days team) date_map st.1 in
  match alt_allocations with
  | [] => (st.1, st.2 ++ [TeamPreference.team_name team])
  | _ :: _ => (st.1 ++ alt_allocations, st.2)
  end.

Definition allocate_rooms (clk : Clock) (preferences : list TeamPreference.t) (g : Rng)
    : list WeeklyAllocation.t * list string :=
  match preferences with
  | [] => ([], [])
  | _ :: _ =>
      let mon_wed_teams :=
        filter (λ p, TeamPreference.preferred_days p = mon_wed) preferences in
      let tue_thu_teams :=
        filter (λ p, TeamPreference.preferred_days p = tue_thu) preferences in
      let mon_wed_teams := sort_desc priority mon_wed_teams in
      let tue_thu_teams := sort_desc priority tue_thu_teams in
      let '(mon_wed_teams, g) := _shuffle_same_priority_teams mon_wed_teams g in
      let '(tue_thu_teams, g) := _shuffle_same_priority_teams tue_thu_teams g in
      let date_map := date_map_of (get_current_week_dates clk) in
      let '(mon_wed_allocations, mon_wed_unplaced) :=
        _allocate_teams_for_days clk mon_wed_teams ["Monday"; "Wednesday"] date_map [] in
      let allocations := [] ++ mon_wed_allocations in
      let '(tue_thu_allocations, tue_thu_unplaced) :=
        _allocate_teams_for_days clk tue_thu_teams ["Tuesday"; "Thursday"] date_map [] in
      let allocations := allocations ++ tue_thu_allocations in
      let all_unplaced := mon_wed_unplaced ++ tue_thu_unplaced in
      foldl (place_overflow clk date_map) (allocations, []) all_unplaced
  end.
End ProjectRoomAllocator.

(** ** logic/allocation.py: OasisAllocator *)

(** The dictionaries built from the preferences at the start of
    [allocate_oasis]. *)
Module ParsedPreference.
Record t : Type := mk {
  person_name : string;
  preferred_days : list string;
  submission_time : string
}.

#[global] Instance eq_dec : EqDecision t.
Proof. solve_decision. Defined.
End ParsedPreference.

Module OasisAllocator.
Import ValidationHelper Helpers Random.

Definition daily_capacity : nat := 11.
Definition weekdays : list string := get_weekdays.

Definition parse (pref : OasisPreference.t) : ParsedPreference.t :=
  ParsedPreference.mk (OasisPreference.person_name pref)
    (parse_preferred_days_from_oasis_pref pref)
    (OasisPreference.submission_time pref).

(** The variables of [allocate_oasis] that its loops update. *)
Record state : Type := {
  daily_allocations : gmap string (list OasisAllocation.t);
  person_allocations : gmap string (list string);
  unallocated_people : list ParsedPreference.t;
  rng : Rng
}.

(** A [for] loop whose body may raise. *)
Fixpoint for_each {S A} (body : S → A → option S) (st : S) (l : list A) : option S :=
  match l with
  | [] => Some st
  | x :: l' => st' ← body st x; for_each body st' l'
  end.

(** [x.remove(v)]: the first element equal to [v] is dropped. *)
Fixpoint remove_first {A} `{EqDecision A} (v : A) (x : list A) : list A :=
  match x with
  | [] => []
  | y :: x' => if decide (y = v) then x' else y :: remove_first v x'
  end.

Definition new_allocation (clk : Clock) (date_map : gmap string string)
    (person_name day : string) : OasisAllocation.t :=
  OasisAllocation.mk person_name (date_map !!! day) day false None
    (Some (now_isoformat clk)).

(** The appends made when [person_name] is given [day]. *)
Definition allocate (clk : Clock) (date_map : gmap string string)
    (person_name day : string) (st : state) : state :=
  {| daily_allocations :=
       alter (λ l, l ++ [new_allocation clk date_map person_name day]) day
         (daily_allocations st);
     person_allocations :=
       alter (λ l, l ++ [day]) person_name (person_allocations st);
     unallocated_people := unallocated_people st;
     rng := rng st |}.

(** [for day in preferred_days: if len(daily_allocations[day]) < capacity]:
    the first day with room, [Some None] when there is none, [None] when a
    day is not a key of [daily_allocations]. *)
Fixpoint first_free_day (daily : gmap string (list OasisAllocation.t))
    (days : list string) : option (option string) :=
  match days with
  | [] => Some None
  | day :: days' =>
      allocs ← daily !! day;
      if decide (length allocs < daily_capacity)%nat then Some (Some day)
      else first_free_day daily days'
  end.

(** The body of the loops of the first pass and of the additional passes
    (the source repeats it word for word). *)
Definition attempt (clk : Clock) (date_map : gmap string string)
    (st : state) (person : ParsedPreference.t) : option state :=
  let '(preferred_days, g) := shuffle (ParsedPreference.preferred_days person) (rng st) in
  let st :=
    {| daily_allocations := daily_allocations st;
       person_allocations := person_allocations st;
       unallocated_people := unallocated_people st;
       rng := g |} in
  found ← first_free_day (daily_allocations st) preferred_days;
  match found with
  | Some day =>
      let st := allocate clk date_map (ParsedPreference.person_name person) day st in
      Some {| daily_allocations := daily_allocations st;
              person_allocations := person_allocations st;
              unallocated_people := remove_first person (unallocated_people st);
              rng := rng st |}
  | None => Some st
  end.

(** [for person in unallocated_people[:]: ...] *)
Definition allocation_pass (clk : Clock) (date_map : gmap string string)
    (st : state) : option state :=
  for_each (attempt clk date_map) st (unallocated_people st).

(** [for pass_num in range(n): if not unallocated_people: break; ...] *)
Fixpoint additional_passes (clk : Clock) (date_map : gmap string string)
    (n : nat) (st : state) : option state :=
  match n with
  | O => Some st
  | S n' =>
      match unallocated_people st with
      | [] => Some st
      | _ :: _ =>
          st' ← allocation_pass clk date_map st;
          additional_passes clk date_map n' st'
      end
  end.

(** [for day in preferred_days: if day not in current_days and
    len(daily_allocations[day]) < capacity]. *)
Fixpoint first_extra_day (daily : gmap string (list OasisAllocation.t))
    (current_days days : list string) : option (option string) :=
  match days with
  | [] => Some None
  | day :: days' =>
      if decide (day ∈ current_days) then first_extra_day daily current_days days'
      else
        allocs ← daily !! day;
        if decide (length allocs < daily_capacity)%nat then Some (Some day)
        else first_extra_day daily current_days days'
  end.

(** The body of [for person in all_people] in the last loop; the boolean is
    [made_allocation]. *)
Definition extra_attempt (clk : Clock) (date_map : gmap string string)
    (sm : state * bool) (person : ParsedPreference.t) : option (state * bool) :=
  let person_name := ParsedPreference.person_name person in
  let current_days := person_allocations sm.1 !!! person_name in
  let preferred_days := ParsedPreference.preferred_days person in
  if decide (length preferred_days ≤ length current_days)%nat then Some sm
  else
    found ← first_extra_day (daily_allocations sm.1) current_days preferred_days;
    match found with
    | Some day => Some (allocate clk date_map person_name day sm.1, true)
    | None => Some sm
    end.

(** [for pass_num in range(n): ...; if not made_allocation: break] *)
Fixpoint extra_passes (clk : Clock) (date_map : gmap string string)
    (parsed_preferences : list ParsedPreference.t) (n : nat) (st : state) : option state :=
  match n with
  | O => Some st
  | S n' =>
      let '(all_people, g) := shuffle parsed_preferences (rng st) in
      let st :=
        {| daily_allocations := daily_allocations st;
           person_allocations := person_allocations st;
           unallocated_people := unallocated_people st;
           rng := g |} in
      '(st', made_allocation) ← for_each (extra_attempt clk date_map) (st, false) all_people;
      if made_allocation : bool then extra_passes clk date_map parsed_preferences n' st'
      else Some st'
  end.

Definition max_additional_passes : nat := 4.

(** [for day_allocations in daily_allocations.values(): extend]: the keys
    of [daily_allocations] are the weekdays, inserted in their order, and
    no key is added later. *)
Definition flatten (daily : gmap string (list OasisAllocation.t)) : list OasisAllocation.t :=
  weekdays ≫= λ day, daily !!! day.

Definition allocate_oasis (clk : Clock) (preferences : list OasisPreference.t) (g : Rng)
    : option (list OasisAllocation.t) :=
  match preferences with
  | [] => Some []
  | _ :: _ =>
      let parsed_preferences := parse <$> preferences in
      let date_map := date_map_of (get_current_week_dates clk) in
      let daily0 : gmap string (list OasisAllocation.t) :=
        list_to_map ((λ day, (day, [])) <$> weekdays) in
      let person0 : gmap string (list string) :=
        list_to_map ((λ pref, (ParsedPreference.person_name pref, [])) <$> parsed_preferences) in
      let '(unallocated_people, g) := shuffle parsed_preferences g in
      let st :=
        {| daily_allocations := daily0;
           person_allocations := person0;
           unallocated_people := unallocated_people;
           rng := g |} in
      st ← allocation_pass clk date_map st;
      st ← additional_passes clk date_map max_additional_passes st;
      st ← extra_passes clk date_map parsed_preferences max_additional_passes st;
      Some (flatten (daily_allocations st))
  end.

(** [get_daily_availability] *)
Definition count_day (daily_counts : gmap string Z) (allocation : OasisAllocation.t)
    : gmap string Z :=
  let day := OasisAllocation.day_of_week allocation in
  match daily_counts !! day with
  | Some n => <[day := n + 1]> daily_counts
  | None => daily_counts
  end.

Definition get_daily_availability (existing_allocations : list OasisAllocation.t)
    : gmap string Z :=
  let daily_counts : gmap string Z := list_to_map ((λ day, (day, 0)) <$> weekdays) in
  let daily_counts := foldl count_day daily_counts existing_allocations in
  foldl (λ availability day,
           <[day := Z.max 0 (Z.of_nat daily_capacity - daily_counts !!! day)]> availability)
    ∅ weekdays.

Definition can_add_person_to_day (day : string)
    (existing_allocations : list OasisAllocation.t) : bool :=
  if decide (day ∈ weekdays) then
    let availability := get_daily_availability existing_allocations in
    bool_decide (availability !!! day > 0)
  else false.

Definition add_adhoc_allocation (clk : Clock) (person_name day : string)
    (existing_allocations : list OasisAllocation.t) : option OasisAllocation.t :=
  if negb (can_add_person_to_day day existing_allocations) then None
  else if existsb (λ allocation,
                     bool_decide (OasisAllocation.person_name allocation = person_name) &&
                     bool_decide (OasisAllocation.day_of_week allocation = day))
            existing_allocations then None
  else
    let date_map := date_map_of (get_current_week_dates clk) in
    match date_map !! day with
    | None => None
    | Some date =>
        Some (OasisAllocation.mk person_name date day false None
                (Some (now_isoformat clk)))
    end.
End OasisAllocator.

(** ** logic/allocation.py: validate_allocation_results *)

Module Validation.
(** [if key not in d: d[key] = []] followed by [d[key].append(v)], on a
    dictionary kept in insertion order. *)
Fixpoint dict_append (key v : string) (d : list (string * list string))
    : list (string * list string) :=
  match d with
  | [] => [(key, [v])]
  | (k, l) :: rest =>
      if decide (k = key) then (k, l ++ [v]) :: rest
      else (k, l) :: dict_append key v rest
  end.

Record summary : Type := {
  total_project_allocations : nat;
  total_oasis_allocations : nat;
  unique_teams : nat;
  unique_people : nat;
  rooms_used : nat;
  oasis_daily_usage : list (string * nat)
}.

Record validation_results : Type := {
  valid : bool;
  errors : list string;
  warnings : list string;
  report : summary
}.

(** [f"{room}_{day}"] *)
Definition room_key (room day : string) : string := room +:+ "_" +:+ day.

Definition group_weekly (weekly_allocations : list WeeklyAllocation.t)
    : list (string * list string) :=
  foldl (λ room_usage allocation,
           dict_append
             (room_key (WeeklyAllocation.room_name allocation)
                (WeeklyAllocation.day_of_week allocation))
             (WeeklyAllocation.team_name allocation) room_usage)
    [] weekly_allocations.

Definition group_oasis (oasis_allocations : list OasisAllocation.t)
    : list (string * list string) :=
  foldl (λ oasis_usage allocation,
           dict_append (OasisAllocation.day_of_week allocation)
             (OasisAllocation.person_name allocation) oasis_usage)
    [] oasis_allocations.

Definition room_conflict_message (key : string) (teams : list string) : string :=
  "Room conflict: " +:+ key +:+ " assigned to multiple teams: " +:+ String.concat ", " teams.

(** The body of [for key, teams in room_usage.items()]; the state is
    [(valid, errors)]. *)
Definition check_room (st : bool * list string) (entry : string * list string)
    : bool * list string :=
  if decide (1 < length entry.2)%nat
  then (false, st.2 ++ [room_conflict_message entry.1 entry.2])
  else st.

Definition capacity_message (day : string) (people : list string) : string :=
  "Oasis capacity exceeded on " +:+ day +:+ ": " +:+ pretty (length people) +:+
  " people (max 11)".

(** [', '.join(set(duplicates))]: the iteration order of a set of strings
    is not fixed by the language; the order of first occurrence is taken. *)
Definition duplicates_message (day : string) (people : list string) : string :=
  let duplicates := filter (λ p, (1 < length (filter (λ q, q = p) people))%nat) people in
  "Duplicate Oasis allocations on " +:+ day +:+ ": " +:+
  String.concat ", " (remove_dups duplicates).

(** The body of [for day, people in oasis_usage.items()]. *)
Definition check_oasis_day (st : bool * list string) (entry : string * list string)
    : bool * list string :=
  let st :=
    if decide (11 < length entry.2)%nat
    then (false, st.2 ++ [capacity_message entry.1 entry.2])
    else st in
  if decide (length entry.2 ≠ length (remove_dups entry.2))
  then (false, st.2 ++ [duplicates_message entry.1 entry.2])
  else st.

Definition validate_allocation_results (weekly_allocations : list WeeklyAllocation.t)
    (oasis_allocations : list OasisAllocation.t) : validation_results :=
  let room_usage := group_weekly weekly_allocations in
  let st := foldl check_room (true, []) room_usage in
  let oasis_usage := group_oasis oasis_allocations in
  let st := foldl check_oasis_day st oasis_usage in
  {| valid := st.1;
     errors := st.2;
     warnings := [];
     report :=
       {| total_project_allocations := length weekly_allocations;
          total_oasis_allocations := length oasis_allocations;
          unique_teams := length (remove_dups (WeeklyAllocation.team_name <$> weekly_allocations));
          unique_people := length (remove_dups (OasisAllocation.person_name <$> oasis_allocations));
          rooms_used := length (remove_dups (WeeklyAllocation.room_name <$> weekly_allocations));
          oasis_daily_usage := (λ entry, (entry.1, length entry.2)) <$> oasis_usage |} |}.
End Validation.

(** ** utils/security.py: InputValidator *)

Module InputValidator.
(** [validate_team_size], for a size that is an integer already ([int(x)]
    is then [x] and raises nothing). *)
Definition validate_team_size (team_size : Z) : bool * Z :=
  if decide (team_size < 3 ∨ team_size > 6) then (false, 0) else (true, team_size).

Definition validate_preferred_days (preferred_days : string) : bool * string :=
  let valid_options := ["Monday & Wednesday"; "Tuesday & Thursday"] in
  if decide (preferred_days ∈ valid_options) then (true, preferred_days) else (false, "").

Definition validate_oasis_days (selected_days : list string) : bool * list string :=
  let valid_weekdays := ["Monday"; "Tuesday"; "Wednesday"; "Thursday"; "Friday"] in
  match selected_days with
  | [] => (false, [])
  | _ :: _ =>
      if decide (5 < length selected_days)%nat then (false, [])
      else if decide (Exists (λ day, day ∉ valid_weekdays) selected_days) then (false, [])
      else if decide (length selected_days ≠ length (remove_dups selected_days))
           then (false, [])
      else (true, selected_days)
  end.
End InputValidator.

(** ** data/models.py: the dataclasses *)

Module Models.
(** The dataclass [OasisPreference]; [TeamPreference.t] serves for the
    dataclass [TeamPreference], whose fields are those of its dictionary. *)
Record oasis_preference : Type := {
  person_name : string;
  preferred_days : list string;
  submission_time : option string
}.

(** The dictionary made by [OasisPreference.to_dict], before the storage
    stamps it with the submission time. *)
Record oasis_dict : Type := {
  dict_person_name : string;
  dict_submission_time : option string;
  dict_preferred_day_1 : option string;
  dict_preferred_day_2 : option string;
  dict_preferred_day_3 : option string;
  dict_preferred_day_4 : option string;
  dict_preferred_day_5 : option string
}.

Section text.
(** Python's [str.strip]. *)
Variable str_strip : string → string.

(** The three tests made on a name, with the messages of the field. *)
Definition name_errors (required too_short too_long : string) (name : string)
    : list string :=
  if decide (name = "" ∨ str_strip name = "") then [required]
  else if decide (String.length (str_strip name) < 2)%nat then [too_short]
  else if decide (50 < String.length (str_strip name))%nat then [too_long]
  else [].

(** [TeamPreference.validate] *)
Definition team_validate (self : TeamPreference.t) : list string :=
  name_errors "Team name is required" "Team name must be at least 2 characters"
    "Team name must be less than 50 characters" (TeamPreference.team_name self) ++
  name_errors "Contact person is required"
    "Contact person name must be at least 2 characters"
    "Contact person name must be less than 50 characters"
    (TeamPreference.contact_person self) ++
  (if decide (TeamPreference.team_size self < 3 ∨ TeamPreference.team_size self > 6)
   then ["Team size must be between 3 and 6 people"] else []) ++
  (if decide (TeamPreference.preferred_days self ∈
                ["Monday & Wednesday"; "Tuesday & Thursday"])
   then []
   else ["Preferred days must be either 'Monday & Wednesday' or 'Tuesday & Thursday'"]).

(** [TeamPreference.to_dict] *)
Definition team_to_dict (self : TeamPreference.t) : TeamPreference.t :=
  TeamPreference.mk (str_strip (TeamPreference.team_name self))
    (str_strip (TeamPreference.contact_person self))
    (TeamPreference.team_size self) (TeamPreference.preferred_days self)
    (TeamPreference.submission_time self).

(** [OasisPreference.validate] *)
Definition oasis_validate (self : oasis_preference) : list string :=
  let valid_weekdays := ["Monday"; "Tuesday"; "Wednesday"; "Thursday"; "Friday"] in
  name_errors "Person name is required" "Person name must be at least 2 characters"
    "Person name must be less than 50 characters" (person_name self) ++
  match preferred_days self with
  | [] => ["At least one preferred day must be selected"]
  | _ :: _ =>
      if decide (5 < length (preferred_days self))%nat
      then ["Maximum 5 preferred days can be selected"]
      else
        ((λ day, "Invalid day: " +:+ day) <$>
           filter (λ day, day ∉ valid_weekdays) (preferred_days self)) ++
        (if decide (length (preferred_days self) ≠
                    length (remove_dups (preferred_days self)))
         then ["Duplicate days are not allowed"] else [])
  end.

(** [OasisPreference.to_dict] *)
Definition oasis_to_dict (self : oasis_preference) : oasis_dict :=
  {| dict_person_name := str_strip (person_name self);
     dict_submission_time := submission_time self;
     dict_preferred_day_1 := preferred_days self !! 0%nat;
     dict_preferred_day_2 := preferred_days self !! 1%nat;
     dict_preferred_day_3 := preferred_days self !! 2%nat;
     dict_preferred_day_4 := preferred_days self !! 3%nat;
     dict_preferred_day_5 := preferred_days self !! 4%nat |}.
End text.
End Models.

(** ** data/storage.py: the two preference files

    The content of a JSON file is the list it holds; a function that reads
    and writes the file takes the content and returns the new content with
    its result. Locks are not modelled. *)

Module Storage.
Section text.
(** Python's [str.strip] and [str.lower]. *)
Variables str_strip str_lower : string → string.

(** [name.strip().lower()] *)
Definition normalized (name : string) : string := str_lower (str_strip name).

(** [add_weekly_preference]; [now] is the timestamp of [datetime.now()],
    which [submission_time] holds from then on. *)
Definition add_weekly_preference (now : Qc) (preference : TeamPreference.t)
    (preferences : list TeamPreference.t) : bool * list TeamPreference.t :=
  let team_name := normalized (TeamPreference.team_name preference) in
  if decide (Exists (λ existing,
                       normalized (TeamPreference.team_name existing) = team_name)
               preferences)
  then (false, preferences)
  else
    let preference :=
      TeamPreference.mk (TeamPreference.team_name preference)
        (TeamPreference.contact_person preference) (TeamPreference.team_size preference)
        (TeamPreference.preferred_days preference) (Some now) in
    (true, preferences ++ [preference]).

(** [preference['submission_time'] = datetime.now().isoformat()] on the
    dictionary of an Oasis preference. *)
Definition stamped (clk : Clock) (preference : Models.oasis_dict) : OasisPreference.t :=
  OasisPreference.mk (Models.dict_person_name preference) (now_isoformat clk)
    (Models.dict_preferred_day_1 preference) (Models.dict_preferred_day_2 preference)
    (Models.dict_preferred_day_3 preference) (Models.dict_preferred_day_4 preference)
    (Models.dict_preferred_day_5 preference).

Definition add_oasis_preference (clk : Clock) (preference : Models.oasis_dict)
    (preferences : list OasisPreference.t) : bool * list OasisPreference.t :=
  let person_name := normalized (Models.dict_person_name preference) in
  if decide (Exists (λ existing,
                       normalized (OasisPreference.person_name existing) = person_name)
               preferences)
  then (false, preferences)
  else (true, preferences ++ [stamped clk preference]).
End text.
End Storage.

(** ** utils/helpers.py: grouping by day *)

Module Grouping.
(** [grouped[day].append(allocation)] on a dictionary in insertion order. *)
Definition append_to (day : string) (allocation : OasisAllocation.t)
    (grouped : list (string * list OasisAllocation.t))
    : list (string * list OasisAllocation.t) :=
  (λ entry, if decide (entry.1 = day) then (entry.1, entry.2 ++ [allocation]) else entry)
    <$> grouped.

(** [group_allocations_by_day], for allocation records that have a
    [day_of_week]; the five keys are in the order of the literal. *)
Definition group_allocations_by_day (allocations : list OasisAllocation.t)
    : list (string * list OasisAllocation.t) :=
  let grouped :=
    [("Monday", []); ("Tuesday", []); ("Wednesday", []); ("Thursday", []); ("Friday", [])] in
  foldl (λ grouped allocation,
           let day := OasisAllocation.day_of_week allocation in
           if decide (day ∈ grouped.*1) then append_to day allocation grouped
           else grouped)
    grouped allocations.
End Grouping.

(** * The vocabulary of the statements

    The predicates and functions in which the properties of the allocation
    engine are stated and proved. *)

Import ValidationHelper Helpers Random ProjectRoomAllocator OasisAllocator Validation.

(** ** Sample inputs *)

Definition sample_clock : Clock :=
  {| monday_plus := λ i, "2024-01-0" +:+ pretty (S i);
     now_isoformat := "2024-01-01T09:00:00" |}.

Definition sample_teams : list TeamPreference.t :=
  [TeamPreference.mk "Alpha" "Ann" 3 mon_wed (Some (Q2Qc 1704096000));
   TeamPreference.mk "Beta" "Bob" 6 mon_wed (Some (Q2Qc 1704099600));
   TeamPreference.mk "Gamma" "Cyd" 4 tue_thu (Some (Q2Qc 1704103200));
   TeamPreference.mk "Delta" "Dee" 3 mon_wed None].


(** Scenario B: ten teams of four people, all asking for Monday and
    Wednesday. *)
Definition scenario_b_teams : list TeamPreference.t :=
  (λ i : nat, TeamPreference.mk ("Team " +:+ pretty i) "contact" 4 mon_wed
                (Some (Q2Qc (inject_Z (1704096000 + Z.of_nat i))))) <$> seq 0 10.

Definition sample_people : list OasisPreference.t :=
  [OasisPreference.mk "Ann" "2024-01-01T08:00:00" (Some "Monday") (Some "Friday") None None None;
   OasisPreference.mk "Bob" "2024-01-01T08:05:00" (Some "Friday") (Some "") None None None;
   OasisPreference.mk "Cyd" "2024-01-01T08:10:00" (Some "Tuesday") None (Some "Monday") None None].

(** Scenario C: fifteen people, all asking for Monday only. *)
Definition scenario_c_people : list OasisPreference.t :=
  (λ i : nat, OasisPreference.mk ("Person " +:+ pretty i) "2024-01-01T08:00:00"
                (Some "Monday") None None None None) <$> seq 0 15.

(** ** Project rooms *)

(** The two day-pairs, as lists of days. *)
Definition MW : list string := ["Monday"; "Wednesday"].
Definition TT : list string := ["Tuesday"; "Thursday"].

Definition wants (days : string) (p : TeamPreference.t) : Prop :=
  TeamPreference.preferred_days p = days.

#[global] Instance wants_dec days p : Decision (wants days p).
Proof. unfold wants. apply _. Defined.

(** The preference asks for one of the two day-pairs. *)
Definition valid_days (p : TeamPreference.t) : Prop :=
  TeamPreference.preferred_days p = mon_wed ∨ TeamPreference.preferred_days p = tue_thu.

Definition four_mon_wed (p : TeamPreference.t) : Prop :=
  TeamPreference.team_size p = 4 ∧ TeamPreference.preferred_days p = mon_wed.

Definition mk4 (name contact : string) (time : option Qc) : TeamPreference.t :=
  TeamPreference.mk name contact 4 mon_wed time.

(** The usage after [room_usage[day][room] += v] for every day of [days]. *)
Definition bump (u : gmap string (gmap string Z)) (days : list string) (r : string) (v : Z)
    : gmap string (gmap string Z) :=
  foldl (λ u d, set_usage u d r (usage_of u d r + v)) u days.

(** [room] is a key of [room_usage[day]]. *)
Definition present (u : gmap string (gmap string Z)) (d r : string) : Prop :=
  ∃ m, u !! d = Some m ∧ is_Some (m !! r).

(** The records written for a team that is placed in [room] on [days]. *)
Definition team_records (clk : Clock) (date_map : gmap string string)
    (team : TeamPreference.t) (room : string) (days : list string)
    : list WeeklyAllocation.t :=
  (λ day, WeeklyAllocation.mk (TeamPreference.team_name team) room
            (date_map !!! day) day false None (Some (now_isoformat clk))) <$> days.

(** The outcome of a run of placements: each team with the room it got, if
    any. [records_of] are the records written for it, [unplaced_of] the
    teams left without a room. *)
Definition records_of (clk : Clock) (date_map : gmap string string)
    (days_for : TeamPreference.t → list string)
    (o : list (TeamPreference.t * option string)) : list WeeklyAllocation.t :=
  o ≫= λ tc, match tc.2 with
              | Some room => team_records clk date_map tc.1 room (days_for tc.1)
              | None => []
              end.

Definition unplaced_of (o : list (TeamPreference.t * option string))
    : list TeamPreference.t :=
  omap (λ tc, match tc.2 with None => Some tc.1 | Some _ => None end) o.

Definition at_room_day (room day : string) (a : WeeklyAllocation.t) : Prop :=
  WeeklyAllocation.room_name a = room ∧ WeeklyAllocation.day_of_week a = day.

#[global] Instance at_room_day_dec room day a : Decision (at_room_day room day a).
Proof. unfold at_room_day. apply _. Defined.

Definition on_day (day : string) (a : WeeklyAllocation.t) : Prop :=
  WeeklyAllocation.day_of_week a = day.

#[global] Instance on_day_dec day a : Decision (on_day day a).
Proof. unfold on_day. apply _. Defined.

Definition of_team (name : string) (a : WeeklyAllocation.t) : Prop :=
  WeeklyAllocation.team_name a = name.

#[global] Instance of_team_dec name a : Decision (of_team name a).
Proof. unfold of_team. apply _. Defined.

Definition Zsum (l : list Z) : Z := foldr Z.add 0 l.

(** The load of [room] on [day], one summand for every record, with the
    team sizes given by [sz]. *)
Definition rload (sz : string → Z) (allocs : list WeeklyAllocation.t)
    (room day : string) : Z :=
  Zsum ((λ a, sz (WeeklyAllocation.team_name a)) <$> filter (at_room_day room day) allocs).

(** The sum of the sizes of the teams that an outcome puts into [room]. *)
Definition placed_load (f : TeamPreference.t → Z)
    (o : list (TeamPreference.t * option string)) (room : string) : Z :=
  Zsum ((λ tc, if decide (tc.2 = Some room) then f tc.1 else 0) <$> o).

(** The capacity invariant on a list of allocation records. *)
Definition within_capacity (sz : string → Z) (allocs : list WeeklyAllocation.t) : Prop :=
  ∀ r d, rload sz allocs r d ≤ room_capacity r.

(** The size of the team called [name], cross-referenced from the
    preferences: that of the first preference with this name, 0 when there is
    none. *)
Fixpoint size_of (prefs : list TeamPreference.t) (name : string) : Z :=
  match prefs with
  | [] => 0
  | p :: prefs' =>
      if decide (TeamPreference.team_name p = name) then TeamPreference.team_size p
      else size_of prefs' name
  end.

(** The distinct teams that hold [room] on [day]. *)
Definition teams_in (allocs : list WeeklyAllocation.t) (room day : string) : list string :=
  remove_dups (WeeklyAllocation.team_name <$> filter (at_room_day room day) allocs).

(** The number of people that the allocation puts into [room] on [day]. *)
Definition room_day_load (prefs : list TeamPreference.t)
    (allocs : list WeeklyAllocation.t) (room day : string) : Z :=
  Zsum (size_of prefs <$> teams_in allocs room day).

(** The two records of a team placed on a day-pair, in one room. *)
Definition placed_on_pair (records : list WeeklyAllocation.t) : Prop :=
  ∃ a1 a2,
    records = [a1; a2] ∧
    WeeklyAllocation.room_name a1 = WeeklyAllocation.room_name a2 ∧
    ((WeeklyAllocation.day_of_week a1 = "Monday" ∧
      WeeklyAllocation.day_of_week a2 = "Wednesday") ∨
     (WeeklyAllocation.day_of_week a1 = "Tuesday" ∧
      WeeklyAllocation.day_of_week a2 = "Thursday")).

(** ** Oasis *)

Abbreviation daily_map := (gmap string (list OasisAllocation.t)).

(** All preferred days are weekdays: for a preference as submitted, and for
    the dictionary parsed from it. *)
Definition weekday_preference (pref : OasisPreference.t) : Prop :=
  ∀ d, d ∈ parse_preferred_days_from_oasis_pref pref → d ∈ weekdays.

Definition weekday_person (p : ParsedPreference.t) : Prop :=
  ∀ d, d ∈ ParsedPreference.preferred_days p → d ∈ weekdays.

Definition monday_only (p : ParsedPreference.t) : Prop :=
  ParsedPreference.preferred_days p = ["Monday"].

Definition oasis_on (day : string) (a : OasisAllocation.t) : Prop :=
  OasisAllocation.day_of_week a = day.

#[global] Instance oasis_on_dec day a : Decision (oasis_on day a).
Proof. unfold oasis_on. apply _. Defined.

(** The number of records for [day]. *)
Definition day_count (day : string) (allocations : list OasisAllocation.t) : nat :=
  length (filter (λ a, OasisAllocation.day_of_week a = day) allocations).

(** The state in which the first pass of [allocate_oasis] starts. *)
Definition initial_daily : daily_map := list_to_map ((λ day, (day, [])) <$> weekdays).

Definition initial_state (parsed unallocated : list ParsedPreference.t) (g : Rng) : state :=
  {| daily_allocations := initial_daily;
     person_allocations :=
       list_to_map ((λ pref, (ParsedPreference.person_name pref, [])) <$> parsed);
     unallocated_people := unallocated;
     rng := g |}.

(** What an attempt for [person] does to [daily_allocations] when it
    allocates: one record more for one of the preferred days, which was not
    full. *)
Definition gives (clk : Clock) (date_map : gmap string string)
    (person : ParsedPreference.t) (D D' : daily_map) : Prop :=
  ∃ day l,
    day ∈ ParsedPreference.preferred_days person ∧
    D !! day = Some l ∧ (length l < daily_capacity)%nat ∧
    D' = alter (λ l, l ++ [new_allocation clk date_map
                             (ParsedPreference.person_name person) day]) day D.

Definition dstep (clk : Clock) (date_map : gmap string string)
    (Q : ParsedPreference.t → Prop) (D D' : daily_map) : Prop :=
  ∃ person, Q person ∧ gives clk date_map person D D'.

(** The changes of [daily_allocations] that attempts for people of [Q] can
    add up to. *)
Definition reach (clk : Clock) (date_map : gmap string string)
    (Q : ParsedPreference.t → Prop) : relation daily_map :=
  rtc (dstep clk date_map Q).

Definition all_full (days : list string) (D : daily_map) : Prop :=
  ∀ day, day ∈ days → ∃ l, D !! day = Some l ∧ (daily_capacity ≤ length l)%nat.

Definition has_keys (days : list string) (D : daily_map) : Prop :=
  ∀ day, day ∈ days → is_Some (D !! day).

(** Every day holds at most eleven records, all of that day. *)
Definition day_ok (D : daily_map) : Prop :=
  ∀ d l, D !! d = Some l →
         (length l ≤ daily_capacity)%nat ∧
         Forall (λ a, OasisAllocation.day_of_week a = d) l.

Definition wants_day (d : string) (p : ParsedPreference.t) : Prop :=
  d ∈ ParsedPreference.preferred_days p.

#[global] Instance wants_day_dec d p : Decision (wants_day d p).
Proof. unfold wants_day. apply _. Defined.



Definition monday_record (clk : Clock) (date_map : gmap string string)
    (p : ParsedPreference.t) : OasisAllocation.t :=
  new_allocation clk date_map (ParsedPreference.person_name p) "Monday".

(** ** Validation *)

(** The key under which the validator groups a weekly record. *)
Definition weekly_key (a : WeeklyAllocation.t) : string :=
  room_key (WeeklyAllocation.room_name a) (WeeklyAllocation.day_of_week a).

(** The team names recorded under a key, in the order of the records. *)
Definition teams_at (key : string) (weekly : list WeeklyAllocation.t) : list string :=
  WeeklyAllocation.team_name <$> filter (λ a, weekly_key a = key) weekly.

(** The entries of [room_usage] that raise a room conflict. *)
Definition conflicts (weekly : list WeeklyAllocation.t) : list (string * list string) :=
  filter (λ entry, (1 < length entry.2)%nat) (group_weekly weekly).

(** The errors that the Oasis records raise. *)
Definition oasis_errors (oasis : list OasisAllocation.t) : list string :=
  (foldl check_oasis_day (true, []) (group_oasis oasis)).2.

(** ** Further vocabulary

    The predicates of the properties that go beyond the room, Oasis and
    validation statements above. *)

(** The order in which teams are served: no team comes after a team of
    lower score. *)
Definition by_priority (teams : list TeamPreference.t) : Prop :=
  StronglySorted (λ t t', (priority t' <= priority t)%Qc) teams.

(** Every group of [priority_groups] holds teams of the score it is filed
    under. *)
Definition groups_by_score (groups : list (Qc * list TeamPreference.t)) : Prop :=
  ∀ s group t, (s, group) ∈ groups → t ∈ group → priority t = s.

(** The days on which project rooms are given out. *)
Definition room_days : list string := ["Monday"; "Tuesday"; "Wednesday"; "Thursday"].

(** The record [a] was written for the team [t]: it bears its name, and its
    room is one of the catalog that is large enough for the team. *)
Definition record_for (t : TeamPreference.t) (a : WeeklyAllocation.t) : Prop :=
  WeeklyAllocation.team_name a = TeamPreference.team_name t ∧
  WeeklyAllocation.room_name a ∈ rooms ∧
  TeamPreference.team_size t ≤ room_capacity (WeeklyAllocation.room_name a).

(** The fields that the allocator fills in by itself: a day from Monday to
    Thursday, the date of that day in the current week, not confirmed,
    created now. *)
Definition fresh_record (clk : Clock) (a : WeeklyAllocation.t) : Prop :=
  WeeklyAllocation.day_of_week a ∈ room_days ∧
  (∃ i, get_weekdays !! i = Some (WeeklyAllocation.day_of_week a) ∧
        WeeklyAllocation.date a = monday_plus clk i) ∧
  WeeklyAllocation.confirmed a = false ∧
  WeeklyAllocation.confirmed_at a = None ∧
  WeeklyAllocation.created_at a = Some (now_isoformat clk).

(** What holds of every record that the allocator writes. *)
Definition written (clk : Clock) (prefs : list TeamPreference.t)
    (a : WeeklyAllocation.t) : Prop :=
  (∃ t, t ∈ prefs ∧ valid_days t ∧ record_for t a) ∧ fresh_record clk a.

(** A team too large for any room. *)
Definition big_team : TeamPreference.t :=
  TeamPreference.mk "Omega" "Ola" 7 mon_wed (Some (Q2Qc 1704110400)).

(** The names recorded for a day, in the order of the records. *)
Definition people_on (day : string) (oasis : list OasisAllocation.t) : list string :=
  OasisAllocation.person_name <$> filter (oasis_on day) oasis.

(** The two loops that file names under keys, as one. *)
Definition grouped {A} (key value : A → string) (l : list A) : list (string * list string) :=
  foldl (λ d a, dict_append (key a) (value a) d) [] l.


(** [daily_allocations] and [person_allocations] tell the same story: every
    person of the input is a key of [person_allocations], a day is listed for
    a name exactly when [daily_allocations] holds a record of that name under
    that day, no day holds two records of one name, and every record filed
    under a day is for that day and for a person who asked for it. *)
Definition consistent (parsed : list ParsedPreference.t)
    (D : daily_map) (PA : gmap string (list string)) : Prop :=
  (∀ p, p ∈ parsed → is_Some (PA !! ParsedPreference.person_name p)) ∧
  (∀ name d, d ∈ PA !!! name ↔ name ∈ OasisAllocation.person_name <$> (D !!! d)) ∧
  (∀ d, NoDup (OasisAllocation.person_name <$> (D !!! d))) ∧
  (∀ d a, a ∈ D !!! d →
          OasisAllocation.day_of_week a = d ∧
          ∃ p, p ∈ parsed ∧ d ∈ ParsedPreference.preferred_days p ∧
               OasisAllocation.person_name a = ParsedPreference.person_name p).

(** The people still in [unallocated_people] bear distinct names and hold
    no day yet. *)
Definition waiting (st : state) : Prop :=
  NoDup (ParsedPreference.person_name <$> unallocated_people st) ∧
  ∀ q, q ∈ unallocated_people st →
       person_allocations st !!! ParsedPreference.person_name q = [].

(** The place a record takes: a person on a day. *)
Definition slot (a : OasisAllocation.t) : string * string :=
  (OasisAllocation.person_name a, OasisAllocation.day_of_week a).

(** Two Oasis records of a running week. *)
Definition sample_oasis : list OasisAllocation.t :=
  [OasisAllocation.mk "Zoe" "2024-01-02" "Tuesday" false None None;
   OasisAllocation.mk "Yan" "2024-01-01" "Monday" false None None].

(** Teams of four people and more. *)
Definition large_teams : list TeamPreference.t :=
  [TeamPreference.mk "Beta" "Bob" 6 mon_wed (Some (Q2Qc 1704099600));
   TeamPreference.mk "Gamma" "Cyd" 4 tue_thu (Some (Q2Qc 1704103200));
   TeamPreference.mk "Omega" "Ola" 7 mon_wed (Some (Q2Qc 1704110400))].

(** A name passes the tests of the dataclasses: not empty, and between 2 and
    50 characters after stripping. *)
Definition name_ok (str_strip : string → string) (name : string) : Prop :=
  name ≠ "" ∧ (2 ≤ String.length (str_strip name) ≤ 50)%nat.

(** The way of a validated team preference into the file, as the submission
    form goes it: [storage.add_weekly_preference(team_pref.to_dict())]. A
    submission is the time at which it is made and the dataclass. *)
Definition submit_team (str_strip str_lower : string → string)
    (stored : list TeamPreference.t) (submission : Qc * TeamPreference.t)
    : list TeamPreference.t :=
  (Storage.add_weekly_preference str_strip str_lower submission.1
     (Models.team_to_dict str_strip submission.2) stored).2.

(** [storage.add_oasis_preference(oasis_pref.to_dict())] *)
Definition submit_person (str_strip str_lower : string → string)
    (stored : list OasisPreference.t) (submission : Clock * Models.oasis_preference)
    : list OasisPreference.t :=
  (Storage.add_oasis_preference str_strip str_lower submission.1
     (Models.oasis_to_dict str_strip submission.2) stored).2.

(** Python's [str.strip] and [str.lower] on ASCII text, for sample runs. *)
Fixpoint ascii_lstrip (s : string) : string :=
  match s with
  | EmptyString => EmptyString
  | String a s' => if Ascii.is_space a then ascii_lstrip s' else s
  end.

Definition ascii_strip (s : string) : string :=
  String.rev (ascii_lstrip (String.rev (ascii_lstrip s))).

Definition ascii_lower_char (a : Ascii.ascii) : Ascii.ascii :=
  let n := Ascii.nat_of_ascii a in
  if decide (65 ≤ n ≤ 90)%nat then Ascii.ascii_of_nat (n + 32) else a.

Fixpoint ascii_lower (s : string) : string :=
  match s with
  | EmptyString => EmptyString
  | String a s' => String (ascii_lower_char a) (ascii_lower s')
  end.

(** Submissions in the order in which they are made; the third repeats the
    name of the first. *)
Definition sample_team_submissions : list (Qc * TeamPreference.t) :=
  [(Q2Qc 1704096000, TeamPreference.mk " Alpha " "Ann" 3 mon_wed None);
   (Q2Qc 1704099600, TeamPreference.mk "Beta" "Bob" 6 tue_thu None);
   (Q2Qc 1704103200, TeamPreference.mk "ALPHA" "Amy" 4 tue_thu None)].

Definition sample_person_submissions : list (Clock * Models.oasis_preference) :=
  [(sample_clock,
    {| Models.person_name := "Ann"; Models.preferred_days := ["Monday"; "Friday"];
       Models.submission_time := None |});
   (sample_clock,
    {| Models.person_name := " ann"; Models.preferred_days := ["Tuesday"];
       Models.submission_time := None |});
   (sample_clock,
    {| Models.person_name := "Bob"; Models.preferred_days := ["Friday"];
       Models.submission_time := None |})].

(** * Properties *)

#[local] Set Warnings "-clear-no-such-hyp,-level-tolerance".

(** ** Facts about lists *)

(** Splits a membership [H : x ∈ [a; b; ...]] in an explicit list into its
    cases. *)
Ltac elem_cases H :=
  repeat (apply elem_of_cons in H as [-> | H]); [.. | by apply elem_of_nil in H].

Lemma filter_none {A} (P : A → Prop) `{∀ x, Decision (P x)} (l : list A) :
  (∀ x, x ∈ l → ¬ P x) → filter P l = [].
Proof.
  induction l as [|x l IH]; intros Hl; [done|].
  rewrite filter_cons_False by (apply Hl; left).
  apply IH. intros y Hy. apply Hl. by right.
Qed.

Lemma filter_all {A} (P : A → Prop) `{∀ x, Decision (P x)} (l : list A) :
  (∀ x, x ∈ l → P x) → filter P l = l.
Proof.
  induction l as [|x l IH]; intros Hl; [done|].
  rewrite filter_cons_True by (apply Hl; left).
  f_equal. apply IH. intros y Hy. apply Hl. by right.
Qed.

Lemma filter_not_in_prefix {A} `{EqDecision A} (l1 l2 : list A) :
  NoDup (l1 ++ l2) → filter (λ x, x ∉ l1) (l1 ++ l2) = l2.
Proof.
  intros (N1 & Hdisj & N2)%NoDup_app. rewrite filter_app.
  rewrite filter_none by (intros x Hx Hn; by apply Hn).
  rewrite filter_all; [done|]. intros x Hx Hn. by apply (Hdisj x).
Qed.

(** ** Shuffling, sorting and grouping by score *)

Section shuffle.
Context {A : Type}.
Implicit Types (x : list A) (g : Rng).

Lemma swap_Permutation i j x : swap i j x ≡ₚ x.
Proof.
  unfold swap. destruct (x !! i) as [a|] eqn:Hi; [|done].
  destruct (x !! j) as [b|] eqn:Hj; [|done].
  by apply Permutation_insert_swap.
Qed.

Lemma shuffle_from_Permutation i x g : (shuffle_from i x g).1 ≡ₚ x.
Proof.
  revert x g. induction i as [|i IH]; intros x g; [done|].
  cbn [shuffle_from]. destruct (randbelow (S (S i)) g) as [j g'].
  rewrite IH. apply swap_Permutation.
Qed.

Lemma shuffle_Permutation x g : (shuffle x g).1 ≡ₚ x.
Proof. apply shuffle_from_Permutation. Qed.
End shuffle.

Section sort.
Context {A : Type} (key : A → Qc).

Lemma insert_desc_Permutation x (l : list A) : insert_desc key x l ≡ₚ x :: l.
Proof.
  induction l as [|y l IH]; simpl; [done|].
  case_decide; [|done]. by rewrite IH, Permutation_swap.
Qed.

Lemma sort_desc_Permutation (l : list A) : sort_desc key l ≡ₚ l.
Proof.
  induction l as [|x l IH]; simpl; [done|].
  by rewrite insert_desc_Permutation, IH.
Qed.
End sort.

Section groups.
Implicit Types (groups : list (Qc * list TeamPreference.t)) (team : TeamPreference.t).

Lemma group_append_keys s team groups :
  (group_append s team groups).*1 =
  if decide (s ∈ groups.*1) then groups.*1 else groups.*1 ++ [s].
Proof.
  induction groups as [|[s' l] groups IH]; csimpl; [done|].
  destruct (decide (s' = s)) as [->|Hne]; csimpl.
  - rewrite decide_True by set_solver. done.
  - rewrite IH. destruct (decide (s ∈ groups.*1)).
    + rewrite decide_True by set_solver. done.
    + rewrite decide_False by set_solver. done.
Qed.

Lemma group_append_NoDup s team groups :
  NoDup groups.*1 → NoDup (group_append s team groups).*1.
Proof.
  intros Hnd. rewrite group_append_keys. case_decide; [done|].
  apply NoDup_app. split_and!; [done| |apply NoDup_singleton].
  intros x Hx. rewrite list_elem_of_singleton. by intros ->.
Qed.

Lemma group_append_concat s team groups :
  concat (group_append s team groups).*2 ≡ₚ team :: concat groups.*2.
Proof.
  induction groups as [|[s' l] groups IH]; csimpl; [done|].
  destruct (decide (s' = s)) as [->|Hne]; csimpl.
  - rewrite <- app_assoc. simpl. symmetry. apply Permutation_middle.
  - rewrite IH. by rewrite Permutation_middle.
Qed.

Lemma group_by_priority_spec (teams : list TeamPreference.t) :
  NoDup (group_by_priority teams).*1 ∧ concat (group_by_priority teams).*2 ≡ₚ teams.
Proof.
  unfold group_by_priority.
  induction teams as [|team teams [IH1 IH2]] using rev_ind; [split; [constructor|done]|].
  rewrite foldl_app. cbn [foldl]. split.
  - by apply group_append_NoDup.
  - rewrite group_append_concat, IH2. by rewrite Permutation_cons_append.
Qed.

Lemma shuffle_groups_spec groups g :
  (shuffle_groups groups g).1.*1 = groups.*1 ∧
  concat (shuffle_groups groups g).1.*2 ≡ₚ concat groups.*2.
Proof.
  revert g. induction groups as [|[s l] groups IH]; intros g; [done|].
  cbn [shuffle_groups]. pose proof (shuffle_Permutation l g) as Hl.
  destruct (shuffle l g) as [l' g1]. specialize (IH g1).
  destruct (shuffle_groups groups g1) as [rest g2]. csimpl in *.
  destruct IH as [-> ->]. by rewrite Hl.
Qed.

Lemma group_lookup_fresh s groups : s ∉ groups.*1 → group_lookup s groups = [].
Proof.
  induction groups as [|[s' l] groups IH]; csimpl; [done|].
  intros Hs. rewrite decide_False by set_solver. apply IH. set_solver.
Qed.

Lemma group_lookup_keys groups :
  NoDup groups.*1 → groups.*1 ≫= (λ s, group_lookup s groups) = concat groups.*2.
Proof.
  induction groups as [|[s l] groups IH]; csimpl; [done|].
  intros [Hs Hnd]%NoDup_cons. rewrite decide_True by done. f_equal.
  rewrite <- IH by done. apply Forall_bind_ext, Forall_forall.
  intros s' Hs'. rewrite decide_False; [done|]. by intros ->.
Qed.

Lemma _shuffle_same_priority_teams_Permutation (teams : list TeamPreference.t) g :
  (_shuffle_same_priority_teams teams g).1 ≡ₚ teams.
Proof.
  unfold _shuffle_same_priority_teams. case_decide; [done|].
  destruct (group_by_priority_spec teams) as [Hnd Hperm].
  destruct (shuffle_groups_spec (group_by_priority teams) g) as [Hkeys Hconcat].
  destruct (shuffle_groups (group_by_priority teams) g) as [groups g']. simpl in *.
  rewrite (sort_desc_Permutation id groups.*1).
  rewrite group_lookup_keys by (by rewrite Hkeys).
  by rewrite Hconcat.
Qed.
End groups.

(** ** The project room allocator *)

(** *** Room usage *)

Lemma usage_of_set_usage (u : gmap string (gmap string Z)) (d r d' r' : string) (v : Z) :
  usage_of (set_usage u d r v) d' r' =
  if decide (d' = d ∧ r' = r) then v else usage_of u d' r'.
Proof.
  unfold usage_of, set_usage.
  destruct (decide (d' = d)) as [->|Hd].
  - rewrite lookup_insert_eq. simpl.
    destruct (decide (r' = r)) as [->|Hr].
    + rewrite lookup_insert_eq. by rewrite decide_True.
    + rewrite lookup_insert_ne by done. rewrite decide_False by naive_solver.
      destruct (u !! d); simpl; [done|]. by rewrite lookup_empty.
  - rewrite lookup_insert_ne by done. rewrite decide_False by naive_solver. done.
Qed.

Lemma usage_of_bump (days : list string) (u : gmap string (gmap string Z))
    (r d' r' : string) (v : Z) :
  NoDup days →
  usage_of (bump u days r v) d' r' =
  usage_of u d' r' + (if decide (r' = r ∧ d' ∈ days) then v else 0).
Proof.
  unfold bump. revert u. induction days as [|d days IH]; intros u Hnd; simpl.
  - rewrite decide_False; [lia|]. intros [_ H]. by inversion H.
  - apply NoDup_cons in Hnd as [Hd Hnd]. rewrite IH by done.
    rewrite usage_of_set_usage.
    destruct (decide (r' = r)) as [->|Hr].
    + destruct (decide (d' = d)) as [->|Hne].
      * rewrite decide_True by done. rewrite decide_False by naive_solver.
        rewrite decide_True by (split; [done|left]). lia.
      * rewrite decide_False by naive_solver.
        destruct (decide (d' ∈ days)).
        -- rewrite !decide_True; [done| |done]. split; [done|by right].
        -- rewrite !decide_False; [done| |naive_solver].
           intros [_ [?|?]%elem_of_cons]; done.
    + rewrite !decide_False by naive_solver. lia.
Qed.

(** *** The records of a placed team *)

Lemma allocate_day_fold clk date_map team room days allocs u :
  foldl (allocate_day clk date_map team room) (allocs, u) days =
  (allocs ++ team_records clk date_map team room days,
   bump u days room (TeamPreference.team_size team)).
Proof.
  revert allocs u. induction days as [|d days IH]; intros allocs u; simpl.
  - by rewrite app_nil_r.
  - unfold allocate_day at 2. simpl. rewrite IH. by rewrite <- app_assoc.
Qed.

(** *** The outcome of a run of placements: each team with its room, if any *)

Lemma find_suitable_room_Some u days size room :
  find_suitable_room u days size = Some room →
  room ∈ rooms ∧ size ≤ room_capacity room ∧
  ∀ d, d ∈ days → usage_of u d room + size ≤ room_capacity room.
Proof.
  unfold find_suitable_room. intros H.
  apply fmap_Some in H as ([i r] & Hfind & ->). simpl.
  apply list_find_Some in Hfind as (Hi & Hsuits & _).
  split; [by eapply list_elem_of_lookup_2|].
  unfold room_suits in Hsuits. apply andb_true_iff in Hsuits as [H1 H2].
  apply bool_decide_eq_true in H1. split; [lia|].
  intros d Hd. rewrite forallb_forall in H2.
  specialize (H2 d). rewrite <- list_elem_of_In in H2. specialize (H2 Hd).
  apply negb_true_iff, bool_decide_eq_false in H2. lia.
Qed.

Section main_pass.
Variables (clk : Clock) (date_map : gmap string string) (days : list string).
Hypothesis days_NoDup : NoDup days.

Lemma place_team_cases (st : loop_state) (t : TeamPreference.t) :
  let st1 := place_team clk date_map days st t in
  (∃ room,
     find_suitable_room (room_usage st) days (TeamPreference.team_size t) = Some room ∧
     allocations st1 = allocations st ++ team_records clk date_map t room days ∧
     unplaced_teams st1 = unplaced_teams st ∧
     room_usage st1 = bump (room_usage st) days room (TeamPreference.team_size t)) ∨
  (find_suitable_room (room_usage st) days (TeamPreference.team_size t) = None ∧
   allocations st1 = allocations st ∧
   unplaced_teams st1 = unplaced_teams st ++ [t] ∧
   room_usage st1 = room_usage st).
Proof.
  unfold place_team.
  destruct (find_suitable_room (room_usage st) days (TeamPreference.team_size t))
    as [room|]; [left; exists room|right]; simpl.
  - rewrite allocate_day_fold. done.
  - done.
Qed.

Lemma place_team_fold (teams : list TeamPreference.t) (st : loop_state) :
  let st' := foldl (place_team clk date_map days) st teams in
  ∃ o,
    o.*1 = teams ∧
    allocations st' = allocations st ++ records_of clk date_map (λ _, days) o ∧
    unplaced_teams st' = unplaced_teams st ++ unplaced_of o ∧
    ((∀ r d, d ∈ days → usage_of (room_usage st) d r ≤ room_capacity r) →
     (∀ r d, d ∈ days → usage_of (room_usage st') d r ≤ room_capacity r)) ∧
    (∀ r d, d ∈ days →
       usage_of (room_usage st') d r =
       usage_of (room_usage st) d r +
       foldr Z.add 0
         ((λ tc, if decide (tc.2 = Some r) then TeamPreference.team_size tc.1 else 0) <$> o)).
Proof.
  revert st. induction teams as [|t teams IH]; intros st; cbn [foldl].
  - exists []. split_and!; [done|by rewrite app_nil_r|by rewrite app_nil_r|done|].
    intros; simpl; lia.
  - destruct (IH (place_team clk date_map days st t)) as (o & Ho & Ha & Hu & Hcap & Hload).
    destruct (place_team_cases st t)
      as [(room & Hfind & Ha1 & Hu1 & Hr1)|(Hfind & Ha1 & Hu1 & Hr1)];
      rewrite Ha1 in Ha; rewrite Hu1 in Hu; rewrite Hr1 in Hcap, Hload.
    + apply find_suitable_room_Some in Hfind as (Hroom & Hsize & Hfit).
      exists ((t, Some room) :: o). split_and!.
      * csimpl. by rewrite Ho.
      * rewrite Ha, <- app_assoc. done.
      * done.
      * intros Hpre. apply Hcap. intros r d Hd. rewrite usage_of_bump by done.
        case_decide as Hc; [|specialize (Hpre r d Hd); lia].
        destruct Hc as [-> _]. specialize (Hfit d Hd). lia.
      * intros r d Hd. rewrite Hload by done. rewrite usage_of_bump by done.
        rewrite fmap_cons. cbn [foldr fst snd].
        destruct (decide (r = room)) as [->|Hne].
        -- rewrite !decide_True by done. lia.
        -- rewrite decide_False by naive_solver.
           rewrite decide_False by congruence. lia.
    + exists ((t, None) :: o). split_and!.
      * csimpl. by rewrite Ho.
      * done.
      * rewrite Hu, <- app_assoc. done.
      * done.
      * intros r d Hd. rewrite Hload by done.
        rewrite fmap_cons. cbn [foldr fst snd].
        rewrite decide_False by done. lia.
Qed.
End main_pass.

(** *** The load of a room on a day, read off the allocation records *)

Lemma Zsum_app (l1 l2 : list Z) : Zsum (l1 ++ l2) = Zsum l1 + Zsum l2.
Proof. unfold Zsum. induction l1 as [|x l1 IH]; simpl; lia. Qed.

Lemma rload_app sz allocs1 allocs2 room day :
  rload sz (allocs1 ++ allocs2) room day =
  rload sz allocs1 room day + rload sz allocs2 room day.
Proof. unfold rload. by rewrite filter_app, fmap_app, Zsum_app. Qed.

Lemma rload_team_records sz clk date_map team room days r d :
  NoDup days →
  rload sz (team_records clk date_map team room days) r d =
  if decide (r = room ∧ d ∈ days) then sz (TeamPreference.team_name team) else 0.
Proof.
  unfold rload, team_records. induction days as [|d0 days IH]; intros Hnd.
  - simpl. rewrite decide_False; [done|]. intros [_ H]. by inversion H.
  - apply NoDup_cons in Hnd as [Hd0 Hnd]. rewrite fmap_cons, filter_cons.
    specialize (IH Hnd).
    destruct (decide (at_room_day r d _)) as [[Hr Hd]|Hne].
    + simpl in Hr, Hd. subst room d0. rewrite fmap_cons. cbn [Zsum foldr].
      change (foldr Z.add 0) with Zsum.
      rewrite IH. cbn [WeeklyAllocation.team_name].
      destruct (decide (r = r ∧ d ∈ days)) as [[_ ?]|_]; [done|].
      destruct (decide (r = r ∧ d ∈ d :: days)) as [_|H]; [lia|].
      exfalso. apply H. split; [done|left].
    + rewrite IH.
      destruct (decide (r = room ∧ d ∈ days)) as [[Hr0 Hin]|H1];
        destruct (decide (r = room ∧ d ∈ d0 :: days)) as [[Hr Hin']|H2]; try done.
      * exfalso. apply H2. split; [done|by right].
      * subst r. apply elem_of_cons in Hin' as [->|Hin'].
        -- exfalso. by apply Hne.
        -- exfalso. by apply H1.
Qed.

Lemma rload_records_of_const sz clk date_map days o r d :
  NoDup days →
  rload sz (records_of clk date_map (λ _, days) o) r d =
  if decide (d ∈ days)
  then placed_load (λ t, sz (TeamPreference.team_name t)) o r else 0.
Proof.
  intros Hnd. unfold records_of, placed_load.
  induction o as [|[t c] o IH].
  - unfold rload. simpl. by case_decide.
  - rewrite bind_cons, fmap_cons, rload_app, IH.
    cbn [Zsum foldr fst snd]. change (foldr Z.add 0) with Zsum.
    destruct c as [room|].
    + rewrite rload_team_records by done.
      destruct (decide (d ∈ days)).
      * destruct (decide (r = room)) as [->|].
        -- rewrite !decide_True by done. done.
        -- rewrite decide_False by naive_solver. rewrite decide_False by congruence. done.
      * rewrite decide_False by naive_solver. done.
    + rewrite (decide_False (P := None = Some r)) by done.
      unfold rload at 1. simpl. case_decide; done.
Qed.

Lemma placed_load_ext (f f' : TeamPreference.t → Z) o room :
  (∀ t, t ∈ o.*1 → f t = f' t) → placed_load f o room = placed_load f' o room.
Proof.
  unfold placed_load. induction o as [|[t c] o IH]; intros Hf; [done|].
  rewrite !fmap_cons. cbn [Zsum foldr fst snd]. change (foldr Z.add 0) with Zsum.
  rewrite IH by (intros; apply Hf; rewrite fmap_cons; by right).
  rewrite (Hf t) by (rewrite fmap_cons; left). done.
Qed.

(** *** The initial usage *)

Lemma room_capacity_nonneg (room : string) : 0 ≤ room_capacity room.
Proof.
  unfold room_capacity. destruct (room_capacities !! room) as [c|] eqn:E; [|done].
  unfold room_capacities in E. apply elem_of_list_to_map_2 in E. simpl.
  repeat (apply elem_of_cons in E as [E|E]; [injection E as _ ->; lia|]).
  by inversion E.
Qed.

Lemma lookup_constant_map {V} (keys : list string) (c v : V) (k : string) :
  (list_to_map ((λ key, (key, c)) <$> keys) : gmap string V) !! k = Some v → v = c.
Proof.
  intros E. apply elem_of_list_to_map_2 in E.
  by apply list_elem_of_fmap in E as (k' & [= -> ->] & _).
Qed.

Lemma usage_of_init_usage (days : list string) (d r : string) :
  usage_of (init_usage days) d r = 0.
Proof.
  unfold usage_of.
  destruct (init_usage days !! d) as [m|] eqn:E; [|done].
  unfold init_usage in E. apply lookup_constant_map in E as ->.
  cbn [mbind option_bind].
  match goal with |- context [?m !! r] => destruct (m !! r) as [v|] eqn:E' end; [|done].
  by apply lookup_constant_map in E' as ->.
Qed.

Lemma main_pass_outcome clk date_map days teams :
  NoDup days →
  ∃ o,
    o.*1 = teams ∧
    (_allocate_teams_for_days clk teams days date_map []).1 =
      records_of clk date_map (λ _, days) o ∧
    (_allocate_teams_for_days clk teams days date_map []).2 = unplaced_of o ∧
    (∀ r, days ≠ [] → placed_load TeamPreference.team_size o r ≤ room_capacity r).
Proof.
  intros Hnd. unfold _allocate_teams_for_days. cbn [foldl fst snd].
  destruct (place_team_fold clk date_map days Hnd teams
              {| allocations := []; unplaced_teams := [];
                 room_usage := init_usage days |})
    as (o & Ho & Ha & Hu & Hcap & Hload).
  cbn [allocations unplaced_teams room_usage] in *.
  exists o. split_and!; [done..|].
  intros r Hne. destruct days as [|d days]; [done|].
  assert (Hd : d ∈ d :: days) by left.
  specialize (Hload r d Hd). rewrite usage_of_init_usage in Hload.
  unfold placed_load, Zsum. rewrite <- (Z.add_0_l (foldr _ _ _)), <- Hload.
  apply Hcap; [|done]. intros r' d' _. rewrite usage_of_init_usage.
  apply room_capacity_nonneg.
Qed.

(** *** Marking the existing allocations *)

Lemma present_set_usage u d r v d' r' :
  present u d' r' → present (set_usage u d r v) d' r'.
Proof.
  intros (m & Hm & Hr). unfold present, set_usage.
  destruct (decide (d = d')) as [->|Hne].
  - rewrite lookup_insert_eq, Hm. simpl. eexists. split; [done|].
    destruct (decide (r = r')) as [->|Hne'].
    + rewrite lookup_insert_eq. eauto.
    + by rewrite lookup_insert_ne.
  - rewrite lookup_insert_ne by done. eauto.
Qed.

Lemma present_mark_existing u a d r :
  present u d r → present (mark_existing u a) d r.
Proof.
  intros H. unfold mark_existing.
  destruct (u !! WeeklyAllocation.day_of_week a) as [m|]; [|done].
  destruct (m !! WeeklyAllocation.room_name a); [|done].
  by apply present_set_usage.
Qed.

Lemma present_fold_mark_existing existing u d r :
  present u d r → present (foldl mark_existing u existing) d r.
Proof.
  revert u. induction existing as [|a existing IH]; intros u H; simpl; [done|].
  by apply IH, present_mark_existing.
Qed.

Lemma elem_of_constant_keys {V} (keys : list string) (c : V) (k : string) :
  k ∈ keys → k ∈ ((λ key, (key, c)) <$> keys).*1.
Proof.
  intros Hk. apply list_elem_of_fmap. exists (k, c). split; [done|].
  apply list_elem_of_fmap. by exists k.
Qed.

Lemma present_init_usage days d r :
  d ∈ days → r ∈ rooms → present (init_usage days) d r.
Proof.
  intros Hd Hr. unfold present.
  destruct (init_usage days !! d) as [m|] eqn:E; unfold init_usage in E.
  - exists m. split; [done|]. apply lookup_constant_map in E as ->.
    apply not_eq_None_Some. intros Hn. apply not_elem_of_list_to_map_2 in Hn.
    by apply Hn, elem_of_constant_keys.
  - apply not_elem_of_list_to_map_2 in E. exfalso.
    by apply E, elem_of_constant_keys.
Qed.

Lemma usage_of_mark_existing u a d r :
  present u d r →
  usage_of (mark_existing u a) d r =
  if decide (at_room_day r d a) then room_capacity r else usage_of u d r.
Proof.
  intros (m & Hm & [v Hv]). unfold mark_existing, at_room_day.
  destruct (decide (WeeklyAllocation.room_name a = r ∧ WeeklyAllocation.day_of_week a = d))
    as [[-> ->]|Hne].
  - rewrite Hm, Hv. rewrite usage_of_set_usage. by rewrite decide_True.
  - destruct (u !! WeeklyAllocation.day_of_week a) as [m'|]; [|done].
    destruct (m' !! WeeklyAllocation.room_name a); [|done].
    rewrite usage_of_set_usage. rewrite decide_False by naive_solver. done.
Qed.

Lemma marked_room_is_full existing u d r a :
  present u d r → a ∈ existing → at_room_day r d a →
  usage_of (foldl mark_existing u existing) d r = room_capacity r.
Proof.
  intros Hp Hin Ha. induction existing as [|b existing IH] using rev_ind.
  - by inversion Hin.
  - rewrite foldl_app. cbn [foldl].
    rewrite usage_of_mark_existing by (by apply present_fold_mark_existing).
    case_decide as Hb; [done|]. apply IH.
    apply elem_of_app in Hin as [?|Hin]; [done|].
    apply list_elem_of_singleton in Hin as ->. done.
Qed.

(** *** One team tried against existing allocations *)

Lemma single_team_cases clk date_map t days existing :
  let u0 := foldl mark_existing (init_usage days) existing in
  (∃ room,
     find_suitable_room u0 days (TeamPreference.team_size t) = Some room ∧
     _allocate_teams_for_days clk [t] days date_map existing =
       (team_records clk date_map t room days, [])) ∨
  (find_suitable_room u0 days (TeamPreference.team_size t) = None ∧
   _allocate_teams_for_days clk [t] days date_map existing = ([], [t])).
Proof.
  intros u0. unfold _allocate_teams_for_days. cbn [foldl]. fold u0.
  set (st := {| allocations := []; unplaced_teams := []; room_usage := u0 |}).
  destruct (place_team_cases clk date_map days st t)
    as [(room & Hfind & Ha & Hu & _)|(Hfind & Ha & Hu & _)].
  - left. exists room. split; [done|]. by rewrite Ha, Hu.
  - right. split; [done|]. by rewrite Ha, Hu.
Qed.

Lemma alternative_days_cases t :
  alternative_days t = ["Tuesday"; "Thursday"] ∨ alternative_days t = ["Monday"; "Wednesday"].
Proof. unfold alternative_days. case_decide; auto. Qed.

Lemma alternative_days_NoDup t : NoDup (alternative_days t).
Proof.
  destruct (alternative_days_cases t) as [-> | ->];
    (apply NoDup_cons; split; [|apply NoDup_singleton]);
    rewrite list_elem_of_singleton; discriminate.
Qed.

Lemma team_records_nil clk date_map t room days :
  team_records clk date_map t room days = [] → days = [].
Proof. unfold team_records. apply fmap_nil_inv. Qed.

Lemma place_overflow_cases clk date_map st t :
  let u0 := foldl mark_existing (init_usage (alternative_days t)) st.1 in
  (∃ room,
     find_suitable_room u0 (alternative_days t) (TeamPreference.team_size t) = Some room ∧
     place_overflow clk date_map st t =
       (st.1 ++ team_records clk date_map t room (alternative_days t), st.2)) ∨
  (find_suitable_room u0 (alternative_days t) (TeamPreference.team_size t) = None ∧
   place_overflow clk date_map st t = (st.1, st.2 ++ [TeamPreference.team_name t])).
Proof.
  intros u0. unfold place_overflow.
  destruct (single_team_cases clk date_map t (alternative_days t) st.1)
    as [(room & Hfind & ->)|(Hfind & ->)].
  - left. exists room. split; [done|].
    destruct (team_records clk date_map t room (alternative_days t)) eqn:E; [|done].
    apply team_records_nil in E.
    destruct (alternative_days_cases t) as [H|H]; rewrite H in E; done.
  - right. done.
Qed.

Lemma rload_empty sz allocs r d :
  (∀ a, a ∈ allocs → ¬ at_room_day r d a) → rload sz allocs r d = 0.
Proof. intros H. unfold rload. by rewrite filter_none. Qed.

Lemma place_overflow_fold clk date_map teams st :
  ∃ o,
    o.*1 = teams ∧
    (foldl (place_overflow clk date_map) st teams).1 =
      st.1 ++ records_of clk date_map alternative_days o ∧
    (foldl (place_overflow clk date_map) st teams).2 =
      st.2 ++ (TeamPreference.team_name <$> unplaced_of o) ∧
    (∀ sz,
       (∀ t, t ∈ teams →
             0 < TeamPreference.team_size t ∧
             sz (TeamPreference.team_name t) = TeamPreference.team_size t) →
       within_capacity sz st.1 →
       within_capacity sz (foldl (place_overflow clk date_map) st teams).1).
Proof.
  revert st. induction teams as [|t teams IH]; intros st; cbn [foldl].
  - exists []. split_and!; [done|by rewrite app_nil_r|by rewrite app_nil_r|done].
  - destruct (IH (place_overflow clk date_map st t)) as (o & Ho & Ha & Hu & Hcap).
    destruct (place_overflow_cases clk date_map st t)
      as [(room & Hfind & Hst)|(Hfind & Hst)];
      rewrite Hst in Ha, Hu, Hcap |- *; cbn [fst snd] in Ha, Hu, Hcap.
    + exists ((t, Some room) :: o). split_and!.
      * csimpl. by rewrite Ho.
      * rewrite Ha, <- app_assoc. done.
      * done.
      * intros sz Hsz Hpre. apply Hcap; [intros; apply Hsz; by right|].
        destruct (Hsz t) as [Hpos Hsize]; [left|].
        apply find_suitable_room_Some in Hfind as (Hroom & Hle & Hfit).
        intros r d. rewrite rload_app.
        rewrite rload_team_records by apply alternative_days_NoDup.
        case_decide as Hc; [|specialize (Hpre r d); lia].
        destruct Hc as [-> Hd]. rewrite Hsize.
        rewrite rload_empty; [lia|]. intros a Hin Ha'.
        specialize (Hfit d Hd).
        rewrite (marked_room_is_full _ _ _ _ a) in Hfit;
          [lia|by apply present_init_usage|done|done].
    + exists ((t, None) :: o). split_and!.
      * csimpl. by rewrite Ho.
      * done.
      * rewrite Hu, <- app_assoc. done.
      * intros sz Hsz Hpre. apply Hcap; [intros; apply Hsz; by right|done].
Qed.

(** *** The shape of a run of [allocate_rooms] *)

Lemma allocate_rooms_unfold clk prefs g :
  ∃ mw tt,
    mw ≡ₚ filter (wants mon_wed) prefs ∧
    tt ≡ₚ filter (wants tue_thu) prefs ∧
    allocate_rooms clk prefs g =
      let date_map := date_map_of (get_current_week_dates clk) in
      let a := _allocate_teams_for_days clk mw ["Monday"; "Wednesday"] date_map [] in
      let b := _allocate_teams_for_days clk tt ["Tuesday"; "Thursday"] date_map [] in
      foldl (place_overflow clk date_map) (a.1 ++ b.1, []) (a.2 ++ b.2).
Proof.
  destruct prefs as [|p prefs].
  - exists [], []. split_and!; done.
  - unfold allocate_rooms.
    set (l1 := filter _ (p :: prefs)). set (l2 := filter _ (p :: prefs)).
    pose proof (_shuffle_same_priority_teams_Permutation (sort_desc priority l1) g) as H1.
    destruct (_shuffle_same_priority_teams (sort_desc priority l1) g) as [mw g1].
    pose proof (_shuffle_same_priority_teams_Permutation (sort_desc priority l2) g1) as H2.
    destruct (_shuffle_same_priority_teams (sort_desc priority l2) g1) as [tt g2].
    simpl in H1, H2. rewrite sort_desc_Permutation in H1, H2.
    exists mw, tt. split_and!; [done..|].
    cbv zeta.
    destruct (_allocate_teams_for_days clk mw _ _ []) as [a1 a2].
    destruct (_allocate_teams_for_days clk tt _ _ []) as [b1 b2].
    done.
Qed.

Lemma unplaced_of_elem o t : t ∈ unplaced_of o ↔ (t, None) ∈ o.
Proof.
  unfold unplaced_of. rewrite list_elem_of_omap. split.
  - intros ([t' c] & Hin & Hc). simpl in Hc. destruct c; [done|]. by injection Hc as ->.
  - intros Hin. exists (t, None). done.
Qed.

Lemma unplaced_of_teams o t : t ∈ unplaced_of o → t ∈ o.*1.
Proof.
  rewrite unplaced_of_elem. intros Hin. apply list_elem_of_fmap. by exists (t, None).
Qed.

Lemma unplaced_of_NoDup o : NoDup o.*1 → NoDup (unplaced_of o).
Proof.
  induction o as [|[t c] o IH]; [constructor|].
  rewrite fmap_cons. intros [Ht Hnd]%NoDup_cons. unfold unplaced_of. cbn [omap list_omap fst snd].
  destruct c; [by apply IH|].
  apply NoDup_cons. split; [|by apply IH].
  intros Hin. by apply Ht, unplaced_of_teams.
Qed.

Lemma MW_NoDup : NoDup MW.
Proof.
  apply NoDup_cons; split; [|apply NoDup_singleton].
  rewrite list_elem_of_singleton. discriminate.
Qed.

Lemma TT_NoDup : NoDup TT.
Proof.
  apply NoDup_cons; split; [|apply NoDup_singleton].
  rewrite list_elem_of_singleton. discriminate.
Qed.

Lemma allocate_rooms_outcome clk prefs g :
  let date_map := date_map_of (get_current_week_dates clk) in
  ∃ oMW oTT o2,
    oMW.*1 ≡ₚ filter (wants mon_wed) prefs ∧
    oTT.*1 ≡ₚ filter (wants tue_thu) prefs ∧
    o2.*1 = unplaced_of oMW ++ unplaced_of oTT ∧
    (allocate_rooms clk prefs g).1 =
      (records_of clk date_map (λ _, MW) oMW ++ records_of clk date_map (λ _, TT) oTT)
      ++ records_of clk date_map alternative_days o2 ∧
    (allocate_rooms clk prefs g).2 = TeamPreference.team_name <$> unplaced_of o2 ∧
    (∀ r, placed_load TeamPreference.team_size oMW r ≤ room_capacity r) ∧
    (∀ r, placed_load TeamPreference.team_size oTT r ≤ room_capacity r) ∧
    (∀ sz,
       (∀ t, t ∈ prefs →
             0 < TeamPreference.team_size t ∧
             sz (TeamPreference.team_name t) = TeamPreference.team_size t) →
       within_capacity sz
         (records_of clk date_map (λ _, MW) oMW ++ records_of clk date_map (λ _, TT) oTT) →
       within_capacity sz (allocate_rooms clk prefs g).1).
Proof.
  intros date_map.
  destruct (allocate_rooms_unfold clk prefs g) as (mw & tt & Hmw & Htt & ->).
  cbv zeta. fold date_map.
  destruct (main_pass_outcome clk date_map MW mw MW_NoDup) as (oMW & H1 & Ha1 & Hu1 & Hc1).
  destruct (main_pass_outcome clk date_map TT tt TT_NoDup) as (oTT & H2 & Ha2 & Hu2 & Hc2).
  fold MW TT. rewrite Ha1, Ha2, Hu1, Hu2.
  destruct (place_overflow_fold clk date_map (unplaced_of oMW ++ unplaced_of oTT)
              (records_of clk date_map (λ _, MW) oMW ++
               records_of clk date_map (λ _, TT) oTT, []))
    as (o2 & Ho2 & Ha & Hu & Hcap).
  exists oMW, oTT, o2. split_and!.
  - by rewrite H1.
  - by rewrite H2.
  - done.
  - by rewrite Ha.
  - by rewrite Hu.
  - intros r. by apply Hc1.
  - intros r. by apply Hc2.
  - intros sz Hsz Hpre. apply Hcap; [|done].
    intros t [Ht|Ht]%elem_of_app; apply Hsz.
    + apply unplaced_of_teams in Ht. rewrite H1, Hmw in Ht.
      by apply list_elem_of_filter in Ht as [_ ?].
    + apply unplaced_of_teams in Ht. rewrite H2, Htt in Ht.
      by apply list_elem_of_filter in Ht as [_ ?].
Qed.

(** *** Team sizes, cross-referenced from the preferences *)

Lemma team_name_inj prefs t t' :
  NoDup (TeamPreference.team_name <$> prefs) →
  t ∈ prefs → t' ∈ prefs →
  TeamPreference.team_name t = TeamPreference.team_name t' → t = t'.
Proof.
  induction prefs as [|p prefs IH]; [by inversion 2|].
  rewrite fmap_cons. intros [Hp Hnd]%NoDup_cons [->|Ht]%elem_of_cons [->|Ht']%elem_of_cons Hn.
  - done.
  - exfalso. apply Hp. rewrite Hn. by apply list_elem_of_fmap_2.
  - exfalso. apply Hp. rewrite <- Hn. by apply list_elem_of_fmap_2.
  - by apply IH.
Qed.

Lemma size_of_elem prefs t :
  NoDup (TeamPreference.team_name <$> prefs) → t ∈ prefs →
  size_of prefs (TeamPreference.team_name t) = TeamPreference.team_size t.
Proof.
  induction prefs as [|p prefs IH]; [by inversion 2|].
  rewrite fmap_cons. intros [Hp Hnd]%NoDup_cons [->|Ht]%elem_of_cons; simpl.
  - by rewrite decide_True.
  - rewrite decide_False; [by apply IH|].
    intros Hn. apply Hp. rewrite Hn. by apply list_elem_of_fmap_2.
Qed.

Lemma size_of_nonneg prefs name :
  (∀ p, p ∈ prefs → 0 ≤ TeamPreference.team_size p) → 0 ≤ size_of prefs name.
Proof.
  induction prefs as [|p prefs IH]; intros H; simpl; [done|].
  case_decide; [apply H; left|apply IH; intros; apply H; by right].
Qed.

Lemma Zsum_nonneg (l : list Z) : (∀ x, x ∈ l → 0 ≤ x) → 0 ≤ Zsum l.
Proof.
  induction l as [|x l IH]; intros H; simpl; [done|].
  assert (0 ≤ x) by (apply H; left).
  assert (0 ≤ Zsum l) by (apply IH; intros; apply H; by right).
  unfold Zsum in *. lia.
Qed.

Lemma Zsum_remove_dups (f : string → Z) (l : list string) :
  (∀ x, 0 ≤ f x) → Zsum (f <$> remove_dups l) ≤ Zsum (f <$> l).
Proof.
  intros Hf. induction l as [|x l IH]; [done|].
  cbn [remove_dups]. rewrite fmap_cons. cbn [Zsum foldr]. change (foldr Z.add 0) with Zsum.
  specialize (Hf x). destruct (decide_rel elem_of x l).
  - lia.
  - rewrite fmap_cons. cbn [Zsum foldr]. change (foldr Z.add 0) with Zsum. lia.
Qed.

Lemma room_day_load_le prefs allocs room day :
  (∀ p, p ∈ prefs → 0 ≤ TeamPreference.team_size p) →
  room_day_load prefs allocs room day ≤ rload (size_of prefs) allocs room day.
Proof.
  intros H. unfold room_day_load, teams_in, rload.
  rewrite (list_fmap_compose WeeklyAllocation.team_name (size_of prefs)).
  apply Zsum_remove_dups. intros x. by apply size_of_nonneg.
Qed.

Lemma records_of_days clk date_map days o a :
  a ∈ records_of clk date_map (λ _, days) o → WeeklyAllocation.day_of_week a ∈ days.
Proof.
  unfold records_of. rewrite list_elem_of_bind. intros ([t c] & Ha & _).
  destruct c as [room|]; simpl in Ha; [|by inversion Ha].
  unfold team_records in Ha. apply list_elem_of_fmap in Ha as (d & -> & Hd). done.
Qed.

(** C1. For every list of valid team preferences (distinct team names, sizes
    between 3 and 6, one of the two day-pairs), in the allocations returned by
    [allocate_rooms], for every room and day, the sizes of the distinct teams
    holding that room on that day add up to at most the capacity of the room;
    the capacities of the nine rooms are 6, 6 and seven times 4. *)
Theorem room_capacity_invariant (clk : Clock) (prefs : list TeamPreference.t) (g : Rng) :
  NoDup (TeamPreference.team_name <$> prefs) →
  (∀ p, p ∈ prefs → 3 ≤ TeamPreference.team_size p ≤ 6 ∧ valid_days p) →
  (∀ room day,
     room_day_load prefs (allocate_rooms clk prefs g).1 room day ≤ room_capacity room) ∧
  room_capacity <$> rooms = [6; 6; 4; 4; 4; 4; 4; 4; 4].
Proof.
  intros Hnd Hvalid. split; [|done].
  intros room day.
  etrans; [apply room_day_load_le; intros p Hp; destruct (Hvalid p Hp); lia|].
  revert room day. fold (within_capacity (size_of prefs) (allocate_rooms clk prefs g).1).
  destruct (allocate_rooms_outcome clk prefs g)
    as (oMW & oTT & o2 & HMW & HTT & Ho2 & Ha & Hu & HcMW & HcTT & Hcap).
  apply Hcap.
  { intros t Ht. split; [destruct (Hvalid t Ht); lia|by apply size_of_elem]. }
  intros r d. rewrite rload_app.
  rewrite !rload_records_of_const by (apply MW_NoDup || apply TT_NoDup).
  assert (HlMW : placed_load (λ t, size_of prefs (TeamPreference.team_name t)) oMW r
                 = placed_load TeamPreference.team_size oMW r).
  { apply placed_load_ext. intros t Ht. apply size_of_elem; [done|].
    rewrite HMW in Ht. by apply list_elem_of_filter in Ht as [_ ?]. }
  assert (HlTT : placed_load (λ t, size_of prefs (TeamPreference.team_name t)) oTT r
                 = placed_load TeamPreference.team_size oTT r).
  { apply placed_load_ext. intros t Ht. apply size_of_elem; [done|].
    rewrite HTT in Ht. by apply list_elem_of_filter in Ht as [_ ?]. }
  rewrite HlMW, HlTT. specialize (HcMW r). specialize (HcTT r).
  pose proof (room_capacity_nonneg r).
  destruct (decide (d ∈ MW)) as [H1|H1]; destruct (decide (d ∈ TT)) as [H2|H2]; try lia.
  exfalso. unfold MW, TT in *.
  rewrite !elem_of_cons, elem_of_nil in H1, H2.
  destruct H1 as [->|[->|[]]]; destruct H2 as [?|[?|[]]]; discriminate.
Qed.

Lemma room_capacity_invariant_witness :
  NoDup (TeamPreference.team_name <$> sample_teams) ∧
  (∀ p, p ∈ sample_teams → 3 ≤ TeamPreference.team_size p ≤ 6 ∧ valid_days p) ∧
  (∀ room day,
     room_day_load sample_teams (allocate_rooms sample_clock sample_teams [2; 0; 1]%nat).1
       room day ≤ room_capacity room) ∧
  room_capacity <$> rooms = [6; 6; 4; 4; 4; 4; 4; 4; 4].
Proof.
  assert (H1 : NoDup (TeamPreference.team_name <$> sample_teams)).
  { apply (bool_decide_unpack _). vm_compute. exact I. }
  assert (H2 : ∀ p, p ∈ sample_teams →
                    3 ≤ TeamPreference.team_size p ≤ 6 ∧ valid_days p).
  { intros p Hp. unfold sample_teams in Hp. elem_cases Hp;
      (split; [simpl; lia|]); ((left; reflexivity) || (right; reflexivity)). }
  split; [exact H1|]. split; [exact H2|].
  exact (room_capacity_invariant sample_clock sample_teams [2; 0; 1]%nat H1 H2).
Defined.

(** *** The records of one team *)

Lemma team_records_name clk date_map t room days a :
  a ∈ team_records clk date_map t room days →
  WeeklyAllocation.team_name a = TeamPreference.team_name t.
Proof. unfold team_records. by intros (d & -> & _)%list_elem_of_fmap. Qed.

Lemma records_of_elem clk date_map days_for o a :
  a ∈ records_of clk date_map days_for o →
  ∃ t, t ∈ o.*1 ∧ WeeklyAllocation.team_name a = TeamPreference.team_name t.
Proof.
  unfold records_of. rewrite list_elem_of_bind. intros ([t c] & Ha & Hin).
  destruct c as [room|]; simpl in Ha; [|by inversion Ha].
  exists t. split; [by apply (list_elem_of_fmap_2 fst) in Hin|].
  by eapply team_records_name.
Qed.

Lemma filter_records_of_absent clk date_map days_for o name :
  (∀ t, t ∈ o.*1 → TeamPreference.team_name t ≠ name) →
  filter (of_team name) (records_of clk date_map days_for o) = [].
Proof.
  intros H. apply filter_none. intros a Ha Hn.
  apply records_of_elem in Ha as (t & Ht & Heq).
  apply (H t Ht). unfold of_team in Hn. congruence.
Qed.

Lemma filter_records_of_present clk date_map days_for o t c :
  NoDup o.*1 →
  (∀ t', t' ∈ o.*1 → TeamPreference.team_name t' = TeamPreference.team_name t → t' = t) →
  (t, c) ∈ o →
  filter (of_team (TeamPreference.team_name t)) (records_of clk date_map days_for o) =
  match c with
  | Some room => team_records clk date_map t room (days_for t)
  | None => []
  end.
Proof.
  induction o as [|[t0 c0] o IH]; [by inversion 3|].
  rewrite fmap_cons. cbn [fst]. intros [Ht0 Hnd]%NoDup_cons Hinj Hin.
  unfold records_of. rewrite bind_cons, filter_app. fold (records_of clk date_map days_for o).
  cbn [fst snd].
  apply elem_of_cons in Hin as [[= <- <-]|Hin].
  - rewrite filter_records_of_absent, app_nil_r.
    + destruct c as [room|]; [|done].
      apply filter_all. intros a Ha. by eapply team_records_name.
    + intros t' Ht' Hn. apply Ht0. rewrite <- (Hinj t'); [done|by right|done].
  - rewrite IH; [|done|intros; apply Hinj; [by right|done]|done].
    assert (t0 ≠ t) as Hne.
    { intros ->. apply Ht0. by apply (list_elem_of_fmap_2 fst) in Hin. }
    assert (TeamPreference.team_name t0 ≠ TeamPreference.team_name t) as Hnn.
    { intros Hn. apply Hne. apply Hinj; [left|done]. }
    destruct c0 as [room0|]; [|done].
    rewrite filter_none; [done|]. intros a Ha Hof.
    apply team_records_name in Ha. unfold of_team in Hof. congruence.
Qed.

Lemma outcome_choice_unique (o : list (TeamPreference.t * option string)) t c c' :
  NoDup o.*1 → (t, c) ∈ o → (t, c') ∈ o → c = c'.
Proof.
  induction o as [|[t0 c0] o IH]; [by inversion 2|].
  rewrite fmap_cons. cbn [fst].
  intros [Ht0 Hnd]%NoDup_cons [[= <- <-]|H1]%elem_of_cons [[= ?]|H2]%elem_of_cons.
  - done.
  - exfalso. apply Ht0. by apply (list_elem_of_fmap_2 fst) in H2.
  - subst. exfalso. apply Ht0. by apply (list_elem_of_fmap_2 fst) in H1.
  - by apply IH.
Qed.

Lemma outcome_choice_exists (o : list (TeamPreference.t * option string)) t :
  t ∈ o.*1 → ∃ c, (t, c) ∈ o.
Proof. intros ([t' c] & -> & Hin)%list_elem_of_fmap. by exists c. Qed.

(** What the theorems need of a run of [allocate_rooms] on preferences with
    distinct team names. *)
Lemma allocate_rooms_teams clk prefs g :
  NoDup (TeamPreference.team_name <$> prefs) →
  let date_map := date_map_of (get_current_week_dates clk) in
  ∃ oMW oTT o2,
    (allocate_rooms clk prefs g).1 =
      (records_of clk date_map (λ _, MW) oMW ++ records_of clk date_map (λ _, TT) oTT)
      ++ records_of clk date_map alternative_days o2 ∧
    (allocate_rooms clk prefs g).2 = TeamPreference.team_name <$> unplaced_of o2 ∧
    (∀ t, t ∈ oMW.*1 ↔ t ∈ prefs ∧ wants mon_wed t) ∧
    (∀ t, t ∈ oTT.*1 ↔ t ∈ prefs ∧ wants tue_thu t) ∧
    (∀ t, t ∈ o2.*1 ↔ (t, None) ∈ oMW ∨ (t, None) ∈ oTT) ∧
    NoDup oMW.*1 ∧ NoDup oTT.*1 ∧ NoDup o2.*1.
Proof.
  intros Hnd date_map.
  destruct (allocate_rooms_outcome clk prefs g)
    as (oMW & oTT & o2 & HMW & HTT & Ho2 & Ha & Hu & _).
  assert (Hprefs : NoDup prefs) by (by eapply NoDup_fmap_1).
  assert (H1 : ∀ t, t ∈ oMW.*1 ↔ t ∈ prefs ∧ wants mon_wed t).
  { intros t. rewrite HMW, list_elem_of_filter. tauto. }
  assert (H2 : ∀ t, t ∈ oTT.*1 ↔ t ∈ prefs ∧ wants tue_thu t).
  { intros t. rewrite HTT, list_elem_of_filter. tauto. }
  assert (N1 : NoDup oMW.*1) by (rewrite HMW; by apply NoDup_filter).
  assert (N2 : NoDup oTT.*1) by (rewrite HTT; by apply NoDup_filter).
  exists oMW, oTT, o2. split_and!; [done..| |done|done|].
  - intros t. rewrite Ho2, elem_of_app, !unplaced_of_elem. done.
  - rewrite Ho2. apply NoDup_app.
    split_and!; [by apply unplaced_of_NoDup| |by apply unplaced_of_NoDup].
    intros t Ht1 Ht2. apply unplaced_of_teams in Ht1, Ht2.
    apply H1 in Ht1 as [_ Hw1]. apply H2 in Ht2 as [_ Hw2].
    unfold wants in *. rewrite Hw1 in Hw2. discriminate.
Qed.

(** The fate of a team [t] of the group [o], whose unplaced teams are
    retried in [o2]. *)
Lemma team_fate clk date_map prefs o o2 days_for t :
  NoDup (TeamPreference.team_name <$> prefs) →
  (∀ t', t' ∈ o.*1 → t' ∈ prefs) → (∀ t', t' ∈ o2.*1 → t' ∈ prefs) →
  NoDup o.*1 → NoDup o2.*1 →
  t ∈ o.*1 → (t ∈ o2.*1 ↔ (t, None) ∈ o) →
  let name := TeamPreference.team_name t in
  let own := filter (of_team name) (records_of clk date_map days_for o) in
  let retried := filter (of_team name) (records_of clk date_map alternative_days o2) in
  let unplaced := TeamPreference.team_name <$> unplaced_of o2 in
  (∃ room, own = team_records clk date_map t room (days_for t) ∧ retried = [] ∧
           name ∉ unplaced) ∨
  (∃ room, own = [] ∧ retried = team_records clk date_map t room (alternative_days t) ∧
           name ∉ unplaced) ∨
  (own = [] ∧ retried = [] ∧ name ∈ unplaced).
Proof.
  intros Hnd Ho Ho2 N N2 Ht Hretry name own retried unplaced.
  assert (Hprefs : t ∈ prefs) by by apply Ho.
  assert (Hinj : ∀ t', t' ∈ o.*1 → TeamPreference.team_name t' = name → t' = t).
  { intros t' Ht' Hn. eapply team_name_inj; eauto. }
  assert (Hinj2 : ∀ t', t' ∈ o2.*1 → TeamPreference.team_name t' = name → t' = t).
  { intros t' Ht' Hn. eapply team_name_inj; eauto. }
  assert (Hun : name ∈ unplaced ↔ (t, None) ∈ o2).
  { unfold unplaced. rewrite list_elem_of_fmap. split.
    - intros (t' & Hn & Ht'). assert (t' = t) as ->.
      { apply Hinj2; [by apply unplaced_of_teams|done]. }
      by apply unplaced_of_elem.
    - intros Hin. exists t. split; [done|by apply unplaced_of_elem]. }
  destruct (outcome_choice_exists o t Ht) as [c Hc].
  assert (Hown : own = match c with
                       | Some room => team_records clk date_map t room (days_for t)
                       | None => []
                       end).
  { unfold own, name. by apply filter_records_of_present. }
  destruct c as [room|].
  - left. exists room. split; [done|].
    assert (Hnot : t ∉ o2.*1).
    { rewrite Hretry. intros Hn.
      by pose proof (outcome_choice_unique o t _ _ N Hc Hn). }
    split.
    + apply filter_records_of_absent. intros t' Ht' Hn. apply Hnot.
      by rewrite <- (Hinj2 t' Ht' Hn).
    + rewrite Hun. intros Hin. apply Hnot. by apply (list_elem_of_fmap_2 fst) in Hin.
  - right. assert (Ht2 : t ∈ o2.*1) by by apply Hretry.
    destruct (outcome_choice_exists o2 t Ht2) as [c2 Hc2].
    assert (Hre : retried = match c2 with
                            | Some room => team_records clk date_map t room (alternative_days t)
                            | None => []
                            end).
    { unfold retried, name. by apply filter_records_of_present. }
    destruct c2 as [room|].
    + left. exists room. split_and!; [done..|].
      rewrite Hun. intros Hin.
      by pose proof (outcome_choice_unique o2 t _ _ N2 Hc2 Hin).
    + right. split_and!; [done..|]. by apply Hun.
Qed.

Lemma team_records_MW clk date_map t room : placed_on_pair (team_records clk date_map t room MW).
Proof. eexists _, _. split; [reflexivity|]. split; [done|]. by left. Qed.

Lemma team_records_TT clk date_map t room : placed_on_pair (team_records clk date_map t room TT).
Proof. eexists _, _. split; [reflexivity|]. split; [done|]. by right. Qed.

Lemma team_records_alternative clk date_map t room :
  placed_on_pair (team_records clk date_map t room (alternative_days t)).
Proof.
  destruct (alternative_days_cases t) as [-> | ->];
    [apply team_records_TT|apply team_records_MW].
Qed.

Lemma team_placed_or_unplaced
    (clk : Clock) (prefs : list TeamPreference.t) (g : Rng) (t : TeamPreference.t) :
  NoDup (TeamPreference.team_name <$> prefs) →
  (∀ p, p ∈ prefs → valid_days p) →
  t ∈ prefs →
  let result := allocate_rooms clk prefs g in
  let own := filter (of_team (TeamPreference.team_name t)) result.1 in
  (placed_on_pair own ∧ TeamPreference.team_name t ∉ result.2) ∨
  (own = [] ∧ TeamPreference.team_name t ∈ result.2).
Proof.
  intros Hnd Hvalid Ht result own. unfold own, result. clear own result.
  destruct (allocate_rooms_teams clk prefs g Hnd)
    as (oMW & oTT & o2 & -> & -> & H1 & H2 & H3 & N1 & N2 & N3).
  set (date_map := date_map_of (get_current_week_dates clk)).
  assert (Ho2 : ∀ t', t' ∈ o2.*1 → t' ∈ prefs).
  { intros t' [Hin|Hin]%H3; apply (list_elem_of_fmap_2 fst) in Hin; simpl in Hin;
      [by apply H1 in Hin as [? _]|by apply H2 in Hin as [? _]]. }
  rewrite !filter_app.
  destruct (Hvalid t Ht) as [Hd|Hd].
  - assert (HtMW : t ∈ oMW.*1) by (by apply H1).
    assert (HtTT : ∀ t', t' ∈ oTT.*1 →
                   TeamPreference.team_name t' ≠ TeamPreference.team_name t).
    { intros t' Ht' Hn. apply H2 in Ht' as [Hp Hw].
      assert (t' = t) as -> by (by eapply team_name_inj).
      unfold wants in Hw. rewrite Hd in Hw. discriminate. }
    rewrite (filter_records_of_absent _ _ _ oTT) by done. rewrite app_nil_r.
    destruct (team_fate clk date_map prefs oMW o2 (λ _, MW) t)
      as [(room & -> & -> & Hun)|[(room & -> & -> & Hun)|(-> & -> & Hun)]];
      try done.
    + intros t' Ht'. by apply H1 in Ht' as [? _].
    + rewrite H3. split; [|by left]. intros [?|Hin]; [done|].
      apply (list_elem_of_fmap_2 fst) in Hin. apply H2 in Hin as [_ Hw].
      unfold wants in Hw. simpl in Hw. rewrite Hd in Hw. discriminate.
    + left. rewrite app_nil_r. split; [apply team_records_MW|done].
    + left. split; [apply team_records_alternative|done].
    + right. done.
  - assert (HtTT : t ∈ oTT.*1) by (by apply H2).
    assert (HtMW : ∀ t', t' ∈ oMW.*1 →
                   TeamPreference.team_name t' ≠ TeamPreference.team_name t).
    { intros t' Ht' Hn. apply H1 in Ht' as [Hp Hw].
      assert (t' = t) as -> by (by eapply team_name_inj).
      unfold wants in Hw. rewrite Hd in Hw. discriminate. }
    rewrite (filter_records_of_absent _ _ _ oMW) by done. rewrite app_nil_l.
    destruct (team_fate clk date_map prefs oTT o2 (λ _, TT) t)
      as [(room & -> & -> & Hun)|[(room & -> & -> & Hun)|(-> & -> & Hun)]];
      try done.
    + intros t' Ht'. by apply H2 in Ht' as [? _].
    + rewrite H3. split; [|by right]. intros [Hin|?]; [|done].
      apply (list_elem_of_fmap_2 fst) in Hin. apply H1 in Hin as [_ Hw].
      unfold wants in Hw. simpl in Hw. rewrite Hd in Hw. discriminate.
    + left. rewrite app_nil_r. split; [apply team_records_TT|done].
    + left. split; [apply team_records_alternative|done].
    + right. done.
Qed.

Lemma allocate_rooms_names clk prefs g name :
  name ∈ WeeklyAllocation.team_name <$> (allocate_rooms clk prefs g).1 ∨
  name ∈ (allocate_rooms clk prefs g).2 →
  ∃ p, p ∈ prefs ∧ TeamPreference.team_name p = name ∧ valid_days p.
Proof.
  destruct (allocate_rooms_outcome clk prefs g)
    as (oMW & oTT & o2 & HMW & HTT & Ho2 & -> & -> & _).
  assert (H1 : ∀ t, t ∈ oMW.*1 → t ∈ prefs ∧ valid_days t).
  { intros t. rewrite HMW, list_elem_of_filter. intros [? ?]. split; [done|by left]. }
  assert (H2 : ∀ t, t ∈ oTT.*1 → t ∈ prefs ∧ valid_days t).
  { intros t. rewrite HTT, list_elem_of_filter. intros [? ?]. split; [done|by right]. }
  assert (H3 : ∀ t, t ∈ o2.*1 → t ∈ prefs ∧ valid_days t).
  { intros t. rewrite Ho2. intros [Hin|Hin]%elem_of_app; apply unplaced_of_teams in Hin; auto. }
  intros [Hin|Hin].
  - apply list_elem_of_fmap in Hin as (a & -> & Ha).
    apply elem_of_app in Ha as [[Ha|Ha]%elem_of_app|Ha];
      apply records_of_elem in Ha as (t & Ht & ->);
      exists t; [apply H1 in Ht|apply H2 in Ht|apply H3 in Ht]; tauto.
  - apply list_elem_of_fmap in Hin as (t & -> & Ht).
    apply unplaced_of_teams, H3 in Ht. exists t. tauto.
Qed.

(** C5. For every list of valid team preferences (distinct team names, one of
    the two day-pairs), every team either has exactly two allocation records,
    for the two days of one day-pair and in one room, and is not listed as
    unplaced, or has no record and is listed as unplaced. Every record is
    that of a team of the input, so that no record is a single-day or a
    split-room placement. *)
Theorem placed_on_both_days_or_unplaced
    (clk : Clock) (prefs : list TeamPreference.t) (g : Rng) :
  NoDup (TeamPreference.team_name <$> prefs) →
  (∀ p, p ∈ prefs → valid_days p) →
  let result := allocate_rooms clk prefs g in
  (∀ t, t ∈ prefs →
        let own := filter (of_team (TeamPreference.team_name t)) result.1 in
        (placed_on_pair own ∧ TeamPreference.team_name t ∉ result.2) ∨
        (own = [] ∧ TeamPreference.team_name t ∈ result.2)) ∧
  (∀ a, a ∈ result.1 →
        ∃ t, t ∈ prefs ∧ of_team (TeamPreference.team_name t) a) ∧
  (∀ name, name ∈ result.2 → name ∈ TeamPreference.team_name <$> prefs).
Proof.
  intros Hnd Hvalid result. split_and!.
  - intros t Ht. by apply team_placed_or_unplaced.
  - intros a Ha.
    destruct (allocate_rooms_names clk prefs g (WeeklyAllocation.team_name a))
      as (t & Ht & Hname & _).
    { left. by apply list_elem_of_fmap_2. }
    exists t. split; [done|]. unfold of_team. by rewrite Hname.
  - intros name Hin.
    destruct (allocate_rooms_names clk prefs g name) as (t & Ht & <- & _); [by right|].
    by apply list_elem_of_fmap_2.
Qed.

Lemma placed_on_both_days_or_unplaced_witness :
  NoDup (TeamPreference.team_name <$> sample_teams) ∧
  (∀ p, p ∈ sample_teams → valid_days p) ∧
  let result := allocate_rooms sample_clock sample_teams [] in
  (∀ t, t ∈ sample_teams →
        let own := filter (of_team (TeamPreference.team_name t)) result.1 in
        (placed_on_pair own ∧ TeamPreference.team_name t ∉ result.2) ∨
        (own = [] ∧ TeamPreference.team_name t ∈ result.2)) ∧
  (∀ a, a ∈ result.1 →
        ∃ t, t ∈ sample_teams ∧ of_team (TeamPreference.team_name t) a) ∧
  (∀ name, name ∈ result.2 → name ∈ TeamPreference.team_name <$> sample_teams).
Proof.
  assert (H1 : NoDup (TeamPreference.team_name <$> sample_teams)).
  { apply (bool_decide_unpack _). vm_compute. exact I. }
  assert (H2 : ∀ p, p ∈ sample_teams → valid_days p).
  { intros p Hp. unfold sample_teams in Hp.
    elem_cases Hp; ((left; reflexivity) || (right; reflexivity)). }
  split; [exact H1|]. split; [exact H2|].
  exact (placed_on_both_days_or_unplaced sample_clock sample_teams [] H1 H2).
Defined.

(** Every name in the result is the name of a preference with a day-pair. *)



(** *** Ten teams of four people asking for Monday and Wednesday *)

Lemma four_mon_wed_mk4 p :
  four_mon_wed p →
  p = mk4 (TeamPreference.team_name p) (TeamPreference.contact_person p)
        (TeamPreference.submission_time p).
Proof. destruct p as [n c s d t]. unfold four_mon_wed. simpl. by intros [-> ->]. Qed.

Lemma ten_teams_explicit clk p0 p1 p2 p3 p4 p5 p6 p7 p8 p9 :
  let name := TeamPreference.team_name in
  let contact := TeamPreference.contact_person in
  let time := TeamPreference.submission_time in
  let mk p := mk4 (name p) (contact p) (time p) in
  let mw := [mk p0; mk p1; mk p2; mk p3; mk p4; mk p5; mk p6; mk p7; mk p8; mk p9] in
  let date_map := date_map_of (get_current_week_dates clk) in
  let a := _allocate_teams_for_days clk mw ["Monday"; "Wednesday"] date_map [] in
  let b := _allocate_teams_for_days clk [] ["Tuesday"; "Thursday"] date_map [] in
  let result := foldl (place_overflow clk date_map) (a.1 ++ b.1, []) (a.2 ++ b.2) in
  result.2 = [] ∧
  length (filter (on_day "Monday") result.1) = 9%nat ∧
  length (filter (on_day "Tuesday") result.1) = 1%nat.
Proof. intros. vm_compute. done. Qed.

Lemma ten_teams_run clk (mw : list TeamPreference.t) :
  length mw = 10%nat →
  Forall four_mon_wed mw →
  let date_map := date_map_of (get_current_week_dates clk) in
  let a := _allocate_teams_for_days clk mw ["Monday"; "Wednesday"] date_map [] in
  let b := _allocate_teams_for_days clk [] ["Tuesday"; "Thursday"] date_map [] in
  let result := foldl (place_overflow clk date_map) (a.1 ++ b.1, []) (a.2 ++ b.2) in
  result.2 = [] ∧
  length (filter (on_day "Monday") result.1) = 9%nat ∧
  length (filter (on_day "Tuesday") result.1) = 1%nat.
Proof.
  intros Hlen Hall.
  destruct mw as [|p0 [|p1 [|p2 [|p3 [|p4 [|p5 [|p6 [|p7 [|p8 [|p9 [|]]]]]]]]]]];
    try discriminate Hlen. clear Hlen.
  repeat match goal with
  | H : Forall _ (_ :: _) |- _ => apply Forall_cons in H as [?%four_mon_wed_mk4 H]
  end.
  clear Hall.
  repeat match goal with H : ?p = mk4 _ _ _ |- _ => rewrite H; clear H end.
  apply ten_teams_explicit.
Qed.

(** C2, as the code has it. Ten teams of four people with distinct names, all
    asking for Monday and Wednesday: nine of them get a room on Monday and
    Wednesday, the overflow pass gives the tenth a room on Tuesday and
    Thursday, every team is placed and the unplaced list is empty. *)
Theorem ten_teams_all_placed (clk : Clock) (prefs : list TeamPreference.t) (g : Rng) :
  length prefs = 10%nat →
  NoDup (TeamPreference.team_name <$> prefs) →
  (∀ p, p ∈ prefs → four_mon_wed p) →
  let result := allocate_rooms clk prefs g in
  result.2 = [] ∧
  (∀ t, t ∈ prefs →
        placed_on_pair (filter (of_team (TeamPreference.team_name t)) result.1)) ∧
  length (filter (on_day "Monday") result.1) = 9%nat ∧
  length (filter (on_day "Tuesday") result.1) = 1%nat.
Proof.
  intros Hlen Hnd Hall result.
  assert (Hrun : result.2 = [] ∧
                 length (filter (on_day "Monday") result.1) = 9%nat ∧
                 length (filter (on_day "Tuesday") result.1) = 1%nat).
  { unfold result.
    destruct (allocate_rooms_unfold clk prefs g) as (mw & tt & Hmw & Htt & ->).
    rewrite filter_all in Hmw by (intros p Hp; by destruct (Hall p Hp)).
    rewrite filter_none in Htt.
    2:{ intros p Hp Hw. destruct (Hall p Hp) as [_ Hd].
        unfold wants in Hw. rewrite Hd in Hw. discriminate. }
    apply Permutation_nil_r in Htt as ->.
    apply ten_teams_run.
    - by rewrite Hmw.
    - rewrite Hmw. by apply Forall_forall. }
  destruct Hrun as (Hun & Hmon & Htue). split_and!; [done| |done|done].
  intros t Ht.
  destruct (team_placed_or_unplaced clk prefs g t Hnd) as [[Hp _]|[_ Hin]]; [|done|done|].
  - intros p Hp. left. by destruct (Hall p Hp).
  - fold result in Hin. rewrite Hun in Hin. by inversion Hin.
Qed.

Lemma ten_teams_all_placed_witness :
  length scenario_b_teams = 10%nat ∧
  NoDup (TeamPreference.team_name <$> scenario_b_teams) ∧
  (∀ p, p ∈ scenario_b_teams → four_mon_wed p) ∧
  let result := allocate_rooms sample_clock scenario_b_teams [7; 3; 1]%nat in
  result.2 = [] ∧
  (∀ t, t ∈ scenario_b_teams →
        placed_on_pair (filter (of_team (TeamPreference.team_name t)) result.1)) ∧
  length (filter (on_day "Monday") result.1) = 9%nat ∧
  length (filter (on_day "Tuesday") result.1) = 1%nat.
Proof.
  assert (H1 : length scenario_b_teams = 10%nat) by reflexivity.
  assert (H2 : NoDup (TeamPreference.team_name <$> scenario_b_teams)).
  { apply (bool_decide_unpack _). vm_compute. exact I. }
  assert (H3 : ∀ p, p ∈ scenario_b_teams → four_mon_wed p).
  { intros p Hp. unfold scenario_b_teams in Hp. simpl in Hp.
    elem_cases Hp; split; reflexivity. }
  split; [exact H1|]. split; [exact H2|]. split; [exact H3|].
  exact (ten_teams_all_placed sample_clock scenario_b_teams [7; 3; 1]%nat H1 H2 H3).
Defined.

(** C2, as stated, fails: the ten teams of scenario B (four people each,
    distinct names, all asking for Monday and Wednesday) are all placed and
    none is reported as unplaced, so it is not the case that at most nine
    teams are placed and at least one is unplaced. *)
Lemma scenario_b_ten_placed_none_unplaced :
  let result := allocate_rooms sample_clock scenario_b_teams [] in
  length scenario_b_teams = 10%nat ∧
  NoDup (TeamPreference.team_name <$> scenario_b_teams) ∧
  Forall four_mon_wed scenario_b_teams ∧
  ¬ ((length (remove_dups (WeeklyAllocation.team_name <$> result.1)) ≤ 9)%nat ∧
     result.2 ≠ []).
Proof.
  split_and!; [done| |by repeat constructor|].
  - apply (bool_decide_unpack _). by vm_compute.
  - intros [_ H]. apply H. by vm_compute.
Qed.

(** ** The priority score *)




(** ** The Oasis allocator *)

Section oasis_steps.
Variables (clk : Clock) (date_map : gmap string string).

Lemma first_free_day_spec (D : daily_map) (days : list string) :
  has_keys days D →
  (first_free_day D days = Some None ∧ all_full days D) ∨
  (∃ day l, first_free_day D days = Some (Some day) ∧ day ∈ days ∧
            D !! day = Some l ∧ (length l < daily_capacity)%nat).
Proof.
  induction days as [|day days IH]; intros Hkeys.
  - left. split; [done|]. intros d Hd. by inversion Hd.
  - cbn [first_free_day].
    destruct (Hkeys day) as [l Hl]; [left|]. rewrite Hl. cbn [mbind option_bind].
    destruct (decide (length l < daily_capacity)%nat) as [Hlt|Hge].
    + right. exists day, l. split_and!; [done|left|done|done].
    + destruct IH as [[-> Hfull]|(d & l' & -> & Hd & Hl' & Hlt)].
      * intros d Hd. apply Hkeys. by right.
      * left. split; [done|]. intros d [->|Hd]%elem_of_cons; [|by apply Hfull].
        exists l. split; [done|lia].
      * right. exists d, l'. split_and!; [done|by right|done|done].
Qed.

Lemma first_extra_day_spec (D : daily_map) (current days : list string) :
  has_keys days D →
  first_extra_day D current days = Some None ∨
  (∃ day l, first_extra_day D current days = Some (Some day) ∧ day ∈ days ∧
            D !! day = Some l ∧ (length l < daily_capacity)%nat).
Proof.
  induction days as [|day days IH]; intros Hkeys; [by left|].
  cbn [first_extra_day].
  assert (Hrest : has_keys days D) by (intros d Hd; apply Hkeys; by right).
  destruct (decide (day ∈ current)).
  - destruct (IH Hrest) as [->|(d & l & -> & Hd & Hl & Hlt)]; [by left|].
    right. exists d, l. split_and!; [done|by right|done|done].
  - destruct (Hkeys day) as [l Hl]; [left|]. rewrite Hl. cbn [mbind option_bind].
    destruct (decide (length l < daily_capacity)%nat) as [Hlt|Hge].
    + right. exists day, l. split_and!; [done|left|done|done].
    + destruct (IH Hrest) as [->|(d & l' & -> & Hd & Hl' & Hlt)]; [by left|].
      right. exists d, l'. split_and!; [done|by right|done|done].
Qed.

Lemma remove_first_subset {A} `{EqDecision A} (v : A) (x : list A) (y : A) :
  y ∈ remove_first v x → y ∈ x.
Proof.
  induction x as [|z x IH]; simpl; [done|].
  case_decide; [by right|]. intros [->|Hy]%elem_of_cons; [left|right; by apply IH].
Qed.

Lemma attempt_spec (st : state) (person : ParsedPreference.t) :
  has_keys (ParsedPreference.preferred_days person) (daily_allocations st) →
  ∃ st',
    attempt clk date_map st person = Some st' ∧
    ((daily_allocations st' = daily_allocations st ∧
      all_full (ParsedPreference.preferred_days person) (daily_allocations st)) ∨
     gives clk date_map person (daily_allocations st) (daily_allocations st')) ∧
    (∀ q, q ∈ unallocated_people st' → q ∈ unallocated_people st).
Proof.
  intros Hkeys. unfold attempt.
  pose proof (shuffle_Permutation (ParsedPreference.preferred_days person) (rng st)) as Hperm.
  destruct (shuffle (ParsedPreference.preferred_days person) (rng st)) as [days g].
  simpl in Hperm. cbn [daily_allocations].
  destruct (first_free_day_spec (daily_allocations st) days)
    as [[-> Hfull]|(day & l & -> & Hday & Hl & Hlt)].
  - intros d Hd. apply Hkeys. by rewrite <- Hperm.
  - eexists. split; [done|]. cbn. split; [|done].
    left. split; [done|]. intros d Hd. apply Hfull. by rewrite Hperm.
  - eexists. split; [done|]. cbn. split.
    + right. exists day, l. split_and!; [by rewrite <- Hperm|done..].
    + intros q. apply remove_first_subset.
Qed.

Lemma extra_attempt_spec (sm : state * bool) (person : ParsedPreference.t) :
  has_keys (ParsedPreference.preferred_days person) (daily_allocations sm.1) →
  ∃ sm',
    extra_attempt clk date_map sm person = Some sm' ∧
    (daily_allocations sm'.1 = daily_allocations sm.1 ∨
     gives clk date_map person (daily_allocations sm.1) (daily_allocations sm'.1)) ∧
    rng sm'.1 = rng sm.1.
Proof.
  intros Hkeys. unfold extra_attempt.
  destruct (decide _); [by eauto|].
  destruct (first_extra_day_spec (daily_allocations sm.1)
              (person_allocations sm.1 !!! ParsedPreference.person_name person)
              (ParsedPreference.preferred_days person) Hkeys)
    as [->|(day & l & -> & Hday & Hl & Hlt)]; cbn [mbind option_bind].
  - by eauto.
  - eexists. split; [done|]. cbn. split; [|done].
    right. by exists day, l.
Qed.
End oasis_steps.

Section oasis_passes.
Variables (clk : Clock) (date_map : gmap string string).
Variable Q : ParsedPreference.t → Prop.
Hypothesis Q_weekdays :
  ∀ p, Q p → ∀ d, d ∈ ParsedPreference.preferred_days p → d ∈ weekdays.

Lemma gives_lookup person D D' d :
  gives clk date_map person D D' →
  D' !! d = D !! d ∨
  ∃ l, D !! d = Some l ∧ (length l < daily_capacity)%nat ∧
       d ∈ ParsedPreference.preferred_days person ∧
       D' !! d = Some (l ++ [new_allocation clk date_map
                               (ParsedPreference.person_name person) d]).
Proof.
  intros (day & l & Hday & Hl & Hlt & ->).
  destruct (decide (day = d)) as [->|Hne].
  - right. exists l. split_and!; [done..|]. by rewrite lookup_alter_eq, Hl.
  - left. by rewrite lookup_alter_ne.
Qed.

Lemma gives_has_keys person D D' days :
  gives clk date_map person D D' → has_keys days D → has_keys days D'.
Proof.
  intros Hg Hk d Hd. destruct (gives_lookup _ _ _ d Hg) as [->|(l & _ & _ & _ & ->)]; eauto.
Qed.

Lemma reach_has_keys D D' days : reach clk date_map Q D D' → has_keys days D → has_keys days D'.
Proof.
  induction 1 as [|D1 D2 D3 (p & _ & Hg) _ IH]; [done|].
  intros Hk. by eapply IH, gives_has_keys.
Qed.

Lemma reach_step person D D' :
  Q person → gives clk date_map person D D' → reach clk date_map Q D D'.
Proof. intros HQ Hg. apply rtc_once. by exists person. Qed.

Lemma for_each_attempt_reach (l : list ParsedPreference.t) (st : state) :
  has_keys weekdays (daily_allocations st) →
  Forall Q l →
  ∃ st',
    for_each (attempt clk date_map) st l = Some st' ∧
    reach clk date_map Q (daily_allocations st) (daily_allocations st') ∧
    (∀ q, q ∈ unallocated_people st' → q ∈ unallocated_people st).
Proof.
  revert st. induction l as [|p l IH]; intros st Hk Hl.
  - exists st. split_and!; [done|apply rtc_refl|done].
  - apply Forall_cons in Hl as [Hp Hl]. cbn [for_each].
    destruct (attempt_spec clk date_map st p) as (st1 & -> & Hd & Hsub).
    { intros d Hd. apply Hk. by eapply Q_weekdays. }
    cbn [mbind option_bind].
    assert (Hr : reach clk date_map Q (daily_allocations st) (daily_allocations st1)).
    { destruct Hd as [[-> _]|Hg]; [apply rtc_refl|by eapply reach_step]. }
    destruct (IH st1) as (st' & -> & Hr' & Hsub'); [by eapply reach_has_keys|done|].
    exists st'. split_and!; [done|by etrans|auto].
Qed.

Lemma allocation_pass_reach (st : state) :
  has_keys weekdays (daily_allocations st) →
  Forall Q (unallocated_people st) →
  ∃ st',
    allocation_pass clk date_map st = Some st' ∧
    reach clk date_map Q (daily_allocations st) (daily_allocations st') ∧
    Forall Q (unallocated_people st').
Proof.
  intros Hk HQ. unfold allocation_pass.
  destruct (for_each_attempt_reach (unallocated_people st) st Hk HQ)
    as (st' & -> & Hr & Hsub).
  exists st'. split_and!; [done..|].
  rewrite Forall_forall in HQ |- *. auto.
Qed.

Lemma additional_passes_reach (n : nat) (st : state) :
  has_keys weekdays (daily_allocations st) →
  Forall Q (unallocated_people st) →
  ∃ st',
    additional_passes clk date_map n st = Some st' ∧
    reach clk date_map Q (daily_allocations st) (daily_allocations st').
Proof.
  revert st. induction n as [|n IH]; intros st Hk HQ; cbn [additional_passes].
  - exists st. split; [done|apply rtc_refl].
  - destruct (unallocated_people st) as [|p ps] eqn:E.
    + exists st. split; [done|apply rtc_refl].
    + rewrite <- E in HQ.
      destruct (allocation_pass_reach st Hk HQ) as (st1 & -> & Hr & HQ1).
      cbn [mbind option_bind].
      destruct (IH st1) as (st' & -> & Hr'); [by eapply reach_has_keys|done|].
      exists st'. split; [done|by etrans].
Qed.

Lemma for_each_extra_attempt_reach (l : list ParsedPreference.t) (sm : state * bool) :
  has_keys weekdays (daily_allocations sm.1) →
  Forall Q l →
  ∃ sm',
    for_each (extra_attempt clk date_map) sm l = Some sm' ∧
    reach clk date_map Q (daily_allocations sm.1) (daily_allocations sm'.1).
Proof.
  revert sm. induction l as [|p l IH]; intros sm Hk Hl.
  - exists sm. split; [done|apply rtc_refl].
  - apply Forall_cons in Hl as [Hp Hl]. cbn [for_each].
    destruct (extra_attempt_spec clk date_map sm p) as (sm1 & -> & Hd & _).
    { intros d Hd. apply Hk. by eapply Q_weekdays. }
    cbn [mbind option_bind].
    assert (Hr : reach clk date_map Q (daily_allocations sm.1) (daily_allocations sm1.1)).
    { destruct Hd as [->|Hg]; [apply rtc_refl|by eapply reach_step]. }
    destruct (IH sm1) as (sm' & -> & Hr'); [by eapply reach_has_keys|done|].
    exists sm'. split; [done|by etrans].
Qed.

Lemma extra_passes_reach (parsed : list ParsedPreference.t) (n : nat) (st : state) :
  has_keys weekdays (daily_allocations st) →
  Forall Q parsed →
  ∃ st',
    extra_passes clk date_map parsed n st = Some st' ∧
    reach clk date_map Q (daily_allocations st) (daily_allocations st').
Proof.
  intros Hk HQ. revert st Hk. induction n as [|n IH]; intros st Hk; cbn [extra_passes].
  - exists st. split; [done|apply rtc_refl].
  - pose proof (shuffle_Permutation parsed (rng st)) as Hperm.
    destruct (shuffle parsed (rng st)) as [all_people g]. simpl in Hperm.
    set (st0 := {| daily_allocations := daily_allocations st;
                   person_allocations := person_allocations st;
                   unallocated_people := unallocated_people st;
                   rng := g |}).
    destruct (for_each_extra_attempt_reach all_people (st0, false))
      as ([st1 made] & -> & Hr); [done|by rewrite Hperm|].
    cbn [mbind option_bind]. simpl in Hr.
    destruct made.
    + destruct (IH st1) as (st' & -> & Hr'); [by eapply reach_has_keys|].
      exists st'. split; [done|by etrans].
    + exists st1. done.
Qed.

Lemma later_passes_reach (parsed : list ParsedPreference.t) (st : state) :
  has_keys weekdays (daily_allocations st) →
  Forall Q (unallocated_people st) →
  Forall Q parsed →
  ∃ st',
    (additional_passes clk date_map max_additional_passes st ≫=
     extra_passes clk date_map parsed max_additional_passes) = Some st' ∧
    reach clk date_map Q (daily_allocations st) (daily_allocations st').
Proof.
  intros Hk HQ HQ'.
  destruct (additional_passes_reach max_additional_passes st Hk HQ) as (st1 & -> & Hr).
  cbn [mbind option_bind].
  destruct (extra_passes_reach parsed max_additional_passes st1) as (st' & -> & Hr');
    [by eapply reach_has_keys|done|].
  exists st'. split; [done|by etrans].
Qed.
End oasis_passes.

(** *** The shape of a run of [allocate_oasis] *)

Lemma allocate_oasis_unfold clk prefs g :
  prefs ≠ [] →
  ∃ L g',
    L ≡ₚ parse <$> prefs ∧
    allocate_oasis clk prefs g =
      let date_map := date_map_of (get_current_week_dates clk) in
      for_each (attempt clk date_map) (initial_state (parse <$> prefs) L g') L ≫= λ st,
      (additional_passes clk date_map max_additional_passes st ≫=
       extra_passes clk date_map (parse <$> prefs) max_additional_passes) ≫= λ st,
      Some (flatten (daily_allocations st)).
Proof.
  intros Hne. destruct prefs as [|p prefs]; [done|].
  unfold allocate_oasis.
  pose proof (shuffle_Permutation (parse <$> p :: prefs) g) as Hperm.
  destruct (shuffle (parse <$> p :: prefs) g) as [L g']. simpl in Hperm.
  exists L, g'. split; [done|].
  cbv zeta. unfold allocation_pass, initial_state, initial_daily. cbn [unallocated_people].
  destruct (for_each _ _ L) as [st1|]; [|done]. cbn [mbind option_bind].
  destruct (additional_passes _ _ _ st1) as [st2|]; [|done]. cbn [mbind option_bind].
  done.
Qed.

Lemma initial_daily_lookup d l : initial_daily !! d = Some l → l = [].
Proof.
  unfold initial_daily. intros E. apply elem_of_list_to_map_2 in E.
  by apply list_elem_of_fmap in E as (d' & [= -> ->] & _).
Qed.

Lemma initial_daily_keys : has_keys weekdays initial_daily.
Proof.
  intros d Hd. unfold initial_daily. apply not_eq_None_Some. intros Hn.
  apply not_elem_of_list_to_map_2 in Hn. apply Hn.
  apply list_elem_of_fmap. exists (d, []). split; [done|].
  apply list_elem_of_fmap. by exists d.
Qed.

Lemma initial_daily_ok : day_ok initial_daily.
Proof. intros d l ->%initial_daily_lookup. split; [simpl; lia|constructor]. Qed.

Section reach_facts.
Variables (clk : Clock) (date_map : gmap string string).
Variable Q : ParsedPreference.t → Prop.

Lemma gives_day_ok person D D' :
  gives clk date_map person D D' → day_ok D → day_ok D'.
Proof.
  intros Hg Hok d l' Hl'.
  destruct (gives_lookup clk date_map person D D' d Hg) as [E|(l & Hl & Hlt & _ & E)];
    rewrite E in Hl'.
  - by apply Hok.
  - injection Hl' as <-. destruct (Hok d l Hl) as [_ Hall]. split.
    + rewrite length_app. simpl. unfold daily_capacity in *. lia.
    + apply Forall_app. split; [done|]. by repeat constructor.
Qed.

Lemma reach_day_ok D D' : reach clk date_map Q D D' → day_ok D → day_ok D'.
Proof.
  induction 1 as [|D1 D2 D3 (p & _ & Hg) _ IH]; [done|].
  intros Hok. by eapply IH, gives_day_ok.
Qed.



(** When the days that the people of [Q] ask for are full, nothing changes. *)
Lemma reach_full D D' (days : list string) :
  (∀ p, Q p → ∀ d, d ∈ ParsedPreference.preferred_days p → d ∈ days) →
  all_full days D → reach clk date_map Q D D' → D' = D.
Proof.
  intros HQ Hfull Hr. induction Hr as [|D1 D2 D3 (p & Hp & Hg) _ IH]; [done|].
  destruct Hg as (d & l & Hd & Hl & Hlt & ->). exfalso.
  destruct (Hfull d) as (l' & Hl' & Hge); [by eapply HQ|].
  rewrite Hl in Hl'. injection Hl' as <-. lia.
Qed.
End reach_facts.

(** *** The flattened result *)

Lemma day_ok_total D d a : day_ok D → a ∈ D !!! d → OasisAllocation.day_of_week a = d.
Proof.
  intros Hok. rewrite lookup_total_alt. destruct (D !! d) as [l|] eqn:E; simpl.
  - destruct (Hok d l E) as [_ Hall]. rewrite Forall_forall in Hall. apply Hall.
  - by inversion 1.
Qed.

Lemma day_ok_length D d : day_ok D → (length (D !!! d) ≤ daily_capacity)%nat.
Proof.
  intros Hok. rewrite lookup_total_alt. destruct (D !! d) as [l|] eqn:E; simpl.
  - by destruct (Hok d l E).
  - lia.
Qed.

Lemma filter_day_bind (D : daily_map) (days : list string) (d : string) :
  day_ok D → NoDup days →
  filter (oasis_on d) (days ≫= λ day, D !!! day) =
  if decide (d ∈ days) then D !!! d else [].
Proof.
  intros Hok. induction days as [|d0 days IH]; intros Hnd; [done|].
  apply NoDup_cons in Hnd as [Hd0 Hnd]. rewrite bind_cons, filter_app, IH by done.
  destruct (decide (d0 = d)) as [->|Hne].
  - rewrite filter_all by (intros a Ha; by eapply day_ok_total).
    rewrite decide_False by done. rewrite decide_True by left. by rewrite app_nil_r.
  - rewrite filter_none.
    2:{ intros a Ha Hon. apply Hne. apply (day_ok_total D d0 a Hok) in Ha.
        unfold oasis_on in Hon. congruence. }
    simpl. destruct (decide (d ∈ days)).
    + rewrite decide_True; [done|by right].
    + rewrite decide_False; [done|]. by intros [?|?]%elem_of_cons.
Qed.

Lemma weekdays_NoDup : NoDup weekdays.
Proof. apply (bool_decide_unpack _). by vm_compute. Qed.

Lemma flatten_day_count D d :
  day_ok D → (length (filter (oasis_on d) (flatten D)) ≤ daily_capacity)%nat.
Proof.
  intros Hok. unfold flatten. rewrite filter_day_bind by (done || apply weekdays_NoDup).
  case_decide; [by apply day_ok_length|simpl; lia].
Qed.

Lemma parsed_weekday_persons prefs :
  (∀ p, p ∈ prefs → weekday_preference p) → Forall weekday_person (parse <$> prefs).
Proof.
  intros H. apply Forall_fmap, Forall_forall. intros p Hp. by apply H.
Qed.

(** A run of [allocate_oasis] on weekday preferences: the first pass ends
    in a state [st1], and the result is the flattening of a map reached
    from that of [st1]. *)
Lemma allocate_oasis_run clk prefs g (Q : ParsedPreference.t → Prop) :
  prefs ≠ [] →
  (∀ p, Q p → weekday_person p) →
  Forall Q (parse <$> prefs) →
  let date_map := date_map_of (get_current_week_dates clk) in
  ∃ L g' st1 D,
    L ≡ₚ parse <$> prefs ∧
    for_each (attempt clk date_map) (initial_state (parse <$> prefs) L g') L = Some st1 ∧
    reach clk date_map Q initial_daily (daily_allocations st1) ∧
    reach clk date_map Q (daily_allocations st1) D ∧
    allocate_oasis clk prefs g = Some (flatten D).
Proof.
  intros Hne HQ Hall date_map.
  destruct (allocate_oasis_unfold clk prefs g Hne) as (L & g' & Hperm & ->).
  cbv zeta. fold date_map.
  assert (HL : Forall Q L) by (by rewrite Hperm).
  destruct (for_each_attempt_reach clk date_map Q HQ L
              (initial_state (parse <$> prefs) L g'))
    as (st1 & Hst1 & Hr1 & Hsub); [apply initial_daily_keys|done|].
  cbn [initial_state daily_allocations unallocated_people] in Hr1, Hsub.
  destruct (later_passes_reach clk date_map Q HQ (parse <$> prefs) st1)
    as (st2 & Hst2 & Hr2).
  { eapply reach_has_keys; [done|apply initial_daily_keys]. }
  { rewrite Forall_forall in HL |- *. auto. }
  { done. }
  exists L, g', st1, (daily_allocations st2). split_and!; [done..|].
  rewrite Hst1. cbn [mbind option_bind]. rewrite Hst2. done.
Qed.

(** C4. For every list of Oasis preferences whose preferred days are
    weekdays, [allocate_oasis] returns a list of records that holds at most
    11 records for each weekday. *)
Theorem oasis_capacity_invariant
    (clk : Clock) (prefs : list OasisPreference.t) (g : Rng) :
  (∀ p, p ∈ prefs → weekday_preference p) →
  ∃ out,
    allocate_oasis clk prefs g = Some out ∧
    ∀ day, day ∈ weekdays → (length (filter (oasis_on day) out) ≤ 11)%nat.
Proof.
  intros Hvalid. destruct (decide (prefs = [])) as [->|Hne].
  - exists []. split; [done|]. intros; simpl; lia.
  - destruct (allocate_oasis_run clk prefs g weekday_person Hne)
      as (L & g' & st1 & D & _ & _ & Hr1 & Hr2 & ->); [done|by apply parsed_weekday_persons|].
    exists (flatten D). split; [done|]. intros day _.
    apply flatten_day_count.
    eapply reach_day_ok; [done|]. eapply reach_day_ok; [done|]. apply initial_daily_ok.
Qed.

Lemma oasis_capacity_invariant_witness :
  (∀ p, p ∈ sample_people → weekday_preference p) ∧
  ∃ out,
    allocate_oasis sample_clock sample_people [1; 0; 2; 1]%nat = Some out ∧
    ∀ day, day ∈ weekdays → (length (filter (oasis_on day) out) ≤ 11)%nat.
Proof.
  assert (H : ∀ p, p ∈ sample_people → weekday_preference p).
  { intros p Hp. unfold sample_people in Hp.
    elem_cases Hp; intros d Hd; vm_compute in Hd; elem_cases Hd;
      apply (bool_decide_unpack _); vm_compute; exact I. }
  split; [exact H|].
  exact (oasis_capacity_invariant sample_clock sample_people [1; 0; 2; 1]%nat H).
Defined.

(** *** The first pass when no day is asked for by more than eleven people *)

Section first_pass.
Variables (clk : Clock) (date_map : gmap string string).

End first_pass.


Lemma elem_of_flatten D a :
  a ∈ flatten D ↔ ∃ d, d ∈ weekdays ∧ a ∈ D !!! d.
Proof.
  unfold flatten. rewrite list_elem_of_bind. split.
  - intros (d & Ha & Hd). by exists d.
  - intros (d & Hd & Ha). by exists d.
Qed.



(** *** Everybody asks for Monday only *)

Section monday.
Variables (clk : Clock) (date_map : gmap string string).

Lemma attempt_monday (st : state) (p : ParsedPreference.t) (l : list OasisAllocation.t) :
  monday_only p →
  daily_allocations st !! "Monday" = Some l →
  ∃ st',
    attempt clk date_map st p = Some st' ∧
    daily_allocations st' =
      if decide (length l < daily_capacity)%nat
      then <["Monday" := l ++ [monday_record clk date_map p]]> (daily_allocations st)
      else daily_allocations st.
Proof.
  intros Hp Hl. unfold attempt. rewrite Hp.
  change (shuffle ["Monday"] (rng st)) with (["Monday"], rng st).
  cbn [first_free_day daily_allocations]. rewrite Hl. cbn [mbind option_bind].
  destruct (decide (length l < daily_capacity)%nat).
  - eexists. split; [done|]. cbn.
    apply map_eq. intros d. destruct (decide (d = "Monday")) as [->|Hne].
    + by rewrite lookup_alter_eq, lookup_insert_eq, Hl.
    + by rewrite lookup_alter_ne, lookup_insert_ne.
  - eexists. split; [done|]. done.
Qed.

Lemma monday_pass (L : list ParsedPreference.t) (st : state) (l : list OasisAllocation.t) :
  Forall monday_only L →
  daily_allocations st !! "Monday" = Some l →
  ∃ st',
    for_each (attempt clk date_map) st L = Some st' ∧
    daily_allocations st' =
      <["Monday" := l ++ (monday_record clk date_map <$> take (daily_capacity - length l) L)]>
        (daily_allocations st).
Proof.
  revert st l. induction L as [|p L IH]; intros st l HL Hl.
  - exists st. split; [done|]. rewrite take_nil. simpl. rewrite app_nil_r.
    by rewrite insert_id.
  - apply Forall_cons in HL as [Hp HL]. cbn [for_each].
    destruct (attempt_monday st p l Hp Hl) as (st1 & -> & HD).
    cbn [mbind option_bind].
    destruct (decide (length l < daily_capacity)%nat) as [Hlt|Hge].
    + destruct (IH st1 (l ++ [monday_record clk date_map p]) HL) as (st' & -> & HD').
      { by rewrite HD, lookup_insert_eq. }
      exists st'. split; [done|]. rewrite HD', HD, insert_insert_eq.
      f_equal. rewrite length_app. simpl.
      replace (daily_capacity - length l)%nat
        with (S (daily_capacity - (length l + 1)))%nat by lia.
      simpl. by rewrite <- app_assoc.
    + destruct (IH st1 l HL) as (st' & -> & HD'); [by rewrite HD|].
      exists st'. split; [done|]. rewrite HD', HD.
      by replace (daily_capacity - length l)%nat with 0%nat by lia.
Qed.
End monday.

Lemma initial_daily_total d : initial_daily !!! d = [].
Proof.
  rewrite lookup_total_alt. destruct (initial_daily !! d) eqn:E; [|done].
  by apply initial_daily_lookup in E as ->.
Qed.

Lemma flatten_monday (X : list OasisAllocation.t) :
  flatten (<["Monday" := X]> initial_daily) = X.
Proof.
  unfold flatten, weekdays, get_weekdays.
  rewrite !bind_cons. change (([] : list string) ≫= _) with ([] : list OasisAllocation.t).
  rewrite lookup_total_insert_eq.
  rewrite !lookup_total_insert_ne by discriminate.
  rewrite !initial_daily_total. by rewrite !app_nil_r.
Qed.

Lemma length_filter_names (names : list string) (prefs : list OasisPreference.t) :
  length (filter (λ p, OasisPreference.person_name p ∉ names) prefs) =
  length (filter (λ n, n ∉ names) (OasisPreference.person_name <$> prefs)).
Proof.
  induction prefs as [|p prefs IH]; [done|].
  rewrite fmap_cons, !filter_cons. case_decide; simpl; by rewrite IH.
Qed.

(** C9. Fifteen people with distinct names who all ask for Monday only: the
    result holds exactly 11 records, all for Monday and for 11 distinct
    people of the input, and the 4 others are in no record. *)
Theorem fifteen_people_for_monday
    (clk : Clock) (prefs : list OasisPreference.t) (g : Rng) :
  length prefs = 15%nat →
  NoDup (OasisPreference.person_name <$> prefs) →
  (∀ p, p ∈ prefs → parse_preferred_days_from_oasis_pref p = ["Monday"]) →
  ∃ out,
    allocate_oasis clk prefs g = Some out ∧
    length out = 11%nat ∧
    (∀ a, a ∈ out → OasisAllocation.day_of_week a = "Monday") ∧
    NoDup (OasisAllocation.person_name <$> out) ∧
    (∀ a, a ∈ out →
          OasisAllocation.person_name a ∈ OasisPreference.person_name <$> prefs) ∧
    length (filter (λ p, OasisPreference.person_name p ∉
                         OasisAllocation.person_name <$> out) prefs) = 4%nat.
Proof.
  intros Hlen Hnd Hmonday.
  assert (Hne : prefs ≠ []) by (intros ->; discriminate).
  set (date_map := date_map_of (get_current_week_dates clk)).
  assert (HQ : ∀ p, monday_only p → weekday_person p).
  { intros p Hp d. rewrite Hp. intros ->%list_elem_of_singleton.
    unfold weekdays, get_weekdays. left. }
  assert (Hall : Forall monday_only (parse <$> prefs)).
  { apply Forall_fmap, Forall_forall. intros p Hp. by apply Hmonday. }
  destruct (allocate_oasis_run clk prefs g monday_only Hne HQ Hall)
    as (L & g' & st1 & D & Hperm & Hst1 & _ & Hr2 & ->).
  fold date_map in Hst1, Hr2.
  destruct (monday_pass clk date_map L (initial_state (parse <$> prefs) L g') [])
    as (st1' & Hst1' & HD); [by rewrite Hperm|done|].
  rewrite Hst1 in Hst1'. injection Hst1' as <-.
  cbn [initial_state daily_allocations app length] in HD.
  rewrite Nat.sub_0_r in HD.
  assert (HlenL : length L = 15%nat) by (by rewrite Hperm, length_fmap).
  set (X := monday_record clk date_map <$> take daily_capacity L) in HD.
  assert (HlenX : length X = 11%nat).
  { unfold X. rewrite length_fmap, length_take_le; [done|]. unfold daily_capacity. lia. }
  assert (D = daily_allocations st1) as ->.
  { eapply (reach_full clk date_map monday_only _ _ ["Monday"]); [| |done].
    - intros p Hp d. by rewrite Hp.
    - intros d ->%list_elem_of_singleton. exists X. rewrite HD, lookup_insert_eq.
      split; [done|]. unfold daily_capacity. lia. }
  rewrite HD, flatten_monday.
  assert (Hnames : OasisAllocation.person_name <$> X =
                   take 11 (ParsedPreference.person_name <$> L)).
  { unfold X. rewrite <- list_fmap_compose, fmap_take. done. }
  assert (HnamesL : ParsedPreference.person_name <$> L ≡ₚ
                    OasisPreference.person_name <$> prefs).
  { rewrite Hperm, <- list_fmap_compose. done. }
  assert (HndL : NoDup (ParsedPreference.person_name <$> L)) by (by rewrite HnamesL).
  exists X. split_and!; [done|done| | | |].
  - intros a (p & -> & _)%list_elem_of_fmap. done.
  - rewrite Hnames. eapply sublist_NoDup; [done|apply sublist_take].
  - intros a Ha. rewrite <- HnamesL.
    eapply elem_of_sublist; [|apply (sublist_take _ 11)].
    rewrite <- Hnames. by apply list_elem_of_fmap_2.
  - rewrite length_filter_names.
    rewrite <- HnamesL, Hnames.
    pose proof (filter_not_in_prefix (take 11 (ParsedPreference.person_name <$> L))
                  (drop 11 (ParsedPreference.person_name <$> L))) as Hf.
    rewrite take_drop in Hf. rewrite Hf by done.
    rewrite length_drop, length_fmap, HlenL. done.
Qed.

Lemma fifteen_people_for_monday_witness :
  length scenario_c_people = 15%nat ∧
  NoDup (OasisPreference.person_name <$> scenario_c_people) ∧
  (∀ p, p ∈ scenario_c_people → parse_preferred_days_from_oasis_pref p = ["Monday"]) ∧
  ∃ out,
    allocate_oasis sample_clock scenario_c_people [3; 1; 4; 1; 5; 9; 2; 6]%nat = Some out ∧
    length out = 11%nat ∧
    (∀ a, a ∈ out → OasisAllocation.day_of_week a = "Monday") ∧
    NoDup (OasisAllocation.person_name <$> out) ∧
    (∀ a, a ∈ out →
          OasisAllocation.person_name a ∈ OasisPreference.person_name <$> scenario_c_people) ∧
    length (filter (λ p, OasisPreference.person_name p ∉
                         OasisAllocation.person_name <$> out) scenario_c_people) = 4%nat.
Proof.
  assert (H1 : length scenario_c_people = 15%nat) by reflexivity.
  assert (H2 : NoDup (OasisPreference.person_name <$> scenario_c_people)).
  { apply (bool_decide_unpack _). vm_compute. exact I. }
  assert (H3 : ∀ p, p ∈ scenario_c_people →
                    parse_preferred_days_from_oasis_pref p = ["Monday"]).
  { intros p Hp. unfold scenario_c_people in Hp. simpl in Hp.
    elem_cases Hp; reflexivity. }
  split; [exact H1|]. split; [exact H2|]. split; [exact H3|].
  exact (fifteen_people_for_monday sample_clock scenario_c_people
           [3; 1; 4; 1; 5; 9; 2; 6]%nat H1 H2 H3).
Defined.

(** ** Ad-hoc additions *)

Lemma weekday_cases (day : string) :
  day ∈ weekdays →
  day = "Monday" ∨ day = "Tuesday" ∨ day = "Wednesday" ∨ day = "Thursday" ∨ day = "Friday".
Proof.
  unfold weekdays, get_weekdays. rewrite !elem_of_cons, elem_of_nil. tauto.
Qed.

Lemma date_map_weekday (clk : Clock) (day : string) :
  day ∈ weekdays → is_Some (date_map_of (get_current_week_dates clk) !! day).
Proof.
  intros Hd. apply weekday_cases in Hd.
  destruct Hd as [-> | [-> | [-> | [-> | ->]]]]; vm_compute; eauto.
Qed.

Lemma count_day_lookup (existing : list OasisAllocation.t) (counts : gmap string Z) (day : string) :
  foldl count_day counts existing !! day =
  (λ n, n + Z.of_nat (day_count day existing)) <$> counts !! day.
Proof.
  revert counts. induction existing as [|a existing IH]; intros counts; simpl.
  - unfold day_count. destruct (counts !! day); simpl; f_equal; lia.
  - rewrite IH. unfold day_count, count_day. rewrite filter_cons.
    destruct (decide (OasisAllocation.day_of_week a = day)) as [->|Hne].
    + destruct (counts !! day) eqn:E; simpl.
      * rewrite lookup_insert_eq. simpl. f_equal. lia.
      * rewrite E. done.
    + destruct (counts !! OasisAllocation.day_of_week a) eqn:E; simpl.
      * rewrite lookup_insert_ne by done. done.
      * done.
Qed.

Lemma availability_weekday (existing : list OasisAllocation.t) (day : string) :
  day ∈ weekdays →
  get_daily_availability existing !!! day =
  Z.max 0 (Z.of_nat daily_capacity - Z.of_nat (day_count day existing)).
Proof.
  intros Hd. unfold get_daily_availability.
  set (counts := foldl count_day _ existing).
  assert (Hc : counts !!! day = Z.of_nat (day_count day existing)).
  { unfold counts. rewrite lookup_total_alt, count_day_lookup.
    apply weekday_cases in Hd.
    destruct Hd as [-> | [-> | [-> | [-> | ->]]]]; reflexivity. }
  rewrite <- Hc. clearbody counts. clear Hc.
  apply weekday_cases in Hd. unfold weekdays, get_weekdays. simpl foldl.
  destruct Hd as [-> | [-> | [-> | [-> | ->]]]];
    rewrite lookup_total_alt; simplify_map_eq; done.
Qed.

Lemma can_add_person_to_day_spec (day : string) (existing : list OasisAllocation.t) :
  day ∈ weekdays →
  can_add_person_to_day day existing = true ↔ (day_count day existing < daily_capacity)%nat.
Proof.
  intros Hd. unfold can_add_person_to_day.
  rewrite decide_True by done. rewrite bool_decide_eq_true.
  rewrite availability_weekday by done. lia.
Qed.

(** C7. For a weekday [day], [add_adhoc_allocation] returns nothing exactly
    when the existing records hold at least 11 records for [day] or a record
    of this person for [day]; what it returns otherwise is a record of this
    person for this day. *)
Theorem add_adhoc_allocation_spec (clk : Clock) (person_name day : string)
    (existing : list OasisAllocation.t) :
  day ∈ weekdays →
  (add_adhoc_allocation clk person_name day existing = None ↔
     (11 ≤ day_count day existing)%nat ∨
     (∃ a, a ∈ existing ∧ OasisAllocation.person_name a = person_name ∧
           OasisAllocation.day_of_week a = day)) ∧
  (∀ a, add_adhoc_allocation clk person_name day existing = Some a →
        OasisAllocation.person_name a = person_name ∧
        OasisAllocation.day_of_week a = day).
Proof.
  intros Hd. unfold add_adhoc_allocation.
  pose proof (can_add_person_to_day_spec day existing Hd) as Hcan.
  unfold daily_capacity in Hcan.
  destruct (date_map_weekday clk day Hd) as [date Hdate]. rewrite Hdate.
  destruct (can_add_person_to_day day existing); simpl.
  - assert (Hlt : (day_count day existing < 11)%nat) by (by apply Hcan).
    destruct (existsb _ existing) eqn:Hex.
    + split; [|done]. split; [|done]. intros _. right.
      apply existsb_exists in Hex as (a & Hin & Ha).
      apply andb_true_iff in Ha as [H1 H2].
      apply bool_decide_eq_true in H1, H2.
      exists a. by rewrite list_elem_of_In.
    + split; [|by intros a [= <-]].
      split; [done|]. intros [Hfull | (a & Hin & H1 & H2)]; [lia|].
      match type of Hex with ?e = false => assert (e = true) as Hex' end.
      { apply existsb_exists. exists a. rewrite <- list_elem_of_In.
        split; [done|]. by rewrite !bool_decide_eq_true_2. }
      congruence.
  - split; [|done]. split; [|done]. intros _. left.
    destruct (decide (day_count day existing < 11)%nat) as [Hlt|]; [|lia].
    apply Hcan in Hlt. done.
Qed.

Lemma add_adhoc_allocation_spec_witness :
  let existing :=
    [OasisAllocation.mk "Zoe" "2024-01-02" "Tuesday" false None None;
     OasisAllocation.mk "Yan" "2024-01-01" "Monday" false None None] in
  "Tuesday" ∈ weekdays ∧
  (add_adhoc_allocation sample_clock "Zoe" "Tuesday" existing = None ↔
     (11 ≤ day_count "Tuesday" existing)%nat ∨
     (∃ a, a ∈ existing ∧ OasisAllocation.person_name a = "Zoe" ∧
           OasisAllocation.day_of_week a = "Tuesday")) ∧
  (∀ a, add_adhoc_allocation sample_clock "Zoe" "Tuesday" existing = Some a →
        OasisAllocation.person_name a = "Zoe" ∧
        OasisAllocation.day_of_week a = "Tuesday").
Proof.
  intros existing.
  assert (H : "Tuesday" ∈ weekdays).
  { unfold weekdays, get_weekdays. right. left. }
  split; [exact H|].
  exact (add_adhoc_allocation_spec sample_clock "Zoe" "Tuesday" existing H).
Defined.

(** ** The validator *)

Section dict_append.
Implicit Types (d : list (string * list string)) (k v : string) (vs : list string).

Lemma dict_append_keys k v d :
  (dict_append k v d).*1 = if decide (k ∈ d.*1) then d.*1 else d.*1 ++ [k].
Proof.
  induction d as [|[k' vs] d IH]; csimpl; [done|].
  destruct (decide (k' = k)) as [->|Hne]; csimpl.
  - rewrite decide_True by set_solver. done.
  - rewrite IH. destruct (decide (k ∈ d.*1)).
    + rewrite decide_True by set_solver. done.
    + rewrite decide_False by set_solver. done.
Qed.

Lemma dict_append_NoDup k v d : NoDup d.*1 → NoDup (dict_append k v d).*1.
Proof.
  intros Hnd. rewrite dict_append_keys. case_decide; [done|].
  apply NoDup_app. split_and!; [done| |apply NoDup_singleton].
  intros x Hx. rewrite list_elem_of_singleton. by intros ->.
Qed.

Lemma dict_append_elem k v d k' vs' :
  NoDup d.*1 →
  (k', vs') ∈ dict_append k v d ↔
    (k' ≠ k ∧ (k', vs') ∈ d) ∨
    (k' = k ∧ ((∃ vs, (k, vs) ∈ d ∧ vs' = vs ++ [v]) ∨ (k ∉ d.*1 ∧ vs' = [v]))).
Proof.
  induction d as [|[k0 vs0] d IH]; csimpl; intros Hnd.
  - rewrite list_elem_of_singleton. split.
    + intros [= -> ->]. right. split; [done|]. right. split; [|done]. set_solver.
    + intros [[_ H]|[-> [(vs & H & _)|[_ ->]]]]; [by inversion H|by inversion H|done].
  - apply NoDup_cons in Hnd as [Hk0 Hnd]. specialize (IH Hnd).
    destruct (decide (k0 = k)) as [->|Hne].
    + rewrite !elem_of_cons. split.
      * intros [[= -> ->]|Hin].
        -- right. split; [done|]. left. exists vs0. split; [by left|done].
        -- left. split; [|by right]. intros ->. apply Hk0.
           apply list_elem_of_fmap. by exists (k, vs').
      * intros [[Hne [[= -> ->]|Hin]]|[-> [(vs & Hin & ->)|[Hnot _]]]].
        -- done.
        -- by right.
        -- apply elem_of_cons in Hin as [[= ->]|Hin]; [by left|].
           exfalso. apply Hk0. apply list_elem_of_fmap. by exists (k, vs).
        -- exfalso. apply Hnot. set_solver.
    + rewrite !elem_of_cons, IH. split.
      * intros [[= -> ->]|[[Hk Hin]|[-> Hr]]].
        -- left. split; [done|by left].
        -- left. split; [done|by right].
        -- right. split; [done|]. destruct Hr as [(vs & Hin & ->)|[Hnot ->]].
           ++ left. exists vs. split; [by right|done].
           ++ right. split; [|done]. set_solver.
      * intros [[Hk [[= -> ->]|Hin]]|[-> [(vs & Hin & ->)|[Hnot ->]]]].
        -- by left.
        -- right. left. done.
        -- apply elem_of_cons in Hin as [[= -> ->]|Hin]; [done|].
           right. right. split; [done|]. left. by exists vs.
        -- right. right. split; [done|]. right. split; [|done]. set_solver.
Qed.
End dict_append.

Lemma teams_at_snoc key weekly a :
  teams_at key (weekly ++ [a]) =
  teams_at key weekly ++
  (if decide (weekly_key a = key) then [WeeklyAllocation.team_name a] else []).
Proof.
  unfold teams_at. rewrite filter_app, fmap_app. f_equal.
  rewrite filter_cons, filter_nil. by case_decide.
Qed.

Lemma group_weekly_snoc weekly a :
  group_weekly (weekly ++ [a]) =
  dict_append (weekly_key a) (WeeklyAllocation.team_name a) (group_weekly weekly).
Proof. unfold group_weekly. by rewrite foldl_app. Qed.

Lemma group_weekly_spec (weekly : list WeeklyAllocation.t) :
  NoDup (group_weekly weekly).*1 ∧
  ∀ key teams, (key, teams) ∈ group_weekly weekly ↔
               teams = teams_at key weekly ∧ teams ≠ [].
Proof.
  induction weekly as [|a weekly [IHnd IH]] using rev_ind.
  - split; [constructor|]. intros key teams. split.
    + intros H. by inversion H.
    + intros [-> H]. done.
  - rewrite group_weekly_snoc. split; [by apply dict_append_NoDup|].
    intros key teams. rewrite dict_append_elem by done.
    rewrite teams_at_snoc. setoid_rewrite IH. split.
    + intros [[Hne [-> Hnil]]|[-> Hr]].
      * rewrite decide_False by done. by rewrite app_nil_r.
      * rewrite decide_True by done.
        destruct Hr as [(vs & [-> Hnil] & ->)|[Hnot ->]].
        -- split; [done|]. by intros [? ?]%app_eq_nil.
        -- split; [|done].
           destruct (teams_at (weekly_key a) weekly) as [|t ts] eqn:E; [done|].
           exfalso. apply Hnot. apply list_elem_of_fmap.
           exists (weekly_key a, t :: ts). split; [done|]. apply IH. by rewrite E.
    + intros [-> Hnil]. destruct (decide (weekly_key a = key)) as [<-|Hne].
      * right. split; [done|].
        destruct (teams_at (weekly_key a) weekly) as [|t ts] eqn:E.
        -- right. split; [|done]. intros ((k & vs) & Hk & Hin)%list_elem_of_fmap.
           simpl in Hk. subst k. apply IH in Hin as [-> Hvs]. by rewrite E in Hvs.
        -- left. exists (t :: ts). done.
      * left. rewrite app_nil_r in *. done.
Qed.

Lemma check_room_fold (d : list (string * list string)) (v : bool) (es : list string) :
  foldl check_room (v, es) d =
  (if decide (filter (λ entry, (1 < length entry.2)%nat) d = []) then v else false,
   es ++ ((λ entry, room_conflict_message entry.1 entry.2) <$>
            filter (λ entry, (1 < length entry.2)%nat) d)).
Proof.
  revert v es. induction d as [|[k l] d IH]; intros v es; cbn [foldl].
  - rewrite filter_nil. simpl. by rewrite app_nil_r.
  - destruct (check_room (v, es) (k, l)) as [v' es'] eqn:E.
    rewrite IH, filter_cons. unfold check_room in E. cbn [fst snd] in *.
    destruct (decide (1 < length l)%nat); injection E as <- <-.
    + rewrite <- app_assoc. simpl. f_equal. by case_decide.
    + done.
Qed.

Lemma check_oasis_day_fold (d : list (string * list string)) (v : bool) (es : list string) :
  foldl check_oasis_day (v, es) d =
  (v && (foldl check_oasis_day (true, []) d).1,
   es ++ (foldl check_oasis_day (true, []) d).2).
Proof.
  revert v es. induction d as [|entry d IH] using rev_ind; intros v es.
  - simpl. by rewrite andb_true_r, app_nil_r.
  - rewrite !foldl_app. simpl. rewrite (IH v es).
    destruct (foldl check_oasis_day (true, []) d) as [v' es'].
    unfold check_oasis_day. simpl.
    repeat case_decide; simpl; rewrite ?andb_false_r, ?andb_true_r, <- ?app_assoc; done.
Qed.

(** C8, as the code has it. The errors of [validate_allocation_results]
    start with one room-conflict message for every key [room_day] under which
    more than one weekly record is grouped (whether or not the team names
    differ), in the order in which the keys are first met, followed by the
    Oasis errors; [valid] is false when there is such a key. In particular
    two weekly records for one room and day, with no Oasis record, give
    [valid = false] and exactly one error, which names that room and day. *)
Theorem room_conflict_exactly_when_two_records
    (weekly : list WeeklyAllocation.t) (oasis : list OasisAllocation.t) :
  let result := validate_allocation_results weekly oasis in
  errors result =
    ((λ entry, room_conflict_message entry.1 entry.2) <$> conflicts weekly)
    ++ oasis_errors oasis ∧
  (conflicts weekly ≠ [] → valid result = false) ∧
  (∀ key teams, (key, teams) ∈ conflicts weekly ↔
                teams = teams_at key weekly ∧ (1 < length teams)%nat) ∧
  (∀ a b, weekly = [a; b] → weekly_key a = weekly_key b → oasis = [] →
          valid result = false ∧
          errors result =
            [room_conflict_message (weekly_key a)
               [WeeklyAllocation.team_name a; WeeklyAllocation.team_name b]]).
Proof.
  intros result.
  assert (Hkeys : ∀ key teams, (key, teams) ∈ conflicts weekly ↔
                  teams = teams_at key weekly ∧ (1 < length teams)%nat).
  { intros key teams. unfold conflicts. rewrite list_elem_of_filter. simpl.
    destruct (group_weekly_spec weekly) as [_ Hspec]. rewrite Hspec. split.
    - intros [? [? ?]]. done.
    - intros [-> Hlen]. split_and!; [done..|]. intros E. rewrite E in Hlen. simpl in Hlen. lia. }
  assert (Hres : errors result =
            ((λ entry, room_conflict_message entry.1 entry.2) <$> conflicts weekly)
            ++ oasis_errors oasis ∧
          (conflicts weekly ≠ [] → valid result = false)).
  { unfold result, validate_allocation_results. simpl.
    rewrite check_room_fold, check_oasis_day_fold. simpl. split; [done|].
    intros Hne. fold (conflicts weekly). rewrite decide_False by done. done. }
  destruct Hres as [Herr Hvalid]. split_and!; [done..|].
  intros a b -> Hab ->.
  assert (Hc : conflicts [a; b] =
               [(weekly_key a, [WeeklyAllocation.team_name a; WeeklyAllocation.team_name b])]).
  { unfold conflicts, group_weekly. cbn [foldl].
    fold (weekly_key a) (weekly_key b). cbn [dict_append].
    rewrite decide_True by done. rewrite filter_cons, filter_nil.
    rewrite decide_True by (simpl; lia). done. }
  split.
  - apply Hvalid. by rewrite Hc.
  - rewrite Herr, Hc. done.
Qed.

Lemma room_conflict_exactly_when_two_records_witness :
  let a := WeeklyAllocation.mk "Team X" "Room A" "2024-01-01" "Monday" false None None in
  let b := WeeklyAllocation.mk "Team Y" "Room A" "2024-01-01" "Monday" false None None in
  let result := validate_allocation_results [a; b] [] in
  weekly_key a = weekly_key b ∧
  valid result = false ∧
  errors result =
    [room_conflict_message (weekly_key a)
       [WeeklyAllocation.team_name a; WeeklyAllocation.team_name b]].
Proof.
  intros a b result.
  assert (H : weekly_key a = weekly_key b) by reflexivity.
  split; [exact H|].
  destruct (room_conflict_exactly_when_two_records [a; b] []) as (_ & _ & _ & Htwo).
  exact (Htwo a b eq_refl H eq_refl).
Defined.

(** C8, as stated, fails: two records of the same team for one room and day
    raise a room conflict although only one distinct team name appears for
    that room and day. *)
Lemma room_conflict_for_one_team :
  let a := WeeklyAllocation.mk "Team X" "Room A" "2024-01-01" "Monday" false None None in
  let result := validate_allocation_results [a; a] [] in
  valid result = false ∧
  errors result =
    ["Room conflict: Room A_Monday assigned to multiple teams: Team X, Team X"] ∧
  ¬ (1 < length (remove_dups (teams_at (room_key "Room A" "Monday") [a; a])))%nat.
Proof. split_and!; [by vm_compute..|]. vm_compute. lia. Qed.

(** * Further properties of the allocation engine *)

(** ** The order in which teams are served *)

Section sorted_desc.
Context {A : Type} (key : A → Qc).

Lemma insert_desc_elem (x y : A) (l : list A) :
  y ∈ insert_desc key x l ↔ y = x ∨ y ∈ l.
Proof.
  rewrite (insert_desc_Permutation key x l). apply elem_of_cons.
Qed.

Lemma insert_desc_sorted (x : A) (l : list A) :
  StronglySorted (λ a b, (key b <= key a)%Qc) l →
  StronglySorted (λ a b, (key b <= key a)%Qc) (insert_desc key x l).
Proof.
  induction 1 as [|y l Hs IH Hy]; cbn [insert_desc].
  - repeat constructor.
  - destruct (decide (key x < key y)%Qc) as [Hlt|Hge].
    + constructor; [done|]. rewrite Forall_forall. intros z [->|Hz]%insert_desc_elem.
      * by apply Qclt_le_weak.
      * rewrite Forall_forall in Hy. by apply Hy.
    + apply Qcnot_lt_le in Hge. constructor; [by constructor|].
      constructor; [done|]. rewrite Forall_forall in Hy |- *.
      intros z Hz. eapply Qcle_trans; [by apply Hy|done].
Qed.

Lemma sort_desc_sorted (l : list A) :
  StronglySorted (λ a b, (key b <= key a)%Qc) (sort_desc key l).
Proof.
  unfold sort_desc. induction l as [|x l IH]; cbn [foldr]; [constructor|].
  by apply insert_desc_sorted.
Qed.
End sorted_desc.

Lemma bind_sorted {A B} (R : relation A) (S : relation B) (f : A → list B) (l : list A) :
  StronglySorted R l →
  (∀ a, a ∈ l → StronglySorted S (f a)) →
  (∀ a a' b b', R a a' → b ∈ f a → b' ∈ f a' → S b b') →
  StronglySorted S (l ≫= f).
Proof.
  intros Hl Hin Hcross. induction Hl as [|a l Hl IH Ha].
  - constructor.
  - rewrite bind_cons. apply StronglySorted_app. split_and!.
    + intros b b' Hb (a' & Hb' & Ha')%list_elem_of_bind.
      rewrite Forall_forall in Ha. eapply Hcross; [by apply Ha| |]; done.
    + apply Hin. left.
    + apply IH. intros; apply Hin; by right.
Qed.

Lemma group_append_by_score team groups :
  groups_by_score groups → groups_by_score (group_append (priority team) team groups).
Proof.
  induction groups as [|[s grp] groups IH]; intros Hg s' grp' t; cbn [group_append].
  - intros [= -> ->]%list_elem_of_singleton ->%list_elem_of_singleton. done.
  - destruct (decide (s = priority team)) as [Heq|Hne].
    + intros [Hhd|Hin]%elem_of_cons Ht.
      * injection Hhd as -> ->.
        apply elem_of_app in Ht as [Ht|Ht%list_elem_of_singleton].
        -- eapply Hg; [left|done].
        -- by subst t.
      * eapply Hg; [by right|done].
    + intros [Hhd|Hin]%elem_of_cons Ht.
      * injection Hhd as -> ->. eapply Hg; [left|done].
      * eapply IH; [|done..]. intros ? ? ? ? ?. eapply Hg; [by right|done].
Qed.

Lemma group_by_priority_by_score teams : groups_by_score (group_by_priority teams).
Proof.
  unfold group_by_priority.
  induction teams as [|t teams IH] using rev_ind.
  - intros s grp t Hin. by apply elem_of_nil in Hin.
  - rewrite foldl_app. cbn [foldl]. by apply group_append_by_score.
Qed.

Lemma shuffle_groups_by_score groups g :
  groups_by_score groups → groups_by_score (shuffle_groups groups g).1.
Proof.
  revert g. induction groups as [|[s grp] groups IH]; intros g Hg; cbn [shuffle_groups].
  - done.
  - destruct (shuffle grp g) as [grp' g1] eqn:E1.
    destruct (shuffle_groups groups g1) as [rest g2] eqn:E2. cbn [fst].
    intros s' grp'' t [[= <- <-]|Hin]%elem_of_cons Ht.
    + eapply Hg; [left|]. rewrite <- (shuffle_Permutation grp g). by rewrite E1.
    + specialize (IH g1). rewrite E2 in IH. eapply IH; [|done..].
      intros ? ? ? ? ?. eapply Hg; [by right|done].
Qed.

Lemma group_lookup_by_score s groups t :
  groups_by_score groups → t ∈ group_lookup s groups → priority t = s.
Proof.
  induction groups as [|[s' grp] groups IH]; intros Hg; cbn [group_lookup].
  - by intros ?%elem_of_nil.
  - destruct (decide (s' = s)) as [->|Hne].
    + intros Ht. eapply Hg; [left|done].
    + apply IH. intros ? ? ? ? ?. eapply Hg; [by right|done].
Qed.

Lemma equal_scores_sorted (l : list TeamPreference.t) s :
  (∀ t, t ∈ l → priority t = s) → by_priority l.
Proof.
  intros Hl. unfold by_priority. induction l as [|t l IH]; [constructor|].
  constructor.
  - apply IH. intros; apply Hl; by right.
  - rewrite Forall_forall. intros t' Ht'.
    rewrite (Hl t) by left. rewrite (Hl t') by (by right). apply Qcle_refl.
Qed.

(** X1. The order in which [allocate_rooms] serves the teams of a day-pair:
    sorting by score and then shuffling the teams of equal score gives a
    permutation of the teams in which no team comes after a team of lower
    score, whatever the random draws. *)
Theorem shuffle_same_priority_keeps_order (teams : list TeamPreference.t) (g : Rng) :
  let served := (_shuffle_same_priority_teams (sort_desc priority teams) g).1 in
  served ≡ₚ teams ∧ by_priority served.
Proof.
  intros served. split.
  - unfold served. rewrite _shuffle_same_priority_teams_Permutation.
    apply sort_desc_Permutation.
  - unfold served, _shuffle_same_priority_teams.
    set (sorted := sort_desc priority teams).
    destruct (decide (length sorted ≤ 1)%nat) as [Hle|Hgt].
    + apply sort_desc_sorted.
    + destruct (shuffle_groups (group_by_priority sorted) g) as [groups g'] eqn:E.
      cbn [fst].
      assert (Hg : groups_by_score groups).
      { pose proof (shuffle_groups_by_score (group_by_priority sorted) g
                      (group_by_priority_by_score sorted)) as H.
        by rewrite E in H. }
      unfold by_priority.
      eapply (bind_sorted (λ s s' : Qc, (s' <= s)%Qc)).
      * apply (sort_desc_sorted id).
      * intros s _. eapply equal_scores_sorted. intros t Ht.
        by eapply group_lookup_by_score.
      * intros s s' t t' Hs Ht Ht'.
        apply (group_lookup_by_score _ _ _ Hg) in Ht, Ht'. by rewrite Ht, Ht'.
Qed.

(** ** The records of [allocate_rooms] *)

Lemma week_date_lookup (clk : Clock) (day : string) :
  day ∈ get_weekdays →
  ∃ i, get_weekdays !! i = Some day ∧
       date_map_of (get_current_week_dates clk) !!! day = monday_plus clk i.
Proof.
  intros Hd. apply weekday_cases in Hd.
  destruct Hd as [-> | [-> | [-> | [-> | ->]]]];
    [exists 0%nat|exists 1%nat|exists 2%nat|exists 3%nat|exists 4%nat]; split; reflexivity.
Qed.

Lemma room_days_weekdays (day : string) : day ∈ room_days → day ∈ get_weekdays.
Proof.
  unfold room_days, get_weekdays. rewrite !elem_of_cons, !elem_of_nil. tauto.
Qed.

Section records.
Variables (clk : Clock) (prefs : list TeamPreference.t).

Let date_map := date_map_of (get_current_week_dates clk).

Lemma team_records_written t room days :
  t ∈ prefs → valid_days t → room ∈ rooms →
  TeamPreference.team_size t ≤ room_capacity room →
  (∀ d, d ∈ days → d ∈ room_days) →
  Forall (written clk prefs) (team_records clk date_map t room days).
Proof.
  intros Ht Hv Hroom Hfit Hdays. rewrite Forall_forall. intros a Ha.
  unfold team_records in Ha. apply list_elem_of_fmap in Ha as (d & -> & Hd).
  split.
  - exists t. split_and!; done.
  - split_and!; cbn; [by apply Hdays| |done..].
    apply week_date_lookup, room_days_weekdays. by apply Hdays.
Qed.

Lemma place_team_fold_written days teams st :
  (∀ t, t ∈ teams → t ∈ prefs ∧ valid_days t) →
  (∀ d, d ∈ days → d ∈ room_days) →
  Forall (written clk prefs) (allocations st) →
  let st' := foldl (place_team clk date_map days) st teams in
  Forall (written clk prefs) (allocations st') ∧
  (∀ t, t ∈ unplaced_teams st' → t ∈ unplaced_teams st ∨ t ∈ teams).
Proof.
  intros Hteams Hdays. revert st.
  induction teams as [|t teams IH]; intros st Hst; cbn [foldl].
  - split; [done|]. auto.
  - destruct (Hteams t) as [Ht Hv]; [left|].
    assert (Hteams' : ∀ t', t' ∈ teams → t' ∈ prefs ∧ valid_days t').
    { intros t' H. apply Hteams. by right. }
    destruct (IH Hteams' (place_team clk date_map days st t)) as [Hw Hu].
    + destruct (place_team_cases clk date_map days st t)
        as [(room & Hfind & -> & _)|(_ & -> & _)]; [|done].
      apply find_suitable_room_Some in Hfind as (Hroom & Hfit & _).
      apply Forall_app. split; [done|]. by apply team_records_written.
    + split; [done|]. intros t' Ht'. apply Hu in Ht' as [Ht'|Ht']; [|right; by right].
      destruct (place_team_cases clk date_map days st t)
        as [(_ & _ & _ & Hun & _)|(_ & _ & Hun & _)]; rewrite Hun in Ht'; [by left|].
      apply elem_of_app in Ht' as [?|Heq%list_elem_of_singleton]; [by left|].
      subst t'. right. left.
Qed.

Lemma _allocate_teams_for_days_written teams days existing :
  (∀ t, t ∈ teams → t ∈ prefs ∧ valid_days t) →
  (∀ d, d ∈ days → d ∈ room_days) →
  Forall (written clk prefs) (_allocate_teams_for_days clk teams days date_map existing).1 ∧
  (∀ t, t ∈ (_allocate_teams_for_days clk teams days date_map existing).2 → t ∈ teams).
Proof.
  intros Hteams Hdays. unfold _allocate_teams_for_days. cbn [fst snd].
  set (st0 := {| allocations := []; unplaced_teams := []; room_usage := _ |}).
  destruct (place_team_fold_written days teams st0 Hteams Hdays) as [Hw Hu];
    [constructor|].
  split; [done|]. intros t Ht. apply Hu in Ht as [Ht|Ht]; [|done].
  by apply elem_of_nil in Ht.
Qed.

Lemma alternative_days_room_days t d : d ∈ alternative_days t → d ∈ room_days.
Proof.
  destruct (alternative_days_cases t) as [-> | ->]; unfold room_days;
    rewrite !elem_of_cons, !elem_of_nil; tauto.
Qed.

Lemma place_overflow_fold_written teams st :
  (∀ t, t ∈ teams → t ∈ prefs ∧ valid_days t) →
  Forall (written clk prefs) st.1 →
  Forall (written clk prefs) (foldl (place_overflow clk date_map) st teams).1.
Proof.
  revert st. induction teams as [|t teams IH]; intros st Hteams Hst; cbn [foldl]; [done|].
  apply IH; [intros; apply Hteams; by right|].
  destruct (Hteams t) as [Ht Hv]; [left|].
  destruct (place_overflow_cases clk date_map st t)
    as [(room & Hfind & ->)|(_ & ->)]; [|done].
  apply find_suitable_room_Some in Hfind as (Hroom & Hfit & _).
  cbn [fst]. apply Forall_app. split; [done|].
  apply team_records_written; [done..|]. apply alternative_days_room_days.
Qed.

Lemma allocate_rooms_written g :
  Forall (written clk prefs) (allocate_rooms clk prefs g).1.
Proof.
  destruct (allocate_rooms_unfold clk prefs g) as (mw & tt & Hmw & Htt & ->).
  cbv zeta. fold date_map.
  assert (Hmw' : ∀ t, t ∈ mw → t ∈ prefs ∧ valid_days t).
  { intros t. rewrite Hmw, list_elem_of_filter. intros [? ?]. split; [done|by left]. }
  assert (Htt' : ∀ t, t ∈ tt → t ∈ prefs ∧ valid_days t).
  { intros t. rewrite Htt, list_elem_of_filter. intros [? ?]. split; [done|by right]. }
  destruct (_allocate_teams_for_days_written mw ["Monday"; "Wednesday"] [] Hmw')
    as [Hw1 Hu1].
  { intros d. unfold room_days. rewrite !elem_of_cons, !elem_of_nil. tauto. }
  destruct (_allocate_teams_for_days_written tt ["Tuesday"; "Thursday"] [] Htt')
    as [Hw2 Hu2].
  { intros d. unfold room_days. rewrite !elem_of_cons, !elem_of_nil. tauto. }
  apply place_overflow_fold_written.
  - intros t [?|?]%elem_of_app; auto.
  - cbn [fst]. apply Forall_app. done.
Qed.
End records.

(** X2. Every record returned by [allocate_rooms] bears the name of an input
    team that asked for one of the two day-pairs; its room is one of the nine
    rooms of the catalog and is large enough for that team. *)
Theorem allocate_rooms_room_fits_team
    (clk : Clock) (prefs : list TeamPreference.t) (g : Rng) (a : WeeklyAllocation.t) :
  a ∈ (allocate_rooms clk prefs g).1 →
  ∃ t, t ∈ prefs ∧ valid_days t ∧
       WeeklyAllocation.team_name a = TeamPreference.team_name t ∧
       WeeklyAllocation.room_name a ∈ rooms ∧
       TeamPreference.team_size t ≤ room_capacity (WeeklyAllocation.room_name a) ≤ 6.
Proof.
  intros Ha. pose proof (allocate_rooms_written clk prefs g) as H.
  rewrite Forall_forall in H. destruct (H a Ha) as [(t & Ht & Hv & Hn & Hr & Hfit) _].
  exists t. split_and!; [done..|].
  clear -Hr. unfold rooms, get_available_rooms in Hr.
  elem_cases Hr; vm_compute; discriminate.
Qed.


Lemma allocate_rooms_room_fits_team_witness :
  let a := WeeklyAllocation.mk "Delta" "Room A" "2024-01-01" "Monday" false None
             (Some "2024-01-01T09:00:00") in
  a ∈ (allocate_rooms sample_clock sample_teams []).1 ∧
  ∃ t, t ∈ sample_teams ∧ valid_days t ∧
       WeeklyAllocation.team_name a = TeamPreference.team_name t ∧
       WeeklyAllocation.room_name a ∈ rooms ∧
       TeamPreference.team_size t ≤ room_capacity (WeeklyAllocation.room_name a) ≤ 6.
Proof.
  intros a.
  assert (H : a ∈ (allocate_rooms sample_clock sample_teams []).1).
  { vm_compute. left. }
  split; [exact H|].
  exact (allocate_rooms_room_fits_team sample_clock sample_teams [] a H).
Defined.


(** X4. Among preferences with distinct names and valid day-pairs, a team of
    more than 6 people gets no record and is reported as unplaced. *)
Theorem oversized_team_unplaced
    (clk : Clock) (prefs : list TeamPreference.t) (g : Rng) (t : TeamPreference.t) :
  NoDup (TeamPreference.team_name <$> prefs) →
  (∀ p, p ∈ prefs → valid_days p) →
  t ∈ prefs →
  6 < TeamPreference.team_size t →
  let result := allocate_rooms clk prefs g in
  TeamPreference.team_name t ∈ result.2 ∧
  filter (of_team (TeamPreference.team_name t)) result.1 = [].
Proof.
  intros Hnd Hvalid Ht Hsize result.
  destruct (team_placed_or_unplaced clk prefs g t Hnd Hvalid Ht)
    as [[(a1 & a2 & Hown & _) _]|[Hown Hin]]; [exfalso|done].
  assert (Ha : a1 ∈ filter (of_team (TeamPreference.team_name t))
                 (allocate_rooms clk prefs g).1) by (rewrite Hown; left).
  apply list_elem_of_filter in Ha as [Hname Ha].
  pose proof (allocate_rooms_written clk prefs g) as H.
  rewrite Forall_forall in H.
  destruct (H a1 Ha) as [(t' & Ht' & _ & Hn & Hr & Hfit) _].
  assert (t' = t) as ->.
  { apply (team_name_inj prefs); [done..|]. unfold of_team in Hname. congruence. }
  assert (room_capacity (WeeklyAllocation.room_name a1) ≤ 6); [|lia].
  clear -Hr. unfold rooms, get_available_rooms in Hr.
  elem_cases Hr; vm_compute; discriminate.
Qed.

Lemma oversized_team_unplaced_witness :
  let prefs := sample_teams ++ [big_team] in
  NoDup (TeamPreference.team_name <$> prefs) ∧
  (∀ p, p ∈ prefs → valid_days p) ∧
  big_team ∈ prefs ∧
  6 < TeamPreference.team_size big_team ∧
  let result := allocate_rooms sample_clock prefs [] in
  TeamPreference.team_name big_team ∈ result.2 ∧
  filter (of_team (TeamPreference.team_name big_team)) result.1 = [].
Proof.
  intros prefs.
  assert (H1 : NoDup (TeamPreference.team_name <$> prefs)).
  { apply (bool_decide_unpack _). vm_compute. exact I. }
  assert (H2 : ∀ p, p ∈ prefs → valid_days p).
  { intros p Hp. unfold prefs, sample_teams in Hp. simpl in Hp.
    elem_cases Hp; ((left; reflexivity) || (right; reflexivity)). }
  assert (H3 : big_team ∈ prefs).
  { unfold prefs. apply elem_of_app. right. left. }
  assert (H4 : 6 < TeamPreference.team_size big_team) by (simpl; lia).
  split; [exact H1|]. split; [exact H2|]. split; [exact H3|]. split; [exact H4|].
  exact (oversized_team_unplaced sample_clock prefs [] big_team H1 H2 H3 H4).
Defined.

(** ** What the validator accepts *)

Section grouped.
Context {A : Type} (key value : A → string).

Lemma grouped_snoc (l : list A) (a : A) :
  grouped key value (l ++ [a]) = dict_append (key a) (value a) (grouped key value l).
Proof. unfold grouped. by rewrite foldl_app. Qed.

Lemma grouped_spec (l : list A) :
  NoDup (grouped key value l).*1 ∧
  ∀ k vs, (k, vs) ∈ grouped key value l ↔
          vs = value <$> filter (λ a, key a = k) l ∧ vs ≠ [].
Proof.
  induction l as [|a l [IHnd IH]] using rev_ind.
  - split; [constructor|]. intros k vs. split.
    + intros H. by inversion H.
    + intros [-> H]. done.
  - rewrite grouped_snoc. split; [by apply dict_append_NoDup|].
    intros k vs. rewrite dict_append_elem by done.
    rewrite filter_app, fmap_app. setoid_rewrite IH.
    rewrite filter_cons, filter_nil. split.
    + intros [[Hne [-> Hnil]]|[-> Hr]].
      * rewrite decide_False by done. by rewrite app_nil_r.
      * rewrite decide_True by done.
        destruct Hr as [(vs' & [-> Hnil] & ->)|[Hnot ->]].
        -- split; [done|]. by intros [? ?]%app_eq_nil.
        -- split; [|done].
           destruct (value <$> filter (λ a0, key a0 = key a) l) as [|t ts] eqn:E; [done|].
           exfalso. apply Hnot. apply list_elem_of_fmap.
           exists (key a, t :: ts). split; [done|]. apply IH. by rewrite E.
    + intros [-> Hnil]. destruct (decide (key a = k)) as [<-|Hne].
      * right. split; [done|].
        destruct (value <$> filter (λ a0, key a0 = key a) l) as [|t ts] eqn:E.
        -- right. split; [|done]. intros ((k & vs) & Hk & Hin)%list_elem_of_fmap.
           simpl in Hk. subst k. apply IH in Hin as [-> Hvs]. by rewrite E in Hvs.
        -- left. exists (t :: ts). done.
      * left. rewrite app_nil_r in *. done.
Qed.
End grouped.

Lemma group_oasis_spec (oasis : list OasisAllocation.t) :
  NoDup (group_oasis oasis).*1 ∧
  ∀ day people, (day, people) ∈ group_oasis oasis ↔
                people = people_on day oasis ∧ people ≠ [].
Proof. apply (grouped_spec OasisAllocation.day_of_week OasisAllocation.person_name). Qed.

Section remove_dups.
Context {X : Type} `{EqDecision X}.
Implicit Types l : list X.

Lemma remove_dups_length_le l : (length (remove_dups l) ≤ length l)%nat.
Proof.
  induction l as [|x l IH]; [done|]. cbn [remove_dups].
  destruct (decide_rel elem_of x l); simpl; lia.
Qed.

Lemma remove_dups_NoDup l : NoDup l → remove_dups l = l.
Proof.
  induction 1 as [|x l Hx Hl IH]; [done|]. cbn [remove_dups].
  destruct (decide_rel elem_of x l); [done|]. by rewrite IH.
Qed.

Lemma length_remove_dups l : length l = length (remove_dups l) ↔ NoDup l.
Proof.
  split.
  - induction l as [|x l IH]; [constructor|]. cbn [remove_dups].
    destruct (decide_rel elem_of x l) as [Hin|Hnot].
    + intros Hlen. pose proof (remove_dups_length_le l) as Hle. simpl in Hlen. lia.
    + simpl. intros Hlen. constructor; [done|]. apply IH. lia.
  - intros Hnd. by rewrite remove_dups_NoDup.
Qed.
End remove_dups.

(** The state of the two checking loops: the flag is up exactly as long as
    no error has been appended. *)
Lemma check_room_flag st entry :
  (st.1 = true ↔ st.2 = []) →
  ((check_room st entry).1 = true ↔ (check_room st entry).2 = []).
Proof.
  intros H. unfold check_room. case_decide; [|done]. cbn [fst snd].
  split; [done|]. by intros [? ?]%app_eq_nil.
Qed.

Lemma check_oasis_day_flag st entry :
  (st.1 = true ↔ st.2 = []) →
  ((check_oasis_day st entry).1 = true ↔ (check_oasis_day st entry).2 = []).
Proof.
  intros H. unfold check_oasis_day.
  repeat case_decide; cbn [fst snd]; try done;
    (split; [done|]; by intros [? ?]%app_eq_nil).
Qed.

Lemma foldl_flag {E} (check : bool * list string → E → bool * list string) :
  (∀ st entry, (st.1 = true ↔ st.2 = []) →
               ((check st entry).1 = true ↔ (check st entry).2 = [])) →
  ∀ d st, (st.1 = true ↔ st.2 = []) →
          ((foldl check st d).1 = true ↔ (foldl check st d).2 = []).
Proof.
  intros Hcheck d. induction d as [|entry d IH]; intros st Hst; cbn [foldl]; [done|].
  by apply IH, Hcheck.
Qed.

Lemma valid_flag_errors
    (weekly : list WeeklyAllocation.t) (oasis : list OasisAllocation.t) :
  valid (validate_allocation_results weekly oasis) = true ↔
  errors (validate_allocation_results weekly oasis) = [].
Proof.
  unfold validate_allocation_results. cbn [valid errors].
  apply (foldl_flag check_oasis_day check_oasis_day_flag).
  apply (foldl_flag check_room check_room_flag). done.
Qed.

Lemma check_oasis_day_no_errors (d : list (string * list string)) :
  (foldl check_oasis_day (true, []) d).2 = [] ↔
  ∀ entry, entry ∈ d → (length entry.2 ≤ 11)%nat ∧ NoDup entry.2.
Proof.
  induction d as [|entry d IH] using rev_ind.
  - split; [|done]. intros _ entry H. by inversion H.
  - rewrite foldl_app. cbn [foldl].
    destruct (foldl check_oasis_day (true, []) d) as [v es]. cbn [snd] in IH.
    unfold check_oasis_day. cbn [fst snd].
    split.
    + intros Hnil.
      destruct (decide (11 < length entry.2)%nat) as [Hcap|Hcap];
        destruct (decide (length entry.2 ≠ length (remove_dups entry.2))) as [Hdup|Hdup];
        cbn [fst snd] in Hnil;
        try (by apply app_eq_nil in Hnil as [_ ?]).
      intros e [He|He]%elem_of_app.
      * by apply IH.
      * apply list_elem_of_singleton in He as ->. split; [lia|].
        apply length_remove_dups. by apply dec_stable.
    + intros Hall.
      destruct (Hall entry) as [Hcap Hnd]; [apply elem_of_app; right; left|].
      destruct (decide (11 < length entry.2)%nat) as [?|_]; [lia|].
      destruct (decide (length entry.2 ≠ length (remove_dups entry.2))) as [Hne|_].
      { exfalso. apply Hne. by apply length_remove_dups. }
      apply IH. intros e He. apply Hall, elem_of_app. by left.
Qed.

Lemma check_room_no_errors (d : list (string * list string)) :
  (foldl check_room (true, []) d).2 = [] ↔
  ∀ entry, entry ∈ d → (length entry.2 ≤ 1)%nat.
Proof.
  rewrite check_room_fold. cbn [snd app]. split.
  - intros Hnil%fmap_nil_inv entry He.
    destruct (decide (1 < length entry.2)%nat) as [Hgt|]; [|lia].
    assert (entry ∈ filter (λ entry, (1 < length entry.2)%nat) d) as Hin
      by (by apply list_elem_of_filter).
    rewrite Hnil in Hin. by apply elem_of_nil in Hin.
  - intros Hall. rewrite filter_none; [done|].
    intros entry He. specialize (Hall entry He). lia.
Qed.

Lemma oasis_errors_nil (oasis : list OasisAllocation.t) :
  oasis_errors oasis = [] ↔
  ∀ day, (length (people_on day oasis) ≤ 11)%nat ∧ NoDup (people_on day oasis).
Proof.
  unfold oasis_errors. rewrite check_oasis_day_no_errors.
  destruct (group_oasis_spec oasis) as [_ Ho]. split.
  - intros H day. destruct (people_on day oasis) as [|p ps] eqn:E.
    { split; [simpl; lia|constructor]. }
    rewrite <- E. apply (H (day, people_on day oasis)). apply Ho. by rewrite E.
  - intros H [day people] [-> _]%Ho. apply H.
Qed.

(** X5. [validate_allocation_results] reports [valid] exactly when it
    reports no error, and it never issues a warning. *)
Theorem valid_iff_no_errors
    (weekly : list WeeklyAllocation.t) (oasis : list OasisAllocation.t) :
  let result := validate_allocation_results weekly oasis in
  (valid result = true ↔ errors result = []) ∧ warnings result = [].
Proof. split; [apply valid_flag_errors|done]. Qed.

(** X6. What the validator accepts: [valid] is true exactly when no key
    [room_day] holds more than one weekly record, no day holds more than 11
    Oasis records, and no person is recorded twice for one day. *)
Theorem valid_iff
    (weekly : list WeeklyAllocation.t) (oasis : list OasisAllocation.t) :
  valid (validate_allocation_results weekly oasis) = true ↔
  (∀ key, (length (teams_at key weekly) ≤ 1)%nat) ∧
  (∀ day, (length (people_on day oasis) ≤ 11)%nat ∧ NoDup (people_on day oasis)).
Proof.
  rewrite valid_flag_errors.
  unfold validate_allocation_results. cbn [errors].
  pose proof (check_room_no_errors (group_weekly weekly)) as Hr.
  destruct (foldl check_room (true, []) (group_weekly weekly)) as [v es].
  rewrite check_oasis_day_fold. cbn [snd] in Hr |- *. rewrite app_nil.
  rewrite Hr, check_oasis_day_no_errors. clear Hr.
  destruct (group_weekly_spec weekly) as [_ Hw].
  destruct (group_oasis_spec oasis) as [_ Ho].
  split.
  - intros [H1 H2]. split.
    + intros key. destruct (teams_at key weekly) as [|t ts] eqn:E; [simpl; lia|].
      rewrite <- E. apply (H1 (key, teams_at key weekly)). apply Hw. by rewrite E.
    + intros day. destruct (people_on day oasis) as [|p ps] eqn:E.
      { split; [simpl; lia|constructor]. }
      rewrite <- E. apply (H2 (day, people_on day oasis)). apply Ho. by rewrite E.
  - intros [H1 H2]. split.
    + intros [key teams] [-> _]%Hw. apply H1.
    + intros [day people] [-> _]%Ho. apply H2.
Qed.

Lemma dict_append_total k v (d : list (string * list string)) :
  sum_list ((λ entry, length entry.2) <$> dict_append k v d) =
  S (sum_list ((λ entry, length entry.2) <$> d)).
Proof.
  induction d as [|[k' l] d IH]; cbn [dict_append]; [done|].
  destruct (decide (k' = k)); rewrite !fmap_cons; cbn [sum_list sum_list_with snd].
  - rewrite length_app. simpl. lia.
  - rewrite IH. lia.
Qed.

Lemma grouped_total {A} (key value : A → string) (l : list A) :
  sum_list ((λ entry, length entry.2) <$> grouped key value l) = length l.
Proof.
  induction l as [|a l IH] using rev_ind; [done|].
  rewrite grouped_snoc, dict_append_total, IH, length_app. simpl. lia.
Qed.

(** X7. The [oasis_daily_usage] of the summary lists every day that has an
    Oasis record once, with the number of its records; the numbers add up to
    the number of Oasis records. *)
Theorem summary_daily_usage
    (weekly : list WeeklyAllocation.t) (oasis : list OasisAllocation.t) :
  let usage := oasis_daily_usage (report (validate_allocation_results weekly oasis)) in
  NoDup usage.*1 ∧
  (∀ day n, (day, n) ∈ usage ↔ n = length (people_on day oasis) ∧ n ≠ 0%nat) ∧
  sum_list usage.*2 = length oasis.
Proof.
  intros usage. unfold usage, validate_allocation_results. cbn [report oasis_daily_usage].
  destruct (group_oasis_spec oasis) as [Hnd Ho].
  split_and!.
  - rewrite <- list_fmap_compose.
    replace (fst ∘ (λ entry : string * list string, (entry.1, length entry.2)))
      with (fst : string * list string → string) by done.
    done.
  - intros day n. rewrite list_elem_of_fmap. split.
    + intros ([day' people] & Heq & [-> Hne]%Ho). cbn [fst snd] in Heq.
      injection Heq as -> ->. split; [done|].
      by destruct (people_on day' oasis).
    + intros [-> Hne]. exists (day, people_on day oasis). split; [done|].
      apply Ho. split; [done|]. intros E. by rewrite E in Hne.
  - rewrite <- list_fmap_compose.
    rewrite <- (grouped_total OasisAllocation.day_of_week OasisAllocation.person_name oasis).
    done.
Qed.

(** ** The records of [allocate_oasis] *)






(** ** [daily_allocations] and [person_allocations] agree *)

Lemma first_free_day_found (D : daily_map) (days : list string) (day : string) :
  first_free_day D days = Some (Some day) → day ∈ days ∧ is_Some (D !! day).
Proof.
  induction days as [|d days IH]; cbn [first_free_day]; [done|].
  destruct (D !! d) as [l|] eqn:E; cbn [mbind option_bind]; [|done].
  case_decide.
  - intros [= ->]. split; [left|]. by rewrite E.
  - intros [? ?]%IH. split; [by right|done].
Qed.

Lemma first_extra_day_found (D : daily_map) (current days : list string) (day : string) :
  first_extra_day D current days = Some (Some day) →
  day ∈ days ∧ (day ∉ current) ∧ is_Some (D !! day).
Proof.
  induction days as [|d days IH]; cbn [first_extra_day]; [done|].
  destruct (decide (d ∈ current)) as [Hin|Hnot].
  - intros (? & ? & ?)%IH. split_and!; [by right|done..].
  - destruct (D !! d) as [l|] eqn:E; cbn [mbind option_bind]; [|done].
    case_decide.
    + intros [= ->]. split_and!; [left|done|by rewrite E].
    + intros (? & ? & ?)%IH. split_and!; [by right|done..].
Qed.

Section consistent.
Variables (clk : Clock) (date_map : gmap string string).
Variable parsed : list ParsedPreference.t.

Lemma allocate_consistent (st : state) (p : ParsedPreference.t) (day : string) :
  p ∈ parsed → day ∈ ParsedPreference.preferred_days p →
  is_Some (daily_allocations st !! day) →
  day ∉ person_allocations st !!! ParsedPreference.person_name p →
  consistent parsed (daily_allocations st) (person_allocations st) →
  let st' := allocate clk date_map (ParsedPreference.person_name p) day st in
  consistent parsed (daily_allocations st') (person_allocations st').
Proof.
  intros Hp Hday [l Hl] Hfresh (Hkeys & Hsync & Hnd & Hrec).
  cbn [allocate daily_allocations person_allocations].
  destruct (Hkeys p Hp) as [days Hdays].
  set (name := ParsedPreference.person_name p) in *.
  assert (HD : ∀ d, alter (λ l, l ++ [new_allocation clk date_map name day]) day
                      (daily_allocations st) !!! d =
               if decide (d = day)
               then daily_allocations st !!! d ++ [new_allocation clk date_map name day]
               else daily_allocations st !!! d).
  { intros d. case_decide as Hd.
    - subst d. rewrite !lookup_total_alt, lookup_alter_eq, Hl. done.
    - by rewrite lookup_total_alter_ne. }
  assert (HP : ∀ n, alter (λ l, l ++ [day]) name (person_allocations st) !!! n =
               if decide (n = name) then person_allocations st !!! n ++ [day]
               else person_allocations st !!! n).
  { intros n. case_decide as Hn.
    - subst n. rewrite !lookup_total_alt, lookup_alter_eq, Hdays. done.
    - by rewrite lookup_total_alter_ne. }
  split_and!.
  - intros q Hq. apply lookup_alter_is_Some. by apply Hkeys.
  - intros n d. rewrite HP, HD.
    destruct (decide (n = name)) as [->|Hn]; destruct (decide (d = day)) as [->|Hd].
    + rewrite fmap_app, !elem_of_app. cbn. rewrite !list_elem_of_singleton. tauto.
    + rewrite elem_of_app, list_elem_of_singleton. rewrite Hsync. tauto.
    + rewrite fmap_app, elem_of_app. cbn. rewrite list_elem_of_singleton, Hsync. tauto.
    + apply Hsync.
  - intros d. rewrite HD. case_decide as Hd; [|done]. subst d.
    rewrite fmap_app. apply NoDup_app. split_and!; [done| |apply NoDup_singleton].
    intros n Hn ->%list_elem_of_singleton. cbn in Hn. apply Hfresh. by apply Hsync.
  - intros d a. rewrite HD. case_decide as Hd; [|apply Hrec]. subst d.
    intros [Ha| ->%list_elem_of_singleton]%elem_of_app; [by apply Hrec|].
    split; [done|]. exists p. done.
Qed.

Lemma remove_first_other {A} `{EqDecision A} (v q : A) (x : list A) :
  q ∈ x → q ≠ v → q ∈ remove_first v x.
Proof.
  induction x as [|y x IH]; cbn [remove_first]; [done|].
  intros [->|Hq]%elem_of_cons Hne.
  - rewrite decide_False by done. left.
  - case_decide; [done|]. right. by apply IH.
Qed.

Lemma remove_first_sublist {A} `{EqDecision A} (v : A) (x : list A) :
  remove_first v x `sublist_of` x.
Proof.
  induction x as [|y x IH]; cbn [remove_first]; [done|].
  case_decide; [by apply sublist_cons|by apply sublist_skip].
Qed.

Lemma remove_first_names (p q : ParsedPreference.t) (x : list ParsedPreference.t) :
  NoDup (ParsedPreference.person_name <$> x) → p ∈ x → q ∈ remove_first p x →
  ParsedPreference.person_name q ≠ ParsedPreference.person_name p.
Proof.
  induction x as [|y x IH]; cbn [remove_first]; [by intros _ ?%elem_of_nil|].
  rewrite fmap_cons. intros [Hy Hnd]%NoDup_cons Hp Hq.
  destruct (decide (y = p)) as [->|Hne].
  - intros E. apply Hy. rewrite <- E. by apply list_elem_of_fmap_2.
  - apply elem_of_cons in Hp as [->|Hp]; [done|].
    apply elem_of_cons in Hq as [->|Hq]; [|by apply IH].
    intros E. apply Hy. rewrite E. by apply list_elem_of_fmap_2.
Qed.

(** One attempt of the first pass or of an additional pass, for a person who
    is still unallocated. *)
Lemma attempt_consistent (st st' : state) (p : ParsedPreference.t) :
  attempt clk date_map st p = Some st' →
  p ∈ parsed → p ∈ unallocated_people st →
  consistent parsed (daily_allocations st) (person_allocations st) → waiting st →
  consistent parsed (daily_allocations st') (person_allocations st') ∧ waiting st' ∧
  (∀ q, q ∈ unallocated_people st → q ≠ p → q ∈ unallocated_people st') ∧
  (∀ q, q ∈ unallocated_people st' → q ∈ unallocated_people st).
Proof.
  intros Hat Hp Hun Hc [Hnd Hw]. unfold attempt in Hat.
  pose proof (shuffle_Permutation (ParsedPreference.preferred_days p) (rng st)) as Hperm.
  destruct (shuffle (ParsedPreference.preferred_days p) (rng st)) as [days g'].
  cbn [daily_allocations fst] in Hat, Hperm.
  destruct (first_free_day (daily_allocations st) days) as [[day|]|] eqn:E;
    cbn [mbind option_bind] in Hat; [| |done].
  - injection Hat as <-.
    cbn [allocate daily_allocations person_allocations unallocated_people].
    apply first_free_day_found in E as [Hday Hkey].
    rewrite Hperm in Hday.
    split_and!.
    + apply (allocate_consistent st p day); [done..| |done].
      rewrite (Hw p Hun). apply not_elem_of_nil.
    + split.
      * cbn [unallocated_people]. eapply sublist_NoDup; [exact Hnd|].
        apply fmap_sublist, remove_first_sublist.
      * intros q Hq. cbn [person_allocations unallocated_people] in Hq |- *.
        rewrite lookup_total_alter_ne.
        -- apply Hw. eapply elem_of_sublist; [exact Hq|apply remove_first_sublist].
        -- intros E. by eapply remove_first_names.
    + intros q Hq Hne. by apply remove_first_other.
    + intros q Hq. eapply elem_of_sublist; [exact Hq|apply remove_first_sublist].
  - injection Hat as <-. cbn. split_and!; [done|by split|auto..].
Qed.

Lemma for_each_attempt_consistent (L : list ParsedPreference.t) (st st' : state) :
  for_each (attempt clk date_map) st L = Some st' →
  NoDup L → (∀ p, p ∈ L → p ∈ parsed ∧ p ∈ unallocated_people st) →
  consistent parsed (daily_allocations st) (person_allocations st) → waiting st →
  consistent parsed (daily_allocations st') (person_allocations st') ∧ waiting st' ∧
  (∀ q, q ∈ unallocated_people st' → q ∈ unallocated_people st).
Proof.
  revert st. induction L as [|p L IH]; intros st Hfor Hnd HL Hc Hw; cbn [for_each] in Hfor.
  - by injection Hfor as <-.
  - destruct (attempt clk date_map st p) as [st1|] eqn:E; cbn [mbind option_bind] in Hfor;
      [|done].
    apply NoDup_cons in Hnd as [Hp Hnd].
    destruct (HL p) as [Hpp Hpu]; [left|].
    destruct (attempt_consistent st st1 p E Hpp Hpu Hc Hw) as (Hc1 & Hw1 & Hkeep & Hsub).
    destruct (IH st1) as (Hc' & Hw' & Hsub'); [done..| |done|done|].
    + intros q Hq. destruct (HL q) as [? ?]; [by right|]. split; [done|].
      apply Hkeep; [done|]. by intros ->.
    + split_and!; [done..|]. auto.
Qed.

Lemma allocation_pass_consistent (st st' : state) :
  allocation_pass clk date_map st = Some st' →
  (∀ p, p ∈ unallocated_people st → p ∈ parsed) →
  consistent parsed (daily_allocations st) (person_allocations st) → waiting st →
  consistent parsed (daily_allocations st') (person_allocations st') ∧ waiting st' ∧
  (∀ p, p ∈ unallocated_people st' → p ∈ parsed).
Proof.
  intros Hpass Hsub Hc Hw. unfold allocation_pass in Hpass.
  destruct (for_each_attempt_consistent _ _ _ Hpass) as (Hc' & Hw' & Hsub').
  - destruct Hw as [Hnd _]. by apply NoDup_fmap_1 in Hnd.
  - auto.
  - done.
  - done.
  - split_and!; auto.
Qed.

Lemma additional_passes_consistent (n : nat) (st st' : state) :
  additional_passes clk date_map n st = Some st' →
  (∀ p, p ∈ unallocated_people st → p ∈ parsed) →
  consistent parsed (daily_allocations st) (person_allocations st) → waiting st →
  consistent parsed (daily_allocations st') (person_allocations st').
Proof.
  revert st. induction n as [|n IH]; intros st Hpass Hsub Hc Hw;
    cbn [additional_passes] in Hpass.
  - by injection Hpass as <-.
  - destruct (unallocated_people st) as [|q qs] eqn:E.
    + by injection Hpass as <-.
    + destruct (allocation_pass clk date_map st) as [st1|] eqn:E1;
        cbn [mbind option_bind] in Hpass; [|done].
      destruct (allocation_pass_consistent st st1 E1) as (Hc1 & Hw1 & Hsub1); [|done..|].
      { by rewrite E. }
      by apply (IH st1).
Qed.

Lemma extra_attempt_consistent (sm sm' : state * bool) (p : ParsedPreference.t) :
  extra_attempt clk date_map sm p = Some sm' →
  p ∈ parsed →
  consistent parsed (daily_allocations sm.1) (person_allocations sm.1) →
  consistent parsed (daily_allocations sm'.1) (person_allocations sm'.1).
Proof.
  intros Hat Hp Hc. unfold extra_attempt in Hat.
  case_decide; [by injection Hat as <-|].
  destruct (first_extra_day _ _ _) as [[day|]|] eqn:E; cbn [mbind option_bind] in Hat;
    [| |done].
  - injection Hat as <-. cbn [fst].
    apply first_extra_day_found in E as (Hday & Hfresh & Hkey).
    by apply allocate_consistent.
  - by injection Hat as <-.
Qed.

Lemma for_each_extra_attempt_consistent (L : list ParsedPreference.t)
    (sm sm' : state * bool) :
  for_each (extra_attempt clk date_map) sm L = Some sm' →
  (∀ p, p ∈ L → p ∈ parsed) →
  consistent parsed (daily_allocations sm.1) (person_allocations sm.1) →
  consistent parsed (daily_allocations sm'.1) (person_allocations sm'.1).
Proof.
  revert sm. induction L as [|p L IH]; intros sm Hfor HL Hc; cbn [for_each] in Hfor.
  - by injection Hfor as <-.
  - destruct (extra_attempt clk date_map sm p) as [sm1|] eqn:E;
      cbn [mbind option_bind] in Hfor; [|done].
    apply (IH sm1); [done|intros; apply HL; by right|].
    eapply extra_attempt_consistent; [exact E|apply HL; left|done].
Qed.

Lemma extra_passes_consistent (n : nat) (st st' : state) :
  extra_passes clk date_map parsed n st = Some st' →
  consistent parsed (daily_allocations st) (person_allocations st) →
  consistent parsed (daily_allocations st') (person_allocations st').
Proof.
  revert st. induction n as [|n IH]; intros st Hpass Hc; cbn [extra_passes] in Hpass.
  - by injection Hpass as <-.
  - pose proof (shuffle_Permutation parsed (rng st)) as Hperm.
    destruct (shuffle parsed (rng st)) as [all_people g']. cbn [fst] in Hperm.
    destruct (for_each _ _ all_people) as [[st1 made]|] eqn:E;
      cbn [mbind option_bind] in Hpass; [|done].
    apply for_each_extra_attempt_consistent in E; [|by intros p; rewrite Hperm|done].
    cbn [fst] in E.
    destruct made; [by apply (IH st1)|by injection Hpass as <-].
Qed.
End consistent.

Lemma initial_person_total (parsed : list ParsedPreference.t) (name : string) :
  (list_to_map ((λ pref, (ParsedPreference.person_name pref, [])) <$> parsed)
     : gmap string (list string)) !!! name = [].
Proof.
  rewrite lookup_total_alt.
  destruct (_ !! name) as [l|] eqn:E; [|done]. cbn.
  apply elem_of_list_to_map_2, list_elem_of_fmap in E as (q & [= _ ->] & _). done.
Qed.

Lemma initial_consistent (parsed L : list ParsedPreference.t) (g : Rng) :
  let st := initial_state parsed L g in
  consistent parsed (daily_allocations st) (person_allocations st).
Proof.
  cbn [initial_state daily_allocations person_allocations]. split_and!.
  - intros p Hp. apply not_eq_None_Some. intros Hn.
    apply not_elem_of_list_to_map_2 in Hn. apply Hn.
    rewrite <- list_fmap_compose. by apply (list_elem_of_fmap_2 _ _ p).
  - intros name d. rewrite initial_person_total, initial_daily_total.
    cbn. split; intros H; by apply elem_of_nil in H.
  - intros d. rewrite initial_daily_total. constructor.
  - intros d a Ha. rewrite initial_daily_total in Ha. by apply elem_of_nil in Ha.
Qed.

Lemma allocate_oasis_consistent
    (clk : Clock) (prefs : list OasisPreference.t) (g : Rng) (out : list OasisAllocation.t) :
  NoDup (OasisPreference.person_name <$> prefs) →
  allocate_oasis clk prefs g = Some out →
  ∃ D PA, consistent (parse <$> prefs) D PA ∧ out = flatten D.
Proof.
  intros Hnd Hout. destruct (decide (prefs = [])) as [->|Hne].
  { injection Hout as <-. exists initial_daily, ∅. split; [|done].
    apply (initial_consistent [] [] []). }
  destruct (allocate_oasis_unfold clk prefs g Hne) as (L & g' & HL & Hrun).
  rewrite Hrun in Hout. cbv zeta in Hout. clear Hrun.
  set (date_map := date_map_of (get_current_week_dates clk)) in *.
  set (parsed := parse <$> prefs) in *.
  assert (Hnames : NoDup (ParsedPreference.person_name <$> L)).
  { rewrite HL. unfold parsed. rewrite <- list_fmap_compose. done. }
  destruct (for_each (attempt clk date_map) (initial_state parsed L g') L) as [st1|] eqn:E1;
    cbn [mbind option_bind] in Hout; [|done].
  destruct (additional_passes clk date_map max_additional_passes st1) as [st2|] eqn:E2;
    cbn [mbind option_bind] in Hout; [|done].
  destruct (extra_passes clk date_map parsed max_additional_passes st2) as [st3|] eqn:E3;
    cbn [mbind option_bind] in Hout; [|done].
  injection Hout as <-.
  destruct (for_each_attempt_consistent clk date_map parsed L _ _ E1)
    as (Hc1 & Hw1 & Hsub1).
  - by apply NoDup_fmap_1 in Hnames.
  - intros p Hp. split; [by rewrite <- HL|done].
  - apply initial_consistent.
  - split; [done|]. intros q _. apply initial_person_total.
  - exists (daily_allocations st3), (person_allocations st3). split; [|done].
    eapply extra_passes_consistent; [exact E3|].
    eapply additional_passes_consistent; [exact E2| |done..].
    intros p Hp. apply Hsub1 in Hp. cbn in Hp. by rewrite <- HL.
Qed.

Lemma flatten_slots_NoDup (parsed : list ParsedPreference.t) D PA :
  consistent parsed D PA → NoDup (slot <$> flatten D).
Proof.
  intros (_ & _ & Hnd & Hrec). unfold flatten.
  pose proof weekdays_NoDup as Hdays. induction Hdays as [|d days Hd Hdays IH].
  - constructor.
  - rewrite bind_cons, fmap_app. apply NoDup_app. split; [|split; [|exact IH]].
    + apply (NoDup_fmap_1 fst). rewrite <- list_fmap_compose. apply Hnd.
    + intros [n d'] (a & Ha & Hin)%list_elem_of_fmap (b & Hb & Hin')%list_elem_of_fmap.
      apply list_elem_of_bind in Hin' as (d'' & Hb' & Hd'').
      apply Hrec in Hin as [E1 _]. apply Hrec in Hb' as [E2 _].
      unfold slot in Ha, Hb. injection Ha as -> ->. injection Hb as _ E.
      apply Hd. congruence.
Qed.

Lemma slots_people_NoDup (out : list OasisAllocation.t) (day : string) :
  NoDup (slot <$> out) → NoDup (people_on day out).
Proof.
  unfold people_on. induction out as [|a out IH]; [constructor|].
  rewrite fmap_cons. intros [Ha Hnd]%NoDup_cons. rewrite filter_cons.
  case_decide as Hday; [|by apply IH]. rewrite fmap_cons. constructor; [|by apply IH].
  intros (b & Hname & [Hb Hin]%list_elem_of_filter)%list_elem_of_fmap. apply Ha.
  apply list_elem_of_fmap. exists b. split; [|done].
  unfold slot, oasis_on in *. congruence.
Qed.

Lemma slots_days_NoDup (out : list OasisAllocation.t) (name : string) :
  NoDup (slot <$> out) →
  NoDup (OasisAllocation.day_of_week <$>
           filter (λ a, OasisAllocation.person_name a = name) out).
Proof.
  induction out as [|a out IH]; [constructor|].
  rewrite fmap_cons. intros [Ha Hnd]%NoDup_cons. rewrite filter_cons.
  case_decide as Hname; [|by apply IH]. rewrite fmap_cons. constructor; [|by apply IH].
  intros (b & Hday & [Hb Hin]%list_elem_of_filter)%list_elem_of_fmap. apply Ha.
  apply list_elem_of_fmap. exists b. split; [|done].
  unfold slot. congruence.
Qed.

(** X9. For people with distinct names whose preferred days are weekdays,
    [allocate_oasis] records nobody twice for one day, and nobody gets more
    days than the number of days asked for. *)
Theorem allocate_oasis_no_double_booking
    (clk : Clock) (prefs : list OasisPreference.t) (g : Rng) :
  NoDup (OasisPreference.person_name <$> prefs) →
  (∀ p, p ∈ prefs → weekday_preference p) →
  ∃ out,
    allocate_oasis clk prefs g = Some out ∧
    NoDup (slot <$> out) ∧
    ∀ p, p ∈ prefs →
         (length (filter (λ a, OasisAllocation.person_name a = OasisPreference.person_name p)
                    out)
          ≤ length (parse_preferred_days_from_oasis_pref p))%nat.
Proof.
  intros Hnd Hweek.
  assert (∃ out, allocate_oasis clk prefs g = Some out) as [out Hout].
  { destruct (decide (prefs = [])) as [->|Hne]; [by exists []|].
    destruct (allocate_oasis_run clk prefs g weekday_person Hne)
      as (_ & _ & _ & D & _ & _ & _ & _ & ->); [done| |by eexists].
    by apply parsed_weekday_persons. }
  exists out. split; [done|].
  destruct (allocate_oasis_consistent clk prefs g out Hnd Hout) as (D & PA & Hc & ->).
  pose proof (flatten_slots_NoDup _ _ _ Hc) as Hslots.
  split; [done|]. intros p Hp.
  rewrite <- (length_fmap OasisAllocation.day_of_week).
  apply submseteq_length, NoDup_submseteq; [by apply slots_days_NoDup|].
  intros d (a & -> & [Hname Ha]%list_elem_of_filter)%list_elem_of_fmap.
  apply elem_of_flatten in Ha as (d & _ & Ha).
  destruct Hc as (_ & _ & _ & Hrec).
  destruct (Hrec d a Ha) as [-> (q & Hq & Hd & Hn)].
  apply list_elem_of_fmap in Hq as (p' & -> & Hp').
  assert (p' = p) as ->; [|done].
  cbn in Hn. rewrite Hname in Hn.
  clear -Hnd Hp Hp' Hn. induction prefs as [|x prefs IH]; [by apply elem_of_nil in Hp|].
  rewrite fmap_cons in Hnd. apply NoDup_cons in Hnd as [Hx Hnd].
  apply elem_of_cons in Hp as [->|Hp]; apply elem_of_cons in Hp' as [->|Hp']; [done| | |auto].
  - exfalso. apply Hx. rewrite Hn. by apply list_elem_of_fmap_2.
  - exfalso. apply Hx. rewrite <- Hn. by apply list_elem_of_fmap_2.
Qed.

(** X10. For people with distinct names whose preferred days are weekdays,
    the result of [allocate_oasis] passes [validate_allocation_results]:
    valid, with no error. *)
Theorem allocate_oasis_passes_validation
    (clk : Clock) (prefs : list OasisPreference.t) (g : Rng) :
  NoDup (OasisPreference.person_name <$> prefs) →
  (∀ p, p ∈ prefs → weekday_preference p) →
  ∃ out,
    allocate_oasis clk prefs g = Some out ∧
    valid (validate_allocation_results [] out) = true ∧
    errors (validate_allocation_results [] out) = [].
Proof.
  intros Hnd Hweek.
  assert (∃ D, day_ok D ∧ allocate_oasis clk prefs g = Some (flatten D)) as (D0 & Hok & Hout).
  { destruct (decide (prefs = [])) as [->|Hne].
    { exists initial_daily. split; [apply initial_daily_ok|done]. }
    destruct (allocate_oasis_run clk prefs g weekday_person Hne)
      as (L & g' & st1 & D & _ & _ & Hr1 & Hr2 & ->); [done| |].
    { by apply parsed_weekday_persons. }
    exists D. split; [|done].
    eapply reach_day_ok; [exact Hr2|]. eapply reach_day_ok; [exact Hr1|].
    apply initial_daily_ok. }
  exists (flatten D0). split; [done|].
  destruct (allocate_oasis_consistent clk prefs g _ Hnd Hout) as (D & PA & Hc & E).
  assert (Herr : errors (validate_allocation_results [] (flatten D0)) = []).
  { change (oasis_errors (flatten D0) = []). apply oasis_errors_nil. intros day. split.
    - unfold people_on. rewrite length_fmap.
      pose proof (flatten_day_count D0 day Hok) as H. unfold daily_capacity in H. done.
    - apply slots_people_NoDup. rewrite E. by eapply flatten_slots_NoDup. }
  split; [|done]. by apply valid_flag_errors.
Qed.

Lemma sample_people_names : NoDup (OasisPreference.person_name <$> sample_people).
Proof. apply (bool_decide_unpack _). vm_compute. exact I. Defined.

Lemma sample_people_weekdays : ∀ p, p ∈ sample_people → weekday_preference p.
Proof.
  intros p Hp. unfold sample_people in Hp.
  elem_cases Hp; intros d Hd; vm_compute in Hd; elem_cases Hd;
    apply (bool_decide_unpack _); vm_compute; exact I.
Defined.

Lemma allocate_oasis_no_double_booking_witness :
  NoDup (OasisPreference.person_name <$> sample_people) ∧
  (∀ p, p ∈ sample_people → weekday_preference p) ∧
  ∃ out,
    allocate_oasis sample_clock sample_people [1; 0; 2; 1]%nat = Some out ∧
    NoDup (slot <$> out) ∧
    ∀ p, p ∈ sample_people →
         (length (filter (λ a, OasisAllocation.person_name a = OasisPreference.person_name p)
                    out)
          ≤ length (parse_preferred_days_from_oasis_pref p))%nat.
Proof.
  split; [exact sample_people_names|]. split; [exact sample_people_weekdays|].
  exact (allocate_oasis_no_double_booking sample_clock sample_people [1; 0; 2; 1]%nat
           sample_people_names sample_people_weekdays).
Defined.

Lemma allocate_oasis_passes_validation_witness :
  NoDup (OasisPreference.person_name <$> sample_people) ∧
  (∀ p, p ∈ sample_people → weekday_preference p) ∧
  ∃ out,
    allocate_oasis sample_clock sample_people [1; 0; 2; 1]%nat = Some out ∧
    valid (validate_allocation_results [] out) = true ∧
    errors (validate_allocation_results [] out) = [].
Proof.
  split; [exact sample_people_names|]. split; [exact sample_people_weekdays|].
  exact (allocate_oasis_passes_validation sample_clock sample_people [1; 0; 2; 1]%nat
           sample_people_names sample_people_weekdays).
Defined.

(** ** Ad-hoc additions and availability *)

(** What a successful [add_adhoc_allocation] tells. *)
Lemma add_adhoc_allocation_Some (clk : Clock) (person_name day : string)
    (existing : list OasisAllocation.t) (a : OasisAllocation.t) :
  add_adhoc_allocation clk person_name day existing = Some a →
  day ∈ weekdays ∧
  (day_count day existing < 11)%nat ∧
  (person_name ∉ people_on day existing) ∧
  a = new_allocation clk (date_map_of (get_current_week_dates clk)) person_name day.
Proof.
  unfold add_adhoc_allocation. intros Hadd.
  destruct (decide (day ∈ weekdays)) as [Hd|Hd].
  2:{ unfold can_add_person_to_day in Hadd. by rewrite decide_False in Hadd. }
  pose proof (can_add_person_to_day_spec day existing Hd) as Hcan.
  unfold daily_capacity in Hcan.
  destruct (can_add_person_to_day day existing); cbn [negb] in Hadd; [|done].
  destruct (existsb _ existing) eqn:Hex; [done|].
  destruct (date_map_weekday clk day Hd) as [date Hdate]. rewrite Hdate in Hadd.
  injection Hadd as <-. split_and!; [done|by apply Hcan| |].
  - unfold people_on. intros (b & Hname & [Hday Hb]%list_elem_of_filter)%list_elem_of_fmap.
    match type of Hex with ?e = false => assert (e = true) as Hex' end; [|congruence].
    apply existsb_exists. exists b. rewrite <- list_elem_of_In. split; [done|].
    unfold oasis_on in Hday. by rewrite !bool_decide_eq_true_2.
  - unfold new_allocation. by rewrite lookup_total_alt, Hdate.
Qed.

Lemma people_on_snoc (day : string) (oasis : list OasisAllocation.t) (a : OasisAllocation.t) :
  people_on day (oasis ++ [a]) =
  people_on day oasis ++
  (if decide (OasisAllocation.day_of_week a = day) then [OasisAllocation.person_name a] else []).
Proof.
  unfold people_on. rewrite filter_app, fmap_app, filter_cons, filter_nil.
  unfold oasis_on. by case_decide.
Qed.

Lemma validate_errors_split
    (weekly : list WeeklyAllocation.t) (oasis : list OasisAllocation.t) :
  errors (validate_allocation_results weekly oasis) =
  (foldl check_room (true, []) (group_weekly weekly)).2 ++ oasis_errors oasis.
Proof.
  unfold validate_allocation_results, oasis_errors. cbn [errors].
  destruct (foldl check_room (true, []) (group_weekly weekly)) as [v es].
  by rewrite check_oasis_day_fold.
Qed.

(** X11. Appending the record returned by [add_adhoc_allocation] to the
    existing Oasis records, as the caller does, keeps an allocation valid. *)
Theorem add_adhoc_allocation_keeps_valid
    (clk : Clock) (person_name day : string)
    (weekly : list WeeklyAllocation.t) (existing : list OasisAllocation.t)
    (a : OasisAllocation.t) :
  valid (validate_allocation_results weekly existing) = true →
  add_adhoc_allocation clk person_name day existing = Some a →
  valid (validate_allocation_results weekly (existing ++ [a])) = true.
Proof.
  rewrite !valid_flag_errors, !validate_errors_split, !app_nil.
  intros [Hrooms Hoasis] Hadd. split; [done|].
  apply add_adhoc_allocation_Some in Hadd as (Hd & Hcount & Hfresh & ->).
  rewrite oasis_errors_nil in Hoasis |- *. intros d.
  rewrite people_on_snoc. cbn [new_allocation OasisAllocation.day_of_week
                                OasisAllocation.person_name].
  destruct (Hoasis d) as [Hlen Hnd].
  case_decide as Hday; [subst d|by rewrite app_nil_r].
  split.
  - rewrite length_app. cbn. unfold day_count, people_on in *.
    rewrite length_fmap. change (filter (oasis_on day) existing)
      with (filter (λ a, OasisAllocation.day_of_week a = day) existing). lia.
  - apply NoDup_app. split_and!; [done| |apply NoDup_singleton].
    by intros n Hn ->%list_elem_of_singleton.
Qed.

(** X12. [add_adhoc_allocation] returns nothing for a day that is not one
    of the five weekdays; a record it returns carries the date of its day in
    the current week, is not confirmed and is stamped with the current
    time. *)
Theorem add_adhoc_allocation_weekdays_only
    (clk : Clock) (person_name day : string) (existing : list OasisAllocation.t) :
  (day ∉ weekdays → add_adhoc_allocation clk person_name day existing = None) ∧
  (∀ a, add_adhoc_allocation clk person_name day existing = Some a →
        (∃ i, get_weekdays !! i = Some day ∧
              a = OasisAllocation.mk person_name (monday_plus clk i) day false None
                    (Some (now_isoformat clk)))).
Proof.
  split.
  - intros Hd. destruct (add_adhoc_allocation _ _ _ _) as [a|] eqn:E; [|done].
    by apply add_adhoc_allocation_Some in E as [? _].
  - intros a (Hd & _ & _ & ->)%add_adhoc_allocation_Some.
    destruct (week_date_lookup clk day Hd) as (i & Hi & Hdate).
    exists i. split; [done|]. unfold new_allocation. by rewrite Hdate.
Qed.

Lemma availability_lookup (existing : list OasisAllocation.t) (day : string) :
  get_daily_availability existing !! day =
  if decide (day ∈ weekdays)
  then Some (Z.max 0 (11 - Z.of_nat (day_count day existing)))
  else None.
Proof.
  case_decide as Hd.
  - pose proof (availability_weekday existing day Hd) as H.
    rewrite lookup_total_alt in H. unfold daily_capacity in H.
    destruct (get_daily_availability existing !! day) as [v|] eqn:E.
    + cbn in H. by rewrite H.
    + exfalso. revert E. unfold get_daily_availability.
      apply weekday_cases in Hd. unfold weekdays, get_weekdays. simpl foldl.
      destruct Hd as [-> | [-> | [-> | [-> | ->]]]];
        repeat (rewrite lookup_insert_ne by done); by rewrite lookup_insert_eq.
  - unfold get_daily_availability, weekdays, get_weekdays in *. simpl foldl.
    rewrite !elem_of_cons, elem_of_nil in Hd.
    rewrite !lookup_insert_ne by (intros E; subst; tauto). done.
Qed.

(** X13. [get_daily_availability] has exactly the five weekdays as keys;
    the entry of a weekday is 11 minus the number of its records, or 0 when
    there are more than 11, so that it lies between 0 and 11. *)
Theorem get_daily_availability_spec (existing : list OasisAllocation.t) (day : string) :
  (day ∈ weekdays →
   ∃ free, get_daily_availability existing !! day = Some free ∧
           0 ≤ free ≤ 11 ∧
           free = Z.max 0 (11 - Z.of_nat (day_count day existing))) ∧
  (day ∉ weekdays → get_daily_availability existing !! day = None).
Proof.
  rewrite availability_lookup. split; intros Hd.
  - rewrite decide_True by done. eexists. split; [done|]. lia.
  - by rewrite decide_False.
Qed.

Lemma add_adhoc_allocation_keeps_valid_witness :
  let a := OasisAllocation.mk "Zoe" "2024-01-01" "Monday" false None
             (Some "2024-01-01T09:00:00") in
  valid (validate_allocation_results [] sample_oasis) = true ∧
  add_adhoc_allocation sample_clock "Zoe" "Monday" sample_oasis = Some a ∧
  valid (validate_allocation_results [] (sample_oasis ++ [a])) = true.
Proof.
  intros a.
  assert (H1 : valid (validate_allocation_results [] sample_oasis) = true) by reflexivity.
  assert (H2 : add_adhoc_allocation sample_clock "Zoe" "Monday" sample_oasis = Some a)
    by reflexivity.
  split; [exact H1|]. split; [exact H2|].
  exact (add_adhoc_allocation_keeps_valid sample_clock "Zoe" "Monday" [] sample_oasis a H1 H2).
Defined.

Lemma add_adhoc_allocation_weekdays_only_witness :
  ("Sunday" ∉ weekdays) ∧
  add_adhoc_allocation sample_clock "Zoe" "Sunday" sample_oasis = None.
Proof.
  assert (H : "Sunday" ∉ weekdays).
  { unfold weekdays, get_weekdays. rewrite !elem_of_cons, elem_of_nil.
    intros [?|[?|[?|[?|[?|[]]]]]]; discriminate. }
  split; [exact H|].
  exact (proj1 (add_adhoc_allocation_weekdays_only sample_clock "Zoe" "Sunday"
                  sample_oasis) H).
Defined.

Lemma get_daily_availability_spec_witness :
  "Monday" ∈ weekdays ∧
  ∃ free, get_daily_availability sample_oasis !! "Monday" = Some free ∧
          0 ≤ free ≤ 11 ∧
          free = Z.max 0 (11 - Z.of_nat (day_count "Monday" sample_oasis)).
Proof.
  assert (H : "Monday" ∈ weekdays) by (unfold weekdays, get_weekdays; left).
  split; [exact H|].
  exact (proj1 (get_daily_availability_spec sample_oasis "Monday") H).
Defined.

(** ** Rooms shared by teams *)

Lemma allocate_rooms_within_capacity clk prefs g :
  NoDup (TeamPreference.team_name <$> prefs) →
  (∀ p, p ∈ prefs → 0 < TeamPreference.team_size p) →
  within_capacity (size_of prefs) (allocate_rooms clk prefs g).1.
Proof.
  intros Hnd Hpos.
  destruct (allocate_rooms_outcome clk prefs g)
    as (oMW & oTT & o2 & HMW & HTT & Ho2 & Ha & Hu & HcMW & HcTT & Hcap).
  apply Hcap.
  { intros t Ht. split; [by apply Hpos|by apply size_of_elem]. }
  intros r d. rewrite rload_app.
  rewrite !rload_records_of_const by (apply MW_NoDup || apply TT_NoDup).
  assert (HlMW : placed_load (λ t, size_of prefs (TeamPreference.team_name t)) oMW r
                 = placed_load TeamPreference.team_size oMW r).
  { apply placed_load_ext. intros t Ht. apply size_of_elem; [done|].
    rewrite HMW in Ht. by apply list_elem_of_filter in Ht as [_ ?]. }
  assert (HlTT : placed_load (λ t, size_of prefs (TeamPreference.team_name t)) oTT r
                 = placed_load TeamPreference.team_size oTT r).
  { apply placed_load_ext. intros t Ht. apply size_of_elem; [done|].
    rewrite HTT in Ht. by apply list_elem_of_filter in Ht as [_ ?]. }
  rewrite HlMW, HlTT. specialize (HcMW r). specialize (HcTT r).
  pose proof (room_capacity_nonneg r).
  destruct (decide (d ∈ MW)) as [H1|H1]; destruct (decide (d ∈ TT)) as [H2|H2]; try lia.
  exfalso. unfold MW, TT in *.
  rewrite !elem_of_cons, elem_of_nil in H1, H2.
  destruct H1 as [->|[->|[]]]; destruct H2 as [?|[?|[]]]; discriminate.
Qed.

Lemma rload_lower (sz : string → Z) (allocs : list WeeklyAllocation.t) (r d : string) :
  (∀ a, a ∈ allocs → 4 ≤ sz (WeeklyAllocation.team_name a)) →
  4 * Z.of_nat (length (filter (at_room_day r d) allocs)) ≤ rload sz allocs r d.
Proof.
  intros Hsz. unfold rload.
  assert (H : ∀ a, a ∈ filter (at_room_day r d) allocs →
                   4 ≤ sz (WeeklyAllocation.team_name a)).
  { intros a [_ Ha]%list_elem_of_filter. by apply Hsz. }
  induction (filter (at_room_day r d) allocs) as [|a l IH]; [done|].
  rewrite fmap_cons. cbn [Zsum foldr length]. change (foldr Z.add 0) with Zsum.
  assert (Ha : 4 ≤ sz (WeeklyAllocation.team_name a)) by (apply H; left).
  assert (4 * Z.of_nat (length l) ≤ Zsum ((λ a, sz (WeeklyAllocation.team_name a)) <$> l)).
  { apply IH. intros b Hb. apply H. by right. }
  lia.
Qed.

Lemma room_key_inj (r r' d d' : string) :
  r ∈ rooms → r' ∈ rooms → room_key r d = room_key r' d' → r = r' ∧ d = d'.
Proof.
  unfold rooms, get_available_rooms, room_key. intros Hr Hr'.
  elem_cases Hr; elem_cases Hr'; cbn; intros [= ?]; done.
Qed.

Lemma filter_equiv {A} (P Q : A → Prop) `{∀ x, Decision (P x)} `{∀ x, Decision (Q x)}
    (l : list A) :
  (∀ x, x ∈ l → P x ↔ Q x) → filter P l = filter Q l.
Proof.
  induction l as [|x l IH]; intros Hl; [done|].
  rewrite !filter_cons. rewrite IH by (intros; apply Hl; by right).
  destruct (decide (P x)) as [HP|HP]; destruct (decide (Q x)) as [HQ|HQ]; try done;
    exfalso; apply (Hl x) in HP || apply (Hl x) in HQ; done || left.
Qed.

(** X14. When the teams have distinct names and 4 people or more each, no
    two records of [allocate_rooms] share a room on a day, and the result
    passes [validate_allocation_results]. *)
Theorem large_teams_never_share_a_room
    (clk : Clock) (prefs : list TeamPreference.t) (g : Rng) :
  NoDup (TeamPreference.team_name <$> prefs) →
  (∀ p, p ∈ prefs → 4 ≤ TeamPreference.team_size p) →
  let result := allocate_rooms clk prefs g in
  (∀ room day, (length (filter (at_room_day room day) result.1) ≤ 1)%nat) ∧
  valid (validate_allocation_results result.1 []) = true.
Proof.
  intros Hnd Hsize result.
  pose proof (allocate_rooms_written clk prefs g) as Hw. rewrite Forall_forall in Hw.
  assert (Hone : ∀ room day, (length (filter (at_room_day room day) result.1) ≤ 1)%nat).
  { intros room day.
    pose proof (allocate_rooms_within_capacity clk prefs g Hnd) as Hcap.
    specialize (Hcap (λ p Hp, ltac:(specialize (Hsize p Hp); lia)) room day).
    pose proof (rload_lower (size_of prefs) result.1 room day) as Hlow.
    assert (room_capacity room ≤ 6).
    { unfold room_capacity. destruct (room_capacities !! room) as [c|] eqn:E; [|cbn; lia].
      apply elem_of_list_to_map_2 in E. cbn.
      repeat (apply elem_of_cons in E as [[= -> ->] | E]); [lia..|].
      by apply elem_of_nil in E. }
    fold result in Hcap. assert (∀ a, a ∈ result.1 →
                                 4 ≤ size_of prefs (WeeklyAllocation.team_name a)).
    { intros a Ha. destruct (Hw a Ha) as [(t & Ht & _ & -> & _) _].
      rewrite size_of_elem by done. by apply Hsize. }
    specialize (Hlow ltac:(done)). lia. }
  split; [done|].
  apply valid_flag_errors. rewrite validate_errors_split.
  change (oasis_errors []) with ([] : list string). rewrite app_nil_r.
  apply check_room_no_errors. intros [key teams] [-> Hne]%group_weekly_spec. cbn [snd].
  unfold teams_at in *. rewrite length_fmap.
  destruct (filter (λ a, weekly_key a = key) result.1) as [|a0 rest] eqn:E; [done|].
  assert (Ha0 : a0 ∈ filter (λ a, weekly_key a = key) result.1) by (rewrite E; left).
  apply list_elem_of_filter in Ha0 as [Hkey Ha0].
  rewrite <- E.
  rewrite (filter_equiv _ (at_room_day (WeeklyAllocation.room_name a0)
                             (WeeklyAllocation.day_of_week a0))); [apply Hone|].
  intros a Ha. unfold at_room_day. rewrite <- Hkey. unfold weekly_key.
  destruct (Hw a Ha) as [(_ & _ & _ & _ & Hr & _) _].
  destruct (Hw a0 Ha0) as [(_ & _ & _ & _ & Hr0 & _) _].
  split; [by apply room_key_inj|]. by intros [-> ->].
Qed.

Lemma two_small_teams_run clk date_map (days : list string) n1 c1 d1 s1 n2 c2 d2 s2 :
  days = ["Monday"; "Wednesday"] ∨ days = ["Tuesday"; "Thursday"] →
  let t1 := TeamPreference.mk n1 c1 3 d1 s1 in
  let t2 := TeamPreference.mk n2 c2 3 d2 s2 in
  let a := _allocate_teams_for_days clk [t1; t2] days date_map [] in
  a.2 = [] ∧
  WeeklyAllocation.room_name <$> a.1 = ["Room A"; "Room A"; "Room A"; "Room A"] ∧
  valid (validate_allocation_results a.1 []) = false.
Proof. intros [-> | ->]; vm_compute; done. Qed.

(** X15. Two teams of 3 people asking for the same day-pair are both placed
    in Room A, which holds 6; [validate_allocation_results] then reports the
    allocator's own result as invalid, as a room conflict. *)
Theorem two_teams_of_three_share_room_a
    (clk : Clock) (g : Rng) (t1 t2 : TeamPreference.t) :
  TeamPreference.team_size t1 = 3 → TeamPreference.team_size t2 = 3 →
  valid_days t1 → TeamPreference.preferred_days t2 = TeamPreference.preferred_days t1 →
  let result := allocate_rooms clk [t1; t2] g in
  result.2 = [] ∧
  WeeklyAllocation.room_name <$> result.1 = ["Room A"; "Room A"; "Room A"; "Room A"] ∧
  valid (validate_allocation_results result.1 []) = false.
Proof.
  intros Hs1 Hs2 Hv Hd result. unfold result. clear result.
  destruct (allocate_rooms_unfold clk [t1; t2] g) as (mw & tt & Hmw & Htt & ->).
  cbv zeta. set (date_map := date_map_of (get_current_week_dates clk)).
  destruct t1 as [n1 c1 z1 d1 s1], t2 as [n2 c2 z2 d2 s2]. cbn in Hs1, Hs2, Hd.
  subst z1 z2 d2. unfold valid_days in Hv. cbn in Hv.
  rewrite !filter_cons, filter_nil in Hmw, Htt. unfold wants in Hmw, Htt. cbn in Hmw, Htt.
  destruct Hv as [-> | ->].
  - rewrite !decide_True in Hmw by done. rewrite !decide_False in Htt by done.
    apply Permutation_nil_r in Htt as ->. symmetry in Hmw.
    apply Permutation_length_2_inv in Hmw as [-> | ->].
    + destruct (two_small_teams_run clk date_map ["Monday"; "Wednesday"]
                  n1 c1 mon_wed s1 n2 c2 mon_wed s2) as (H1 & H2 & H3); [by left|].
      cbn zeta in H1, H2, H3.
      destruct (_allocate_teams_for_days clk [_; _] _ date_map []) as [a u].
      cbn [fst snd] in *. subst u. cbn [app foldl]. rewrite app_nil_r. done.
    + destruct (two_small_teams_run clk date_map ["Monday"; "Wednesday"]
                  n2 c2 mon_wed s2 n1 c1 mon_wed s1) as (H1 & H2 & H3); [by left|].
      cbn zeta in H1, H2, H3.
      destruct (_allocate_teams_for_days clk [_; _] _ date_map []) as [a u].
      cbn [fst snd] in *. subst u. cbn [app foldl]. rewrite app_nil_r. done.
  - rewrite !decide_False in Hmw by done. rewrite !decide_True in Htt by done.
    apply Permutation_nil_r in Hmw as ->. symmetry in Htt.
    apply Permutation_length_2_inv in Htt as [-> | ->].
    + destruct (two_small_teams_run clk date_map ["Tuesday"; "Thursday"]
                  n1 c1 tue_thu s1 n2 c2 tue_thu s2) as (H1 & H2 & H3); [by right|].
      cbn zeta in H1, H2, H3.
      destruct (_allocate_teams_for_days clk [_; _] _ date_map []) as [a u].
      cbn [fst snd] in *. subst u. done.
    + destruct (two_small_teams_run clk date_map ["Tuesday"; "Thursday"]
                  n2 c2 tue_thu s2 n1 c1 tue_thu s1) as (H1 & H2 & H3); [by right|].
      cbn zeta in H1, H2, H3.
      destruct (_allocate_teams_for_days clk [_; _] _ date_map []) as [a u].
      cbn [fst snd] in *. subst u. done.
Qed.

Lemma large_teams_never_share_a_room_witness :
  NoDup (TeamPreference.team_name <$> large_teams) ∧
  (∀ p, p ∈ large_teams → 4 ≤ TeamPreference.team_size p) ∧
  let result := allocate_rooms sample_clock large_teams [] in
  (∀ room day, (length (filter (at_room_day room day) result.1) ≤ 1)%nat) ∧
  valid (validate_allocation_results result.1 []) = true.
Proof.
  assert (H1 : NoDup (TeamPreference.team_name <$> large_teams)).
  { apply (bool_decide_unpack _). vm_compute. exact I. }
  assert (H2 : ∀ p, p ∈ large_teams → 4 ≤ TeamPreference.team_size p).
  { intros p Hp. unfold large_teams in Hp. elem_cases Hp; simpl; lia. }
  split; [exact H1|]. split; [exact H2|].
  exact (large_teams_never_share_a_room sample_clock large_teams [] H1 H2).
Defined.

Lemma two_teams_of_three_share_room_a_witness :
  let t1 := TeamPreference.mk "Alpha" "Ann" 3 mon_wed (Some (Q2Qc 1704096000)) in
  let t2 := TeamPreference.mk "Delta" "Dee" 3 mon_wed None in
  TeamPreference.team_size t1 = 3 ∧ TeamPreference.team_size t2 = 3 ∧
  valid_days t1 ∧ TeamPreference.preferred_days t2 = TeamPreference.preferred_days t1 ∧
  let result := allocate_rooms sample_clock [t1; t2] [] in
  result.2 = [] ∧
  WeeklyAllocation.room_name <$> result.1 = ["Room A"; "Room A"; "Room A"; "Room A"] ∧
  valid (validate_allocation_results result.1 []) = false.
Proof.
  intros t1 t2.
  assert (H1 : TeamPreference.team_size t1 = 3) by reflexivity.
  assert (H2 : TeamPreference.team_size t2 = 3) by reflexivity.
  assert (H3 : valid_days t1) by (left; reflexivity).
  assert (H4 : TeamPreference.preferred_days t2 = TeamPreference.preferred_days t1)
    by reflexivity.
  split; [exact H1|]. split; [exact H2|]. split; [exact H3|]. split; [exact H4|].
  exact (two_teams_of_three_share_room_a sample_clock [] t1 t2 H1 H2 H3 H4).
Defined.

(** ** The validators of the submission form *)

Import InputValidator.

Lemma weekdays_length (days : list string) :
  NoDup days → (∀ d, d ∈ days → d ∈ get_weekdays) → (length days ≤ 5)%nat.
Proof.
  intros Hnd Hsub. change 5%nat with (length get_weekdays).
  by apply submseteq_length, NoDup_submseteq.
Qed.

Lemma validate_oasis_days_accepts (days : list string) :
  (validate_oasis_days days).1 = true ↔
  days ≠ [] ∧ (∀ d, d ∈ days → d ∈ get_weekdays) ∧ NoDup days.
Proof.
  unfold validate_oasis_days. destruct days as [|d0 days]; [by split; [|intros [? _]]|].
  set (l := d0 :: days). fold get_weekdays.
  destruct (decide (5 < length l)%nat) as [Hlen|Hlen].
  { split; [done|]. intros (_ & Hsub & Hnd).
    pose proof (weekdays_length l Hnd Hsub). lia. }
  destruct (decide (Exists (λ day, day ∉ get_weekdays) l)) as [Hex|Hex].
  { split; [done|]. intros (_ & Hsub & _). exfalso.
    apply Exists_exists in Hex as (d & Hd & Hnot). by apply Hnot, Hsub. }
  destruct (decide (length l ≠ length (remove_dups l))) as [Hdup|Hdup].
  { split; [done|]. intros (_ & _ & Hnd). exfalso. by apply Hdup, length_remove_dups. }
  split; [|done]. intros _. split_and!; [done| |].
  - intros d Hd. destruct (decide (d ∈ get_weekdays)) as [|Hnot]; [done|].
    exfalso. apply Hex, Exists_exists. by exists d.
  - apply length_remove_dups. by apply dec_stable.
Qed.

(** X16. [validate_oasis_days] accepts a selection, and returns it unchanged,
    exactly when it is not empty, holds weekdays only and holds none twice;
    otherwise it returns the empty list. Its test on the length never
    decides. *)
Theorem validate_oasis_days_spec (days : list string) :
  validate_oasis_days days =
  if decide (days ≠ [] ∧ Forall (λ d, d ∈ get_weekdays) days ∧ NoDup days)
  then (true, days) else (false, []).
Proof.
  pose proof (validate_oasis_days_accepts days) as H.
  rewrite <- Forall_forall in H.
  destruct (decide _) as [Hok|Hno].
  - apply H in Hok. revert Hok. unfold validate_oasis_days.
    destruct days; [done|]. repeat case_decide; done.
  - assert ((validate_oasis_days days).1 ≠ true) as Hne by (by rewrite H).
    revert Hne. unfold validate_oasis_days.
    destruct days; [done|]. repeat case_decide; done.
Qed.

Section validation.
Variable str_strip : string → string.

Lemma name_errors_nil required too_short too_long name :
  Models.name_errors str_strip required too_short too_long name = [] ↔
  name_ok str_strip name.
Proof.
  unfold Models.name_errors, name_ok.
  destruct (decide (name = "" ∨ str_strip name = "")) as [Hreq|Hreq].
  { split; [done|]. intros [Hne Hlen]. destruct Hreq as [?|E]; [done|].
    rewrite E in Hlen. simpl in Hlen. lia. }
  destruct (decide (String.length (str_strip name) < 2)%nat) as [Hshort|Hshort].
  { split; [done|]. intros [_ ?]. lia. }
  destruct (decide (50 < String.length (str_strip name))%nat) as [Hlong|Hlong].
  { split; [done|]. intros [_ ?]. lia. }
  split; [|done]. intros _. split; [tauto|lia].
Qed.

(** X17. [OasisPreference.validate] reports no error exactly when the name
    passes the tests on names and [validate_oasis_days] accepts the preferred
    days: the two validations of the days agree. *)
Theorem oasis_validate_agrees (self : Models.oasis_preference) :
  Models.oasis_validate str_strip self = [] ↔
  name_ok str_strip (Models.person_name self) ∧
  (validate_oasis_days (Models.preferred_days self)).1 = true.
Proof.
  unfold Models.oasis_validate. rewrite app_nil, name_errors_nil.
  apply and_iff_compat_l. fold get_weekdays.
  unfold validate_oasis_days. fold get_weekdays.
  destruct (Models.preferred_days self) as [|d0 days]; [done|].
  set (l := d0 :: days).
  destruct (decide (5 < length l)%nat); [done|].
  rewrite app_nil.
  destruct (decide (Exists (λ day, day ∉ get_weekdays) l)) as [Hex|Hex].
  - split; [|done]. intros [Hnil%fmap_nil_inv _]. exfalso.
    apply Exists_exists in Hex as (d & Hd & Hnot).
    assert (d ∈ filter (λ day, day ∉ get_weekdays) l) as Hin
      by (by apply list_elem_of_filter).
    rewrite Hnil in Hin. by apply elem_of_nil in Hin.
  - rewrite filter_none.
    2:{ intros d Hd Hnot. apply Hex, Exists_exists. by exists d. }
    case_decide; split; try done. by intros [_ ?].
Qed.

(** X18. [TeamPreference.validate] reports no error exactly when both names
    pass the tests on names, [validate_team_size] accepts the size and
    [validate_preferred_days] accepts the days. *)
Theorem team_validate_agrees (self : TeamPreference.t) :
  Models.team_validate str_strip self = [] ↔
  name_ok str_strip (TeamPreference.team_name self) ∧
  name_ok str_strip (TeamPreference.contact_person self) ∧
  validate_team_size (TeamPreference.team_size self) =
    (true, TeamPreference.team_size self) ∧
  validate_preferred_days (TeamPreference.preferred_days self) =
    (true, TeamPreference.preferred_days self).
Proof.
  unfold Models.team_validate, validate_team_size, validate_preferred_days.
  rewrite !app_nil, !name_errors_nil.
  repeat case_decide; split; intros (? & ? & ? & ?); done.
Qed.
End validation.

Lemma truthy_day_lookup (days : list string) (i : nat) :
  truthy_day (days !! i) = filter (λ d, d ≠ "") (take 1 (drop i days)).
Proof.
  revert days. induction i as [|i IH]; intros [|d days]; try done.
  - change (truthy_day (Some d) = filter (λ d, d ≠ "") [d]).
    rewrite filter_cons, filter_nil. cbn [truthy_day].
    by destruct (decide (d = "")); case_decide.
  - apply IH.
Qed.

Lemma oasis_to_dict_parse (str_strip : string → string) (clk : Clock)
    (self : Models.oasis_preference) :
  parse_preferred_days_from_oasis_pref
    (Storage.stamped clk (Models.oasis_to_dict str_strip self)) =
  filter (λ d, d ≠ "") (take 5 (Models.preferred_days self)).
Proof.
  unfold parse_preferred_days_from_oasis_pref. cbn.
  rewrite !truthy_day_lookup, <- !filter_app. f_equal.
  destruct (Models.preferred_days self) as [|d1 [|d2 [|d3 [|d4 [|d5 rest]]]]]; done.
Qed.

Lemma oasis_to_dict_round_trip_days (str_strip : string → string) (clk : Clock)
    (self : Models.oasis_preference) :
  (validate_oasis_days (Models.preferred_days self)).1 = true →
  parse_preferred_days_from_oasis_pref
    (Storage.stamped clk (Models.oasis_to_dict str_strip self)) =
  Models.preferred_days self.
Proof.
  rewrite oasis_to_dict_parse.
  intros (Hne & Hsub & Hnd)%validate_oasis_days_accepts.
  rewrite take_ge by (by apply weekdays_length).
  apply filter_all. intros d Hd%Hsub ->.
  unfold get_weekdays in Hd. rewrite !elem_of_cons, elem_of_nil in Hd.
  destruct Hd as [?|[?|[?|[?|[?|[]]]]]]; discriminate.
Qed.

(** X19. Round trip of the preferred days: from the dictionary that
    [OasisPreference.to_dict] makes and the storage stamps,
    [parse_preferred_days_from_oasis_pref] reads the first five preferred
    days that are not empty; for days that [validate_oasis_days] accepts,
    these are the preferred days themselves. *)
Theorem oasis_to_dict_round_trip (str_strip : string → string) (clk : Clock)
    (self : Models.oasis_preference) :
  let stored := Storage.stamped clk (Models.oasis_to_dict str_strip self) in
  parse_preferred_days_from_oasis_pref stored =
    filter (λ d, d ≠ "") (take 5 (Models.preferred_days self)) ∧
  ((validate_oasis_days (Models.preferred_days self)).1 = true →
   parse_preferred_days_from_oasis_pref stored = Models.preferred_days self).
Proof.
  split; [apply oasis_to_dict_parse|apply oasis_to_dict_round_trip_days].
Qed.

(** ** The preference files *)

Section storage.
Variables str_strip str_lower : string → string.

Let normalized := Storage.normalized str_strip str_lower.

Lemma add_weekly_preference_cases now preference preferences :
  let r := Storage.add_weekly_preference str_strip str_lower now preference preferences in
  (r = (false, preferences) ∧
   normalized (TeamPreference.team_name preference) ∈
     (normalized ∘ TeamPreference.team_name) <$> preferences) ∨
  (r = (true, preferences ++
          [TeamPreference.mk (TeamPreference.team_name preference)
             (TeamPreference.contact_person preference)
             (TeamPreference.team_size preference)
             (TeamPreference.preferred_days preference) (Some now)]) ∧
   normalized (TeamPreference.team_name preference) ∉
     (normalized ∘ TeamPreference.team_name) <$> preferences).
Proof.
  unfold Storage.add_weekly_preference. cbv zeta. fold normalized.
  destruct (decide (Exists _ preferences)) as [Hex|Hex].
  - left. split; [done|]. apply Exists_exists in Hex as (e & He & Heq).
    apply list_elem_of_fmap. exists e. done.
  - right. split; [done|]. intros (e & Heq & He)%list_elem_of_fmap.
    apply Hex, Exists_exists. exists e. done.
Qed.

Lemma add_oasis_preference_cases clk preference preferences :
  let r := Storage.add_oasis_preference str_strip str_lower clk preference preferences in
  (r = (false, preferences) ∧
   normalized (Models.dict_person_name preference) ∈
     (normalized ∘ OasisPreference.person_name) <$> preferences) ∨
  (r = (true, preferences ++ [Storage.stamped clk preference]) ∧
   normalized (Models.dict_person_name preference) ∉
     (normalized ∘ OasisPreference.person_name) <$> preferences).
Proof.
  unfold Storage.add_oasis_preference. cbv zeta. fold normalized.
  destruct (decide (Exists _ preferences)) as [Hex|Hex].
  - left. split; [done|]. apply Exists_exists in Hex as (e & He & Heq).
    apply list_elem_of_fmap. exists e. done.
  - right. split; [done|]. intros (e & Heq & He)%list_elem_of_fmap.
    apply Hex, Exists_exists. exists e. done.
Qed.

Lemma submit_team_fold (P : TeamPreference.t → Prop)
    (subs : list (Qc * TeamPreference.t)) :
  (∀ s, s ∈ subs →
        P (TeamPreference.mk (str_strip (TeamPreference.team_name s.2))
             (str_strip (TeamPreference.contact_person s.2))
             (TeamPreference.team_size s.2) (TeamPreference.preferred_days s.2)
             (Some s.1))) →
  let stored := foldl (submit_team str_strip str_lower) [] subs in
  NoDup ((normalized ∘ TeamPreference.team_name) <$> stored) ∧ Forall P stored.
Proof.
  intros HP. induction subs as [|s subs IH] using rev_ind; cbn zeta.
  - split; constructor.
  - rewrite foldl_app. cbn [foldl].
    destruct IH as [Hnd Hall]; [intros; apply HP, elem_of_app; by left|].
    generalize dependent (foldl (submit_team str_strip str_lower) [] subs).
    intros st Hnd Hall. unfold submit_team.
    destruct (add_weekly_preference_cases s.1 (Models.team_to_dict str_strip s.2) st)
      as [[-> _]|[-> Hfresh]]; cbn [snd]; [by split|].
    split.
    + rewrite fmap_app. apply NoDup_app. split_and!; [done| |apply NoDup_singleton].
      intros n Hn Hin. apply list_elem_of_singleton in Hin. subst n.
      apply Hfresh. exact Hn.
    + apply Forall_app. split; [done|]. constructor; [|constructor].
      apply HP, elem_of_app. right. left.
Qed.

Lemma submit_person_fold (P : OasisPreference.t → Prop)
    (subs : list (Clock * Models.oasis_preference)) :
  (∀ s, s ∈ subs → P (Storage.stamped s.1 (Models.oasis_to_dict str_strip s.2))) →
  let stored := foldl (submit_person str_strip str_lower) [] subs in
  NoDup ((normalized ∘ OasisPreference.person_name) <$> stored) ∧ Forall P stored.
Proof.
  intros HP. induction subs as [|s subs IH] using rev_ind; cbn zeta.
  - split; constructor.
  - rewrite foldl_app. cbn [foldl].
    destruct IH as [Hnd Hall]; [intros; apply HP, elem_of_app; by left|].
    generalize dependent (foldl (submit_person str_strip str_lower) [] subs).
    intros st Hnd Hall. unfold submit_person.
    destruct (add_oasis_preference_cases s.1 (Models.oasis_to_dict str_strip s.2) st)
      as [[-> _]|[-> Hfresh]]; cbn [snd]; [by split|].
    split.
    + rewrite fmap_app. apply NoDup_app. split_and!; [done| |apply NoDup_singleton].
      intros n Hn Hin. apply list_elem_of_singleton in Hin. subst n.
      apply Hfresh. exact Hn.
    + apply Forall_app. split; [done|]. constructor; [|constructor].
      apply HP, elem_of_app. right. left.
Qed.

(** X20. The team preferences that reach the file through the submission
    form, with a size and days that the validators accept, meet what the
    allocator expects: distinct team names, sizes from 3 to 6, one of the two
    day-pairs, and a submission time. *)
Theorem submitted_teams_meet_preconditions (subs : list (Qc * TeamPreference.t)) :
  (∀ s, s ∈ subs →
        validate_team_size (TeamPreference.team_size s.2) =
          (true, TeamPreference.team_size s.2) ∧
        validate_preferred_days (TeamPreference.preferred_days s.2) =
          (true, TeamPreference.preferred_days s.2)) →
  let stored := foldl (submit_team str_strip str_lower) [] subs in
  NoDup (TeamPreference.team_name <$> stored) ∧
  ∀ p, p ∈ stored →
       3 ≤ TeamPreference.team_size p ≤ 6 ∧ valid_days p ∧
       is_Some (TeamPreference.submission_time p).
Proof.
  intros Hsubs stored.
  destruct (submit_team_fold
              (λ p, 3 ≤ TeamPreference.team_size p ≤ 6 ∧ valid_days p ∧
                    is_Some (TeamPreference.submission_time p)) subs) as [Hnd Hall].
  - intros s [Hsize Hdays]%Hsubs. cbn.
    unfold validate_team_size, validate_preferred_days in *.
    destruct (decide (_ ∨ _)) as [|Hs]; [done|].
    destruct (decide (_ ∈ _)) as [Hd|]; [|done].
    split_and!; [lia..| |by eexists].
    unfold valid_days, mon_wed, tue_thu. cbn.
    rewrite !elem_of_cons, elem_of_nil in Hd. tauto.
  - split.
    + rewrite list_fmap_compose in Hnd. by apply NoDup_fmap_1 in Hnd.
    + by apply Forall_forall.
Qed.

(** X21. The Oasis preferences that reach the file through the submission
    form, with days that [validate_oasis_days] accepts, meet what the
    allocator expects: distinct person names, and for every person a list of
    preferred days that is not empty, holds weekdays only and holds none
    twice. *)
Theorem submitted_people_meet_preconditions
    (subs : list (Clock * Models.oasis_preference)) :
  (∀ s, s ∈ subs → (validate_oasis_days (Models.preferred_days s.2)).1 = true) →
  let stored := foldl (submit_person str_strip str_lower) [] subs in
  NoDup (OasisPreference.person_name <$> stored) ∧
  ∀ p, p ∈ stored →
       parse_preferred_days_from_oasis_pref p ≠ [] ∧ weekday_preference p ∧
       NoDup (parse_preferred_days_from_oasis_pref p).
Proof.
  intros Hsubs stored.
  destruct (submit_person_fold
              (λ p, parse_preferred_days_from_oasis_pref p ≠ [] ∧ weekday_preference p ∧
                    NoDup (parse_preferred_days_from_oasis_pref p)) subs) as [Hnd Hall].
  - intros s Hs%Hsubs.
    pose proof (oasis_to_dict_round_trip_days str_strip s.1 s.2 Hs) as Hparse.
    unfold weekday_preference. rewrite Hparse.
    by apply validate_oasis_days_accepts in Hs as (? & ? & ?).
  - split.
    + rewrite list_fmap_compose in Hnd. by apply NoDup_fmap_1 in Hnd.
    + by apply Forall_forall.
Qed.

(** X22. After [add_weekly_preference] or [add_oasis_preference] has run
    for a name, accepted or not, a submission under a name that is the same
    after stripping and lowering is rejected and leaves the file as it
    is. *)
Theorem second_submission_rejected :
  (∀ now now' preference preference' preferences,
     normalized (TeamPreference.team_name preference') =
       normalized (TeamPreference.team_name preference) →
     let r := Storage.add_weekly_preference str_strip str_lower now preference preferences in
     Storage.add_weekly_preference str_strip str_lower now' preference' r.2 = (false, r.2)) ∧
  (∀ clk clk' preference preference' preferences,
     normalized (Models.dict_person_name preference') =
       normalized (Models.dict_person_name preference) →
     let r := Storage.add_oasis_preference str_strip str_lower clk preference preferences in
     Storage.add_oasis_preference str_strip str_lower clk' preference' r.2 = (false, r.2)).
Proof.
  split.
  - intros now now' pref pref' prefs Hname r.
    destruct (add_weekly_preference_cases now' pref' r.2) as [[-> _]|[_ Hfresh]]; [done|].
    exfalso. apply Hfresh. rewrite Hname. unfold r.
    destruct (add_weekly_preference_cases now pref prefs) as [[-> Hin]|[-> _]]; [done|].
    cbn [snd]. rewrite fmap_app. apply elem_of_app. right. left.
  - intros clk clk' pref pref' prefs Hname r.
    destruct (add_oasis_preference_cases clk' pref' r.2) as [[-> _]|[_ Hfresh]]; [done|].
    exfalso. apply Hfresh. rewrite Hname. unfold r.
    destruct (add_oasis_preference_cases clk pref prefs) as [[-> Hin]|[-> _]]; [done|].
    cbn [snd]. rewrite fmap_app. apply elem_of_app. right. left.
Qed.
End storage.

Lemma oasis_to_dict_round_trip_witness :
  let self := {| Models.person_name := "Ann"; Models.preferred_days := ["Monday"; "Friday"];
                 Models.submission_time := None |} in
  (validate_oasis_days (Models.preferred_days self)).1 = true ∧
  parse_preferred_days_from_oasis_pref
    (Storage.stamped sample_clock (Models.oasis_to_dict ascii_strip self)) =
  Models.preferred_days self.
Proof.
  intros self.
  assert (H : (validate_oasis_days (Models.preferred_days self)).1 = true) by reflexivity.
  split; [exact H|].
  exact (proj2 (oasis_to_dict_round_trip ascii_strip sample_clock self) H).
Defined.

Lemma submitted_teams_meet_preconditions_witness :
  (∀ s, s ∈ sample_team_submissions →
        validate_team_size (TeamPreference.team_size s.2) =
          (true, TeamPreference.team_size s.2) ∧
        validate_preferred_days (TeamPreference.preferred_days s.2) =
          (true, TeamPreference.preferred_days s.2)) ∧
  let stored := foldl (submit_team ascii_strip ascii_lower) [] sample_team_submissions in
  NoDup (TeamPreference.team_name <$> stored) ∧
  ∀ p, p ∈ stored →
       3 ≤ TeamPreference.team_size p ≤ 6 ∧ valid_days p ∧
       is_Some (TeamPreference.submission_time p).
Proof.
  assert (H : ∀ s, s ∈ sample_team_submissions →
                   validate_team_size (TeamPreference.team_size s.2) =
                     (true, TeamPreference.team_size s.2) ∧
                   validate_preferred_days (TeamPreference.preferred_days s.2) =
                     (true, TeamPreference.preferred_days s.2)).
  { intros s Hs. unfold sample_team_submissions in Hs. elem_cases Hs; split; reflexivity. }
  split; [exact H|].
  exact (submitted_teams_meet_preconditions ascii_strip ascii_lower
           sample_team_submissions H).
Defined.

Lemma submitted_people_meet_preconditions_witness :
  (∀ s, s ∈ sample_person_submissions →
        (validate_oasis_days (Models.preferred_days s.2)).1 = true) ∧
  let stored := foldl (submit_person ascii_strip ascii_lower) [] sample_person_submissions in
  NoDup (OasisPreference.person_name <$> stored) ∧
  ∀ p, p ∈ stored →
       parse_preferred_days_from_oasis_pref p ≠ [] ∧ weekday_preference p ∧
       NoDup (parse_preferred_days_from_oasis_pref p).
Proof.
  assert (H : ∀ s, s ∈ sample_person_submissions →
                   (validate_oasis_days (Models.preferred_days s.2)).1 = true).
  { intros s Hs. unfold sample_person_submissions in Hs. elem_cases Hs; reflexivity. }
  split; [exact H|].
  exact (submitted_people_meet_preconditions ascii_strip ascii_lower
           sample_person_submissions H).
Defined.

Lemma second_submission_rejected_witness :
  let first := TeamPreference.mk "Alpha" "Ann" 3 mon_wed None in
  let second := TeamPreference.mk " ALPHA " "Amy" 4 tue_thu None in
  Storage.normalized ascii_strip ascii_lower (TeamPreference.team_name second) =
    Storage.normalized ascii_strip ascii_lower (TeamPreference.team_name first) ∧
  let r := Storage.add_weekly_preference ascii_strip ascii_lower (Q2Qc 1704096000)
             first [] in
  Storage.add_weekly_preference ascii_strip ascii_lower (Q2Qc 1704099600) second r.2 =
    (false, r.2).
Proof.
  intros first second.
  assert (H : Storage.normalized ascii_strip ascii_lower (TeamPreference.team_name second) =
              Storage.normalized ascii_strip ascii_lower (TeamPreference.team_name first))
    by reflexivity.
  split; [exact H|].
  exact (proj1 (second_submission_rejected ascii_strip ascii_lower)
           (Q2Qc 1704096000) (Q2Qc 1704099600) first second [] H).
Defined.

(** ** Grouping by day *)

Lemma append_to_spec day allocation grouped :
  Grouping.append_to day allocation grouped =
  (λ entry, (entry.1, entry.2 ++ if decide (entry.1 = day) then [allocation] else []))
    <$> grouped.
Proof.
  unfold Grouping.append_to. apply list_fmap_ext. intros i [k l] _. cbn.
  case_decide; [done|]. by rewrite app_nil_r.
Qed.

Lemma group_allocations_by_day_eq (allocations : list OasisAllocation.t) :
  Grouping.group_allocations_by_day allocations =
  (λ day, (day, filter (oasis_on day) allocations)) <$> get_weekdays.
Proof.
  unfold Grouping.group_allocations_by_day.
  induction allocations as [|a allocations IH] using rev_ind; [done|].
  rewrite foldl_app. cbn [foldl]. rewrite IH. clear IH.
  rewrite <- list_fmap_compose.
  replace ((fst ∘ (λ day, (day, filter (oasis_on day) allocations))) <$> get_weekdays)
    with get_weekdays by (by rewrite list_fmap_id).
  destruct (decide (OasisAllocation.day_of_week a ∈ get_weekdays)) as [Hin|Hnot].
  - rewrite append_to_spec, <- list_fmap_compose. apply list_fmap_ext.
    intros i day _. cbn. rewrite filter_app, filter_cons, filter_nil.
    unfold oasis_on. f_equal. f_equal.
    destruct (decide (day = OasisAllocation.day_of_week a)) as [->|Hne].
    + by rewrite decide_True.
    + by rewrite decide_False.
  - apply list_fmap_ext. intros i day Hday. f_equal.
    rewrite filter_app, filter_cons, filter_nil.
    rewrite decide_False; [by rewrite app_nil_r|].
    unfold oasis_on. intros E. apply Hnot. rewrite E.
    by eapply list_elem_of_lookup_2.
Qed.

(** X23. [group_allocations_by_day] has the five weekdays as keys, in their
    order; under each weekday it holds exactly the records of that day, in
    the order of the input, and records of other days are left out. The
    groups agree with [get_daily_availability]: the availability of a day is
    11 minus the size of its group, or 0. *)
Theorem group_allocations_by_day_spec (allocations : list OasisAllocation.t) :
  let grouped := Grouping.group_allocations_by_day allocations in
  grouped.*1 = get_weekdays ∧
  (∀ day records, (day, records) ∈ grouped ↔
                  day ∈ get_weekdays ∧ records = filter (oasis_on day) allocations) ∧
  (∀ day records, (day, records) ∈ grouped →
     get_daily_availability allocations !! day =
     Some (Z.max 0 (11 - Z.of_nat (length records)))).
Proof.
  intros grouped. unfold grouped. rewrite group_allocations_by_day_eq.
  assert (Hiff : ∀ day records,
            (day, records) ∈ (λ day, (day, filter (oasis_on day) allocations)) <$> get_weekdays
            ↔ day ∈ get_weekdays ∧ records = filter (oasis_on day) allocations).
  { intros day records. rewrite list_elem_of_fmap. split.
    - intros (d & [= -> ->] & Hd). done.
    - intros [Hd ->]. by exists day. }
  split_and!; [by rewrite <- list_fmap_compose, list_fmap_id|done|].
  intros day records [Hd ->]%Hiff.
  rewrite availability_lookup. rewrite decide_True by done. done.
Qed.
